(** * SIOP-OID4VP: the relying-party builder and the authentication response

    A shallow embedding of two classes of the repository, both found in
    src/rp/Builder.ts:

    - [Builder]: the list of supported protocol versions (module
      [RPBuilder]) and the class as a whole, with its chains of calls
      (module [RP]);
    - [AuthenticationResponse] and its module-level helpers: building the
      identity token and the response payload, and verifying a received
      response.

    JavaScript values are modelled as the code uses them: an optional
    property is an [option], a string is tested for truthiness (the empty
    string counts as missing), a number is an IEEE 754 double, a thrown
    [Error] is the [Err] branch of [Outcome], and a call to code of another
    module is a function of the environment record whose invocation is
    written to an event log. *)

From stdpp Require Import base option list strings gmap.
From Stdlib Require Import ZArith Floats.

(** ** JavaScript values *)

Module JS.

(** [!!s] for a possibly undefined string. *)
Definition truthy (s : option string) : bool :=
  match s with
  | Some EmptyString => false
  | Some _ => true
  | None => false
  end.

(** [a || b] where [b] is a string. *)
Definition or_str (a : option string) (b : string) : string :=
  match a with
  | Some s => if truthy a then s else b
  | None => b
  end.

(** Numbers are doubles: the binary64 floats of the kernel, with their
    division, addition and comparisons.

    [!!x] for a number: 0, -0 and NaN are falsy. *)
Definition truthy_number (x : float) : bool :=
  negb (PrimFloat.eqb x 0%float || PrimFloat.is_nan x).

(** [a || b] where [b] is a number. *)
Definition or_num (a : option float) (b : float) : float :=
  match a with
  | Some x => if truthy_number x then x else b
  | None => b
  end.

(** [!!n] for a possibly undefined number. *)
Definition truthy_num (n : option float) : bool :=
  match n with
  | Some x => truthy_number x
  | None => false
  end.

(** [!!o] for a possibly undefined object. *)
Definition defined {A} (o : option A) : bool :=
  match o with Some _ => true | None => false end.

(** [s.includes(sub)] *)
Definition includes (s sub : string) : bool :=
  match String.index 0 sub s with Some _ => true | None => false end.

(** [a < b] on numbers; false when one of them is NaN. *)
Definition lt (a b : float) : bool := PrimFloat.ltb a b.

(** [a < b] where [a] may be undefined: comparing undefined is false. *)
Definition lt_num (a : option float) (b : float) : bool :=
  match a with
  | Some x => lt x b
  | None => false
  end.

(** The number that an integer is: the nearest double (the integer itself
    below 2^53). *)
Definition of_integer (z : Z) : float :=
  SF2Prim (binary_normalize prec emax z 0 false).

End JS.

(** ** Errors *)

(** The members of [SIOPErrors].  The last five are referenced by
    [AuthenticationResponse] and are not declared by the enum under
    src/. *)
Inductive SIOPErrors :=
| BAD_PARAMS
| MALFORMED_SIGNATURE_RESPONSE
| NO_ALG_SUPPORTED
| NO_KEY_CURVE_SUPPORTED
| ERROR_VERIFYING_SIGNATURE
| ERROR_VALIDATING_NONCE
| NO_AUDIENCE
| NO_NONCE
| INVALID_AUDIENCE
| REQUEST_OBJECT_TYPE_NOT_SET
| NO_REFERENCE_URI
| NO_IDENTIFIERS_URI
| BAD_SIGNATURE_PARAMS
| REGISTRATION_NOT_SET
| REGISTRATION_OBJECT_TYPE_NOT_SET
| SIGNATURE_OBJECT_TYPE_NOT_SET
| DIDAUTH_REQUEST_PAYLOAD_NOT_CREATED
| VERIFY_BAD_PARAMS
| VERIFICATION_METHOD_NOT_SUPPORTED
| ERROR_RETRIEVING_DID_DOCUMENT
| NO_ISS_DID
| BAD_INTERNAL_VERIFICATION_PARAMS
| ISS_DID_NOT_JWKS_URI_DID
| ERROR_RETRIEVING_VERIFICATION_METHOD
| VERIFICATION_METHOD_NO_MATCH
| NO_SELFISSUED_ISS
| RESPONSE_AUD_MISMATCH_REDIRECT_URI
| SUB_JWK_NOT_FOUND_OR_NOT_KID
| NO_ALG_SUPPORTED_YET
| JWK_THUMBPRINT_MISMATCH_SUB
| ERROR_ON_POST_CALL
| NO_DID_PAYLOAD
| NO_JWT
| EXPIRED
| VERIFIABLE_PRESENTATION_VERIFICATION_FUNCTION_MISSING
| AUTH_REQUEST_EXPECTS_VP
| AUTH_REQUEST_DOESNT_EXPECT_VP
| REQUEST_CLAIMS_PRESENTATION_DEFINITION_NOT_VALID.

(** Whether the enum under src/ declares the member.  A member that it
    does not declare evaluates to undefined there, so that the errors made
    from two such members carry the same (empty) message; an error is named
    here by the member its [throw] names. *)
Definition declared (e : SIOPErrors) : bool :=
  match e with
  | EXPIRED
  | VERIFIABLE_PRESENTATION_VERIFICATION_FUNCTION_MISSING
  | AUTH_REQUEST_EXPECTS_VP
  | AUTH_REQUEST_DOESNT_EXPECT_VP
  | REQUEST_CLAIMS_PRESENTATION_DEFINITION_NOT_VALID => false
  | _ => true
  end.

(** What a [throw] carries. *)
Inductive Thrown :=
| SIOPError (e : SIOPErrors)
    (* new Error(SIOPErrors.e) *)
| SIOPErrorGot (e : SIOPErrors) (got : option string)
    (* new Error(`${SIOPErrors.e}, got: ${got}`) *)
| PlainError (msg : string)
    (* Error('msg') *)
| TypeError.
    (* a property read on undefined *)

Inductive Outcome (A : Type) :=
| Ok (a : A)
| Err (e : Thrown).
Arguments Ok {A} a.
Arguments Err {A} e.

Definition is_Ok {A} (o : Outcome A) : bool :=
  match o with Ok _ => true | Err _ => false end.

(** ** Builder: supported versions *)

Module RPBuilder.

(** [SupportedVersion] is a numeric enum. *)
Definition SupportedVersion := Z.

(** The part of the builder's state that the version methods touch; the
    field is declared without initialiser, so it starts undefined. *)
Record Builder := mkBuilder {
  supportedVersions : option (list SupportedVersion)
}.

Definition initSupportedVersions (b : Builder) : Builder :=
  match supportedVersions b with
  | None => mkBuilder (Some [])
  | Some _ => b
  end.

Definition addSupportedVersion (supportedVersion : SupportedVersion) (b : Builder) : Builder :=
  let b := initSupportedVersions b in
  match supportedVersions b with
  | Some vs =>
      if decide (supportedVersion ∈ vs) then b
      else mkBuilder (Some (vs ++ [supportedVersion]))
  | None => b
  end.

(** The argument of [withSupportedVersions] is an array or one version. *)
Inductive VersionsArg :=
| OneVersion (v : SupportedVersion)
| ManyVersions (vs : list SupportedVersion).

Definition versions_of (a : VersionsArg) : list SupportedVersion :=
  match a with
  | OneVersion v => [v]
  | ManyVersions vs => vs
  end.

Definition withSupportedVersions (supportedVersion : VersionsArg) (b : Builder) : Builder :=
  foldl (λ b version, addSupportedVersion version b) b (versions_of supportedVersion).

(** [requireVersion] is an optional boolean; only [false] turns the
    exception off. *)
Definition getSupportedRequestVersion (requireVersion : option bool) (b : Builder)
  : Outcome (option SupportedVersion) :=
  match supportedVersions b with
  | None | Some [] =>
      if decide (requireVersion = Some false) then Ok None
      else Err (PlainError "No supported version supplied/available")
  | Some (v :: _) => Ok (Some v)
  end.

(** The private constructor behind [Builder.newInstance]. *)
Definition newInstance (supportedVersion : option SupportedVersion) : Builder :=
  match supportedVersion with
  | Some v => if decide (v = 0%Z) then mkBuilder None else addSupportedVersion v (mkBuilder None)
  | None => mkBuilder None
  end.

(** The version that [Builder.newInstance] hands to the new builder: its
    argument, unless that is absent or 0.  Read off the call, as [added]
    below. *)
Definition given (supportedVersion : option SupportedVersion) : list SupportedVersion :=
  match supportedVersion with
  | Some v => if decide (v = 0%Z) then [] else [v]
  | None => []
  end.

(** A call of one of the two public version methods. *)
Inductive Call :=
| CallAdd (v : SupportedVersion)
| CallWith (a : VersionsArg).

Definition call (b : Builder) (c : Call) : Builder :=
  match c with
  | CallAdd v => addSupportedVersion v b
  | CallWith a => withSupportedVersions a b
  end.

Definition calls (b : Builder) (cs : list Call) : Builder := foldl call b cs.

(** The versions handed to the builder by a sequence of calls, in the order
    in which they were handed: the argument of [addSupportedVersion], and
    the one version or every version of the array given to
    [withSupportedVersions].  This is read off the calls, not off the
    code. *)
Definition added (cs : list Call) : list SupportedVersion :=
  cs ≫= λ c,
    match c with
    | CallAdd v => [v]
    | CallWith (OneVersion v) => [v]
    | CallWith (ManyVersions vs) => vs
    end.

Definition versions (b : Builder) : list SupportedVersion :=
  default [] (supportedVersions b).

End RPBuilder.

(** ** AuthenticationResponse: data *)

(** Foreign objects that the code only stores, tests for presence and
    passes on: callbacks, resolvers, keys, signer descriptions. *)
Inductive Callback := callback (id : nat).
Inductive Resolvable := resolvable (id : nat).
Inductive ResolveOpts := resolveOptions (id : nat).
Inductive JWK := jwk (key : string).
Inductive Signer := signer_info (id : nat).
Inductive DIDResolutionResult := did_resolution (id : nat).

Module CheckLinkedDomain.
Inductive t := NEVER | IF_PRESENT | ALWAYS.
End CheckLinkedDomain.

Module RevocationVerification.
Inductive t := NEVER | IF_PRESENT | ALWAYS.
End RevocationVerification.

#[global] Instance CheckLinkedDomain_eq_dec : EqDecision CheckLinkedDomain.t.
Proof. solve_decision. Defined.

#[global] Instance RevocationVerification_eq_dec : EqDecision RevocationVerification.t.
Proof. solve_decision. Defined.

Inductive PresentationLocation := VP_TOKEN | ID_TOKEN.

Inductive VerifiablePresentationTypeFormat := JWT_VP | LDP_VP.

Record Descriptor := mkDescriptor {
  format : VerifiablePresentationTypeFormat;
  path : string
}.

Module PresentationSubmission.
Record t := mk {
  id : string;
  definition_id : option string;
  descriptor_map : list Descriptor
}.
End PresentationSubmission.

Module IPresentationDefinition.
Record t := mk {
  id : option string;
  input_descriptors : list string
}.
End IPresentationDefinition.

Module PresentationDefinitionWithLocation.
(** [definition] is required by the type; [verifyVPs] nevertheless builds
    an entry whose definition may be undefined. *)
Record t := mk {
  definition : option IPresentationDefinition.t;
  location : PresentationLocation
}.
End PresentationDefinitionWithLocation.

(** A presentation is a compact JWT string or a JSON-LD object; only the
    object form can carry a [presentation_submission]. *)
Inductive Presentation :=
| JwtPresentation (compact : string)
| LdpPresentation (presentation_submission : option PresentationSubmission.t)
                  (holder : option string).

Module VerifiablePresentationPayload.
Record t := mk {
  format : VerifiablePresentationTypeFormat;
  presentation : option Presentation;
  location : option PresentationLocation
    (* set on the entries of [responseOpts.vp] *)
}.
End VerifiablePresentationPayload.

(** [VerifiablePresentationPayload[] | VerifiablePresentationPayload], or
    undefined. *)
Inductive VpToken :=
| NoVp
| OneVp (vp : VerifiablePresentationPayload.t)
| VpArray (vps : list VerifiablePresentationPayload.t).

Module AuthenticationResponsePayload.
Record t := mk {
  state : option string;
  vp_token : VpToken
}.
End AuthenticationResponsePayload.

Record JWTHeader := mkHeader {
  alg : string;
  kid : option string
}.

Module JWTPayload.
Record t := mk {
  iss : option string;
  sub : option string;
  aud : option string;
  exp : option float;
  nonce : option string
}.
End JWTPayload.

Record VpTokenClaim := mkVpTokenClaim {
  presentation_submission : PresentationSubmission.t
}.

Module IdToken.
Record t := mk {
  iss : option string;
  aud : option string;
  iat : option float;
  exp : option float;
  sub : option string;
  auth_time : option float;
  nonce : option string;
  _vp_token : option VpTokenClaim;
  sub_jwk : option JWK
}.
End IdToken.

(** The signature description of the response options.  The type guards
    [isInternalSignature], [isExternalSignature] and [isSuppliedSignature]
    live in the types module; they tell the shapes apart by their
    properties, which is the constructor here. *)
Inductive SignatureType :=
| InternalSignature (hexPrivateKey did : string) (kid : option string)
| ExternalSignature (signatureUri did : string) (kid : option string)
| SuppliedSignature (did : string) (kid : option string)
| NoSignature.

Definition isInternalSignature (s : SignatureType) : bool :=
  match s with InternalSignature _ _ _ => true | _ => false end.
Definition isExternalSignature (s : SignatureType) : bool :=
  match s with ExternalSignature _ _ _ => true | _ => false end.
Definition isSuppliedSignature (s : SignatureType) : bool :=
  match s with SuppliedSignature _ _ => true | _ => false end.

Module AuthenticationResponseOpts.
Record t := mk {
  signatureType : option SignatureType;
  did : option string;
  state : option string;
  nonce : option string;
  expiresIn : option float;
  vp : option (list VerifiablePresentationPayload.t);
  presentationVerificationCallback : option Callback
}.
End AuthenticationResponseOpts.

Record Registration := mkRegistration {
  subject_syntax_types_supported : option (list string)
}.

Module AuthenticationRequestPayload.
Record t := mk {
  registration : option Registration;
  state : option string;
  nonce : option string;
  redirect_uri : option string
}.
End AuthenticationRequestPayload.

Module VerifiedAuthenticationRequestWithJWT.
Record t := mk {
  jwt : option string;
  payload : AuthenticationRequestPayload.t;
  presentationDefinitions : option (list PresentationDefinitionWithLocation.t)
}.
End VerifiedAuthenticationRequestWithJWT.

(** Internal or external verification, told apart by
    [isInternalVerification] and [isExternalVerification]. *)
Inductive VerificationMode := INTERNAL | EXTERNAL | UNKNOWN_MODE.

Record RevocationOpts := mkRevocationOpts {
  revocationVerification : RevocationVerification.t;
  revocationVerificationCallback : option Callback
}.

Module Verification.
Record t := mk {
  mode : VerificationMode;
  checkLinkedDomain : option CheckLinkedDomain.t;
  resolveOpts : option ResolveOpts;
  revocationOpts : option RevocationOpts
}.
End Verification.

Definition isInternalVerification (v : Verification.t) : bool :=
  match Verification.mode v with INTERNAL => true | _ => false end.
Definition isExternalVerification (v : Verification.t) : bool :=
  match Verification.mode v with EXTERNAL => true | _ => false end.

Record VpTokenOpts := mkVpTokenOpts {
  presentationDefinition : option IPresentationDefinition.t
}.

Record ClaimOpts := mkClaimOpts {
  vpToken : option VpTokenOpts
}.

Module VerifyAuthenticationResponseOpts.
Record t := mk {
  verification : option Verification.t;
  audience : option string;
  claims : option ClaimOpts;
  verifyCallback : option Callback;
  presentationVerificationCallback : option Callback
}.
End VerifyAuthenticationResponseOpts.

(** What [verifyDidJWT] resolves to. *)
Module VerifiedJWT.
Record t := mk {
  payload : IdToken.t;
  signer : Signer;
  didResolutionResult : DIDResolutionResult
}.
End VerifiedJWT.

Module VerifiedAuthenticationResponseWithJWT.
Record t := mk {
  signer : Signer;
  didResolutionResult : DIDResolutionResult;
  jwt : string;
  verifyOpts : VerifyAuthenticationResponseOpts.t;
  issuer : string;
  payload : IdToken.t
}.
End VerifiedAuthenticationResponseWithJWT.

(** ** Effects: calls into other modules, exceptions, promises *)

(** A call into another module of the repository or into a library. *)
Inductive Event :=
| ParseJWT (jwt : string)
| GetResolver (opts : option ResolveOpts)
| VerifyDidJWT (jwt : string) (audience : option string)
| GetIssuerDidFromPayload (payload : option JWTPayload.t)
| ValidateLinkedDomainWithDid (did : string) (mode : CheckLinkedDomain.t)
| AssertValidPresentationDefinitionWithLocations
    (definitions : option (list PresentationDefinitionWithLocation.t))
| ValidatePayloadsAgainstDefinitions
    (definitions : list PresentationDefinitionWithLocation.t)
    (payloads : list VerifiablePresentationPayload.t)
    (submission : option PresentationSubmission.t)
| VerifyRevocation (vp : option VerifiablePresentationPayload.t)
    (mode : RevocationVerification.t)
| GetThumbprint (hexPrivateKey : string) (did : option string)
| GetPublicJWKFromHexPrivateKey (hexPrivateKey kid : string)
| UnhandledRejection (e : Thrown).

(** The functions and constants the class imports, as they answer during
    one call of a function of the class.  What is random ([uuidv4], the
    state that [getState] makes up when it is given none) is a value of the
    environment of that call; two calls may run in environments that differ
    in it. *)
Record Env := mkEnv {
  SELF_ISSUED_V2 : string;           (* ResponseIss.SELF_ISSUED_V2 *)
  DID : string;                      (* SubjectSyntaxTypesSupportedValues.DID *)
  JWK_THUMBPRINT : string;           (* SubjectSyntaxTypesSupportedValues.JWK_THUMBPRINT *)
  parseJWT : string → Outcome (option JWTHeader * option JWTPayload.t);
  getResolver : option ResolveOpts → Outcome Resolvable;
  verifyDidJWT : string → Resolvable → option string → Outcome VerifiedJWT.t;
  getIssuerDidFromPayload : option JWTPayload.t → Outcome string;
  validateLinkedDomainWithDid :
    string → option Callback → CheckLinkedDomain.t → Outcome unit;
  verifyRevocation :
    option VerifiablePresentationPayload.t → option Callback →
    RevocationVerification.t → Outcome unit;
  assertValidPresentationDefinitionWithLocations :
    option (list PresentationDefinitionWithLocation.t) → Outcome unit;
  validatePayloadsAgainstDefinitions :
    list PresentationDefinitionWithLocation.t →
    list VerifiablePresentationPayload.t →
    option PresentationSubmission.t → option Callback → Outcome unit;
  getThumbprint : string → option string → Outcome string;
  getPublicJWKFromHexPrivateKey : string → string → option string → Outcome JWK;
  getState : option string → string;
  getNonce : string → string;
  uuidv4 : string
}.

#[export] Instance Outcome_ret : MRet Outcome := @Ok.
#[export] Instance Outcome_bind : MBind Outcome := λ A B f m,
  match m with
  | Ok a => f a
  | Err e => Err e
  end.

(** A computation: the calls it made, in program order, and how it ended.
    An [async] function is such a computation; [await] is [≫=]. *)
Definition M (A : Type) : Type := list Event * Outcome A.

#[export] Instance M_ret : MRet M := λ A a, ([], Ok a).
#[export] Instance M_bind : MBind M := λ A B f m,
  match m with
  | (l, Ok a) => let '(l', r) := f a in (l ++ l', r)
  | (l, Err e) => (l, Err e)
  end.

Definition throw {A} (e : Thrown) : M A := ([], Err e).

(** Synchronous code of this module. *)
Definition lift {A} (o : Outcome A) : M A := ([], o).

(** A call into the environment. *)
Definition call {A} (ev : Event) (o : Outcome A) : M A := ([ev], o).

(** Calling an async function without awaiting the promise: the body runs,
    the caller goes on, and a rejection reaches nobody.  The log keeps the
    rejection with the call that it came from; when the runtime reports it
    is not part of the model. *)
Definition detached {A} (m : M A) : M unit :=
  match m with
  | (l, Ok _) => (l, Ok tt)
  | (l, Err e) => (l ++ [UnhandledRejection e], Ok tt)
  end.

(** [array.forEach(f)]: the value [f] returns is dropped. *)
Fixpoint forEach {A B} (f : A → M B) (l : list A) : M unit :=
  match l with
  | [] => mret tt
  | x :: l => f x ;; forEach f l
  end.

Definition events {A} (m : M A) : list Event := m.1.
Definition outcome {A} (m : M A) : Outcome A := m.2.

(** ** AuthenticationResponse: the functions *)

(** The argument object of [assertValidResponseJWT]. *)
Module ResponseJWTOpts.
Record t := mk {
  header : option JWTHeader;
  payload : option JWTPayload.t;
  verPayload : option IdToken.t;
  audience : option string
}.
End ResponseJWTOpts.

(** The argument object of [assertValidVerifiablePresentations]. *)
Module PresentationArgs.
Record t := mk {
  definitions : option (list PresentationDefinitionWithLocation.t);
  vps : VpToken;
  presentationVerificationCallback : option Callback
}.
End PresentationArgs.

(** [!!vp.presentation] *)
Definition has_presentation (vp : VerifiablePresentationPayload.t) : bool :=
  match VerifiablePresentationPayload.presentation vp with
  | Some (JwtPresentation compact) => JS.truthy (Some compact)
  | Some (LdpPresentation _ _) => true
  | None => false
  end.

(** [!!a.definition] *)
Definition has_definition (a : PresentationDefinitionWithLocation.t) : bool :=
  JS.defined (PresentationDefinitionWithLocation.definition a).

(** [vp.presentation?.presentation_submission] *)
Definition submission_of (vp : VerifiablePresentationPayload.t)
  : option PresentationSubmission.t :=
  match VerifiablePresentationPayload.presentation vp with
  | Some (LdpPresentation s _) => s
  | _ => None
  end.

(** How many presentation definitions and how many presentations a call of
    [assertValidVerifiablePresentations] is given. *)
Definition count_definitions
    (definitions : option (list PresentationDefinitionWithLocation.t)) : nat :=
  from_option length 0%nat definitions.

Definition count_presentations (vps : VpToken) : nat :=
  match vps with
  | NoVp => 0
  | OneVp _ => 1
  | VpArray l => length l
  end.

(** The presentations of a [vp_token], in order. *)
Definition presentations_of (vps : VpToken) : list VerifiablePresentationPayload.t :=
  match vps with
  | NoVp => []
  | OneVp vp => [vp]
  | VpArray l => l
  end.

(** [Date.now() / 1000] for a clock reading in milliseconds: the division
    of doubles, rounded as the code's is. *)
Definition seconds (now : Z) : float :=
  PrimFloat.div (JS.of_integer now) 1000%float.

Section AuthenticationResponse.

Context (E : Env).

Definition assertValidResponseJWT (now : Z) (opts : ResponseJWTOpts.t) : Outcome unit :=
  if negb (JS.defined (ResponseJWTOpts.header opts)) then Err (SIOPError BAD_PARAMS)
  else
    match ResponseJWTOpts.payload opts with
    | Some payload =>
        if bool_decide (JWTPayload.iss payload ≠ Some (SELF_ISSUED_V2 E))
        then Err (SIOPErrorGot NO_SELFISSUED_ISS (JWTPayload.iss payload))
        else Ok tt
    | None => Ok tt
    end ;;
    match ResponseJWTOpts.verPayload opts with
    | Some verPayload =>
        (if negb (JS.truthy (IdToken.nonce verPayload)) then Err (SIOPError NO_NONCE)
         else if negb (JS.truthy_num (IdToken.exp verPayload))
                 || JS.lt_num (IdToken.exp verPayload) (seconds now)
         then Err (SIOPError EXPIRED)
         else Ok tt) ;;
        if (JS.truthy (IdToken.aud verPayload) && negb (JS.truthy (ResponseJWTOpts.audience opts)))
           || (negb (JS.truthy (IdToken.aud verPayload)) && JS.truthy (ResponseJWTOpts.audience opts))
        then Err (SIOPError BAD_PARAMS)
        else if JS.truthy (ResponseJWTOpts.audience opts)
                && bool_decide (ResponseJWTOpts.audience opts ≠ IdToken.aud verPayload)
        then Err (SIOPError INVALID_AUDIENCE)
        else Ok tt
    | None => Ok tt
    end.

Definition assertValidResponseOpts (opts : option AuthenticationResponseOpts.t) : Outcome unit :=
  match opts with
  | None => Err (SIOPError BAD_PARAMS)
  | Some o =>
      match AuthenticationResponseOpts.signatureType o with
      | None => Err (SIOPError BAD_PARAMS)
      | Some signatureType =>
          if negb (JS.truthy (AuthenticationResponseOpts.did o))
          then Err (SIOPError BAD_PARAMS)
          else if negb (isInternalSignature signatureType
                        || isExternalSignature signatureType
                        || isSuppliedSignature signatureType)
          then Err (SIOPError SIGNATURE_OBJECT_TYPE_NOT_SET)
          else Ok tt
      end
  end.

Definition assertValidVerifyOpts (opts : option VerifyAuthenticationResponseOpts.t) : Outcome unit :=
  match opts with
  | None => Err (SIOPError VERIFY_BAD_PARAMS)
  | Some o =>
      match VerifyAuthenticationResponseOpts.verification o with
      | None => Err (SIOPError VERIFY_BAD_PARAMS)
      | Some verification =>
          if negb (isExternalVerification verification)
             && negb (isInternalVerification verification)
          then Err (SIOPError VERIFY_BAD_PARAMS)
          else Ok tt
      end
  end.

Definition assertValidVerifiablePresentations (args : PresentationArgs.t) : M unit :=
  let definitions := PresentationArgs.definitions args in
  let vps := PresentationArgs.vps args in
  if (match definitions with
      | None => true
      | Some ds => Nat.eqb (length (List.filter has_definition ds)) 0
      end)
     && (match vps with
         | NoVp => true
         | OneVp _ => false
         | VpArray l => Nat.eqb (length (List.filter has_presentation l)) 0
         end)
  then mret tt
  else
    call (AssertValidPresentationDefinitionWithLocations definitions)
         (assertValidPresentationDefinitionWithLocations E definitions) ;;
    let '(presentationPayloads, presentationSubmission) :=
      match vps with
      | VpArray (first :: rest) => (first :: rest, submission_of first)
      | VpArray [] => ([], None)
      | OneVp vp => ([vp], submission_of vp)
      | NoVp => ([], None)
      end in
    let count := from_option length 0%nat definitions in
    if JS.defined definitions && negb (Nat.eqb count 0)
       && Nat.eqb (length presentationPayloads) 0
    then throw (SIOPError AUTH_REQUEST_EXPECTS_VP)
    else if negb (JS.defined definitions) || Nat.eqb count 0
      (* the right operand, [presentationPayloads || ...], is an array *)
    then throw (SIOPError AUTH_REQUEST_DOESNT_EXPECT_VP)
    else
      match definitions with
      | Some ds =>
          if negb (Nat.eqb (length ds) (length presentationPayloads))
          then throw (SIOPError AUTH_REQUEST_EXPECTS_VP)
          else call (ValidatePayloadsAgainstDefinitions ds presentationPayloads
                       presentationSubmission)
                    (validatePayloadsAgainstDefinitions E ds presentationPayloads
                       presentationSubmission
                       (PresentationArgs.presentationVerificationCallback args))
      | None => mret tt
      end.

(** [verifyJWT]; [now] is what [Date.now()] returns when the claims are
    validated.  The members of [CheckLinkedDomain] are non-empty strings,
    so a configured mode is truthy. *)
Definition verifyJWT (now : Z) (jwt : string)
    (verifyOpts : option VerifyAuthenticationResponseOpts.t)
  : M VerifiedAuthenticationResponseWithJWT.t :=
  if negb (JS.truthy (Some jwt)) then throw (SIOPError NO_JWT)
  else
    lift (assertValidVerifyOpts verifyOpts) ;;
    '(header, payload) ← call (ParseJWT jwt) (parseJWT E jwt) ;
    lift (assertValidResponseJWT now
            (ResponseJWTOpts.mk header payload None None)) ;;
    match verifyOpts with
    | None => throw TypeError
    | Some opts =>
    match VerifyAuthenticationResponseOpts.verification opts with
    | None => throw TypeError
    | Some verification =>
        let audience := VerifyAuthenticationResponseOpts.audience opts in
        resolver ← call (GetResolver (Verification.resolveOpts verification))
                        (getResolver E (Verification.resolveOpts verification)) ;
        verifiedJWT ← call (VerifyDidJWT jwt audience)
                           (verifyDidJWT E jwt resolver audience) ;
        issuerDid ← call (GetIssuerDidFromPayload payload)
                         (getIssuerDidFromPayload E payload) ;
        match Verification.checkLinkedDomain verification with
        | Some mode =>
            if bool_decide (mode ≠ CheckLinkedDomain.NEVER)
            then call (ValidateLinkedDomainWithDid issuerDid mode)
                      (validateLinkedDomainWithDid E issuerDid
                         (VerifyAuthenticationResponseOpts.verifyCallback opts) mode)
            else mret tt
        | None =>
            call (ValidateLinkedDomainWithDid issuerDid CheckLinkedDomain.IF_PRESENT)
                 (validateLinkedDomainWithDid E issuerDid
                    (VerifyAuthenticationResponseOpts.verifyCallback opts)
                    CheckLinkedDomain.IF_PRESENT)
        end ;;
        let verPayload := VerifiedJWT.payload verifiedJWT in
        lift (assertValidResponseJWT now
                (ResponseJWTOpts.mk header None (Some verPayload) audience)) ;;
        if negb (JS.defined
                   (VerifyAuthenticationResponseOpts.presentationVerificationCallback opts))
        then throw (SIOPError VERIFIABLE_PRESENTATION_VERIFICATION_FUNCTION_MISSING)
        else
          mret (VerifiedAuthenticationResponseWithJWT.mk
                  (VerifiedJWT.signer verifiedJWT)
                  (VerifiedJWT.didResolutionResult verifiedJWT)
                  jwt opts issuerDid verPayload)
    end
    end.

(** [verifyOpts.verification.revocationOpts.revocationVerificationCallback] *)
Definition revocationCallback (verification : Verification.t) : M (option Callback) :=
  match Verification.revocationOpts verification with
  | Some revocationOpts => mret (revocationVerificationCallback revocationOpts)
  | None => throw TypeError
  end.

Definition verifyVPs (payload : AuthenticationResponsePayload.t)
    (verifyOpts : option VerifyAuthenticationResponseOpts.t) : M unit :=
  definition ←
    match verifyOpts with
    | None => mret None
    | Some opts =>
        match VerifyAuthenticationResponseOpts.claims opts with
        | None => throw TypeError
        | Some claims => mret (vpToken claims ≫= presentationDefinition)
        end
    end ;
  assertValidVerifiablePresentations
    (PresentationArgs.mk
       (Some [PresentationDefinitionWithLocation.mk definition VP_TOKEN])
       (AuthenticationResponsePayload.vp_token payload)
       (verifyOpts ≫= VerifyAuthenticationResponseOpts.presentationVerificationCallback)) ;;
  match verifyOpts with
  | None => throw TypeError
  | Some opts =>
  match VerifyAuthenticationResponseOpts.verification opts with
  | None => throw TypeError
  | Some verification =>
      let revocationVerification :=
        match Verification.revocationOpts verification with
        | Some revocationOpts => revocationVerification revocationOpts
        | None => RevocationVerification.IF_PRESENT
        end in
      if bool_decide (revocationVerification ≠ RevocationVerification.NEVER)
      then
        match AuthenticationResponsePayload.vp_token payload with
        | VpArray vp_token =>
            forEach
              (λ p, detached
                 (cb ← revocationCallback verification ;
                  call (VerifyRevocation (Some p) revocationVerification)
                       (verifyRevocation E (Some p) cb revocationVerification)))
              vp_token
        | OneVp vp =>
            cb ← revocationCallback verification ;
            call (VerifyRevocation (Some vp) revocationVerification)
                 (verifyRevocation E (Some vp) cb revocationVerification)
        | NoVp =>
            cb ← revocationCallback verification ;
            call (VerifyRevocation None revocationVerification)
                 (verifyRevocation E None cb revocationVerification)
        end
      else mret tt
  end
  end.

Definition createThumbprintAndJWK (resOpts : AuthenticationResponseOpts.t)
  : M (option string * option JWK) :=
  match AuthenticationResponseOpts.signatureType resOpts with
  | Some (InternalSignature hexPrivateKey did kid) =>
      let resDid := AuthenticationResponseOpts.did resOpts in
      thumbprint ← call (GetThumbprint hexPrivateKey resDid)
                        (getThumbprint E hexPrivateKey resDid) ;
      let keyId := JS.or_str kid (did +:+ "#key-1") in
      subJwk ← call (GetPublicJWKFromHexPrivateKey hexPrivateKey keyId)
                    (getPublicJWKFromHexPrivateKey E hexPrivateKey keyId resDid) ;
      mret (Some thumbprint, Some subJwk)
  | Some (SuppliedSignature _ _) => mret (None, None)
  | _ => throw (SIOPError SIGNATURE_OBJECT_TYPE_NOT_SET)
  end.

(** [ObjectUtils.isString(resOpts.vp[0])]: the entries of [resOpts.vp] are
    objects, also when the presentation inside one is a compact string. *)
Definition isString_entry (entry : option VerifiablePresentationPayload.t) : bool :=
  false.

(** [verifiedJwt.presentationDefinitions[0]?.definition.id || undefined] *)
Definition first_definition_id
    (presentationDefinitions : option (list PresentationDefinitionWithLocation.t))
  : Outcome (option string) :=
  match presentationDefinitions with
  | None => Err TypeError
  | Some [] => Ok None
  | Some (first :: _) =>
      match PresentationDefinitionWithLocation.definition first with
      | None => Err TypeError
      | Some definition =>
          Ok (if JS.truthy (IPresentationDefinition.id definition)
              then IPresentationDefinition.id definition else None)
      end
  end.

(** [createSIOPIDToken]; [clock k] is what the k-th call of [Date.now()]
    returns. *)
Definition createSIOPIDToken (clock : nat → Z)
    (verifiedJwt : option VerifiedAuthenticationRequestWithJWT.t)
    (resOpts : option AuthenticationResponseOpts.t) : M IdToken.t :=
  lift (assertValidResponseOpts resOpts) ;;
  match verifiedJwt with
  | None => throw (SIOPError VERIFY_BAD_PARAMS)
  | Some verifiedJwt =>
  if negb (JS.truthy (VerifiedAuthenticationRequestWithJWT.jwt verifiedJwt))
  then throw (SIOPError VERIFY_BAD_PARAMS)
  else
  match resOpts with
  | None => throw TypeError
  | Some resOpts =>
      let request := VerifiedAuthenticationRequestWithJWT.payload verifiedJwt in
      let supportedDidMethods :=
        (AuthenticationRequestPayload.registration request
           ≫= subject_syntax_types_supported)
        ≫= λ types, Some (List.filter (λ sst, JS.includes sst (DID E)) types) in
      let state :=
        JS.or_str (AuthenticationResponseOpts.state resOpts)
                  (getState E (AuthenticationRequestPayload.state request)) in
      let nonce :=
        JS.or_str (AuthenticationRequestPayload.nonce request)
                  (JS.or_str (AuthenticationResponseOpts.nonce resOpts)
                             (getNonce E state)) in
      definition_id ←
        lift (first_definition_id
                (VerifiedAuthenticationRequestWithJWT.presentationDefinitions verifiedJwt)) ;
      let vp := AuthenticationResponseOpts.vp resOpts in
      let idToken :=
        IdToken.mk
          (Some (SELF_ISSUED_V2 E))
          (AuthenticationRequestPayload.redirect_uri request)
          (Some (seconds (clock 0%nat)))
          (Some (PrimFloat.add (seconds (clock 1%nat))
                   (JS.or_num (AuthenticationResponseOpts.expiresIn resOpts) 600%float)))
          (AuthenticationResponseOpts.did resOpts)
          (Some (seconds (clock 2%nat)))
          (Some nonce)
          (Some (mkVpTokenClaim
             (PresentationSubmission.mk (uuidv4 E) definition_id
                [mkDescriptor
                   (if JS.defined vp && isString_entry (vp ≫= head)
                    then JWT_VP else LDP_VP)
                   "$"])))
          None in
      match supportedDidMethods with
      | None => throw TypeError
      | Some methods =>
          if bool_decide (JWK_THUMBPRINT E ∈ methods)
             && negb (JS.truthy (AuthenticationResponseOpts.did resOpts))
          then
            '(thumbprint, subJwk) ← createThumbprintAndJWK resOpts ;
            mret (IdToken.mk
                    (IdToken.iss idToken) (IdToken.aud idToken) (IdToken.iat idToken)
                    (IdToken.exp idToken) thumbprint (IdToken.auth_time idToken)
                    (IdToken.nonce idToken) (IdToken._vp_token idToken) subJwk)
          else mret idToken
      end
  end
  end.

End AuthenticationResponse.

(** ** AuthenticationResponse: the response payload *)

#[global] Instance PresentationLocation_eq_dec : EqDecision PresentationLocation.
Proof. solve_decision. Defined.

(** [vp.location === location] *)
Definition located_at (location : PresentationLocation)
    (vp : VerifiablePresentationPayload.t) : bool :=
  bool_decide (VerifiablePresentationPayload.location vp = Some location).

(** [ObjectUtils.isString(vp.presentation)] *)
Definition isString_presentation (presentation : option Presentation) : bool :=
  match presentation with
  | Some (JwtPresentation _) => true
  | _ => false
  end.

(** [ObjectUtils.isString(resOpts.vp)]: [resOpts.vp] is an array. *)
Definition isString_array (vp : list VerifiablePresentationPayload.t) : bool := false.

(** What [createSIOPResponsePayload] pushes for one entry of [resOpts.vp]:
    a compact presentation wrapped in an object, or the presentation
    itself. *)
Inductive VpTokenItem :=
| WrappedJwt (presentation : string)
| BarePresentation (presentation : option Presentation).

(** The forms of the [vp_token] that [createSIOPResponsePayload] sets. *)
Inductive BuiltVpToken :=
| BuiltUndefined
| BuiltOne (vp : VerifiablePresentationPayload.t)
    (* the entry located in the vp_token *)
| BuiltItems (items : list VpTokenItem)
    (* one item for each entry *)
| BuiltEntries (vp : list VerifiablePresentationPayload.t)
    (* [resOpts.vp] itself *)
| BuiltWrapped (vp : list VerifiablePresentationPayload.t).
    (* [{ presentation: resOpts.vp }] *)

(** The properties of the response options that the token endpoint fills
    in; [AuthenticationResponseOpts.t] holds the others. *)
Module TokenEndpointOpts.
Record t := mk {
  accessToken : option string;
  tokenType : option string;
  refreshToken : option string
}.
End TokenEndpointOpts.

Module SIOPResponsePayload.
Record t := mk {
  access_token : option string;
  token_type : option string;
  refresh_token : option string;
  expires_in : option float;
  state : string;
  vp_token : BuiltVpToken
}.
End SIOPResponsePayload.

Section ResponsePayload.

Context (E : Env).

Definition extractPresentations (resOpts : AuthenticationResponseOpts.t)
  : Outcome (option (list VerifiablePresentationPayload.t)
             * option VerifiablePresentationPayload.t) :=
  let vp := AuthenticationResponseOpts.vp resOpts in
  let presentationPayloads :=
    match vp with
    | Some (first :: rest) => Some (List.filter (located_at ID_TOKEN) (first :: rest))
    | _ => None
    end in
  let vp_tokens :=
    match vp with
    | Some (first :: rest) => Some (List.filter (located_at VP_TOKEN) (first :: rest))
    | _ => None
    end in
  vp_token ←
    match vp_tokens with
    | Some [one] => Ok (Some one)
    | Some (_ :: _ :: _) =>
        Err (SIOPError REQUEST_CLAIMS_PRESENTATION_DEFINITION_NOT_VALID)
    | Some [] | None => Ok None
    end ;
  let verifiable_presentations :=
    match presentationPayloads with
    | Some (first :: rest) => Some (first :: rest)
    | _ => None
    end in
  Ok (verifiable_presentations, vp_token).

(** The item pushed for one entry when there are several. *)
Definition vp_token_item (vptPayload : VerifiablePresentationPayload.t) : VpTokenItem :=
  match VerifiablePresentationPayload.presentation vptPayload with
  | Some (JwtPresentation compact) => WrappedJwt compact
  | presentation => BarePresentation presentation
  end.

Definition createSIOPResponsePayload
    (verifiedJwt : option VerifiedAuthenticationRequestWithJWT.t)
    (resOpts : option AuthenticationResponseOpts.t)
    (tokens : TokenEndpointOpts.t) : Outcome SIOPResponsePayload.t :=
  assertValidResponseOpts resOpts ;;
  match verifiedJwt with
  | None => Err (SIOPError VERIFY_BAD_PARAMS)
  | Some verifiedJwt =>
  if negb (JS.truthy (VerifiedAuthenticationRequestWithJWT.jwt verifiedJwt))
  then Err (SIOPError VERIFY_BAD_PARAMS)
  else
  match resOpts with
  | None => Err TypeError
  | Some resOpts =>
      let request := VerifiedAuthenticationRequestWithJWT.payload verifiedJwt in
      let state :=
        JS.or_str (AuthenticationResponseOpts.state resOpts)
                  (getState E (AuthenticationRequestPayload.state request)) in
      '(_, vp_token) ← extractPresentations resOpts ;
      let payload vp_token :=
        SIOPResponsePayload.mk
          (TokenEndpointOpts.accessToken tokens)
          (TokenEndpointOpts.tokenType tokens)
          (TokenEndpointOpts.refreshToken tokens)
          (AuthenticationResponseOpts.expiresIn resOpts)
          state vp_token in
      match AuthenticationResponseOpts.vp resOpts with
      | None =>
          Ok (payload (from_option BuiltOne BuiltUndefined vp_token))
      | Some [] => Err TypeError
      | Some (first :: rest) =>
          if located_at ID_TOKEN first
          then
            match rest with
            | _ :: _ => Ok (payload (BuiltItems (vp_token_item <$> first :: rest)))
            | [] =>
                if isString_array (first :: rest)
                then Ok (payload (BuiltWrapped (first :: rest)))
                else Ok (payload (BuiltEntries (first :: rest)))
            end
          else Ok (payload (from_option BuiltOne BuiltUndefined vp_token))
      end
  end
  end.

End ResponsePayload.

(** ** The stages of [verifyJWT]

    The pieces of [verifyJWT] after the issuer DID is known, named so that a
    property can say how far a call got. *)

Section Stages.

Context (E : Env) (now : Z) (jwt : string).
Context (opts : VerifyAuthenticationResponseOpts.t) (verification : Verification.t).
Context (header : JWTHeader) (payload : option JWTPayload.t).
Context (verifiedJWT : VerifiedJWT.t) (issuerDid : string).

(** The calls made up to the linked-domain stage. *)
Definition signature_stage : list Event :=
  [ParseJWT jwt; GetResolver (Verification.resolveOpts verification);
   VerifyDidJWT jwt (VerifyAuthenticationResponseOpts.audience opts);
   GetIssuerDidFromPayload payload].

(** The linked-domain stage of [verifyJWT], and what follows it. *)
Definition linked_domain_stage : M unit :=
  match Verification.checkLinkedDomain verification with
  | Some mode =>
      if bool_decide (mode ≠ CheckLinkedDomain.NEVER)
      then call (ValidateLinkedDomainWithDid issuerDid mode)
                (validateLinkedDomainWithDid E issuerDid
                   (VerifyAuthenticationResponseOpts.verifyCallback opts) mode)
      else mret tt
  | None =>
      call (ValidateLinkedDomainWithDid issuerDid CheckLinkedDomain.IF_PRESENT)
           (validateLinkedDomainWithDid E issuerDid
              (VerifyAuthenticationResponseOpts.verifyCallback opts)
              CheckLinkedDomain.IF_PRESENT)
  end.

Definition verified_response : VerifiedAuthenticationResponseWithJWT.t :=
  VerifiedAuthenticationResponseWithJWT.mk
    (VerifiedJWT.signer verifiedJWT) (VerifiedJWT.didResolutionResult verifiedJWT)
    jwt opts issuerDid (VerifiedJWT.payload verifiedJWT).

Definition claims_stage : Outcome VerifiedAuthenticationResponseWithJWT.t :=
  assertValidResponseJWT E now
    (ResponseJWTOpts.mk (Some header) None (Some (VerifiedJWT.payload verifiedJWT))
       (VerifyAuthenticationResponseOpts.audience opts)) ;;
  if negb (JS.defined
             (VerifyAuthenticationResponseOpts.presentationVerificationCallback opts))
  then Err (SIOPError VERIFIABLE_PRESENTATION_VERIFICATION_FUNCTION_MISSING)
  else Ok verified_response.

End Stages.

(** ** A concrete environment

    Used to run the functions above on explicit inputs.  The signature
    check and the revocation check answer what the caller of [env] says;
    everything else is a small fixed table. *)

Module Sample.

Definition header : JWTHeader := mkHeader "ES256K" (Some "did:ethr:0xabc#key-1").

(** Verification time: 2023-11-14T22:13:20Z, in milliseconds. *)
Definition now : Z := 1700000000000.

Definition rp : option string := Some "https://rp.example/cb".
Definition nonce : option string := Some "n-0S6_WzA2Mj".
Definition future : option float := Some 1700000600%float.
Definition past : option float := Some 1600000000%float.
Definition cb : option Callback := Some (callback 1).

(** The claims of a self-issued token, issued 100 seconds before [now]. *)
Definition claims (nonce : option string) (exp : option float) (aud : option string)
  : IdToken.t :=
  IdToken.mk (Some "https://self-issued.me/v2") aud (Some 1699999900%float) exp
    (Some "did:ethr:0xabc") (Some 1699999900%float) nonce None None.

(** The claims of a token of some other issuer. *)
Definition foreign : IdToken.t :=
  IdToken.mk (Some "https://issuer.example") rp (Some 1699999900%float) future
    (Some "did:ethr:0xabc") (Some 1699999900%float) nonce None None.

(** What the parser reads out of a token with these claims. *)
Definition decoded (token : IdToken.t) : JWTPayload.t :=
  JWTPayload.mk (IdToken.iss token) (IdToken.sub token) (IdToken.aud token)
    (IdToken.exp token) (IdToken.nonce token).

Definition verified (token : IdToken.t) : VerifiedJWT.t :=
  VerifiedJWT.mk token (signer_info 0) (did_resolution 0).

Definition revoked : Outcome unit := Err (PlainError "credential revoked").

(** The environment in which every compact token that starts with "ey"
    carries the claims [token]; its signature verifies when [signed] says
    so, and the revocation check answers [revocation]. *)
Definition env (token : IdToken.t) (signed : bool) (revocation : Outcome unit) : Env :=
  {| SELF_ISSUED_V2 := "https://self-issued.me/v2";
     DID := "did";
     JWK_THUMBPRINT := "urn:ietf:params:oauth:jwk-thumbprint";
     parseJWT := λ jwt,
       if String.prefix "ey" jwt then Ok (Some header, Some (decoded token))
       else Err (PlainError "Incorrect format JWT");
     getResolver := λ _, Ok (resolvable 0);
     verifyDidJWT := λ _ _ _,
       if signed then Ok (verified token)
       else Err (SIOPError ERROR_VERIFYING_SIGNATURE);
     getIssuerDidFromPayload := λ payload,
       match payload ≫= JWTPayload.sub with
       | Some did => Ok did
       | None => Err (SIOPError NO_ISS_DID)
       end;
     validateLinkedDomainWithDid := λ _ _ _, Ok tt;
     verifyRevocation := λ _ _ _, revocation;
     assertValidPresentationDefinitionWithLocations := λ _, Ok tt;
     validatePayloadsAgainstDefinitions := λ _ _ _ _, Ok tt;
     getThumbprint := λ _ _, Ok "NzbLsXh8uDCcd-6MNwXF4W_7noWXFZAfHkxZsRGC9Xs";
     getPublicJWKFromHexPrivateKey := λ _ kid _, Ok (jwk kid);
     getState := λ state, JS.or_str state "b32f0087fc9816eb813fd11f";
     getNonce := λ state, "nonce-of-" +:+ state;
     uuidv4 := "9b1deb4d-3b7d-4bad-9bdf-2b0d7b3dcb6d" |}.

(** The environment of a holder, where no token is verified. *)
Definition holder : Env := env (claims nonce future rp) true (Ok tt).

Definition verification (linked : option CheckLinkedDomain.t)
    (revocation : option RevocationOpts) : Verification.t :=
  Verification.mk INTERNAL linked None revocation.

Definition definition : IPresentationDefinition.t :=
  IPresentationDefinition.mk (Some "definition-1") ["id_credential"].

Definition verifyOpts (linked : option CheckLinkedDomain.t)
    (revocation : option RevocationOpts) (audience : option string)
    (presentationCallback : option Callback)
  : VerifyAuthenticationResponseOpts.t :=
  VerifyAuthenticationResponseOpts.mk
    (Some (verification linked revocation)) audience
    (Some (mkClaimOpts (Some (mkVpTokenOpts (Some definition)))))
    None presentationCallback.

Definition presentation (holder : string) : VerifiablePresentationPayload.t :=
  VerifiablePresentationPayload.mk LDP_VP
    (Some (LdpPresentation None (Some holder))) None.

Definition located (d : IPresentationDefinition.t)
  : PresentationDefinitionWithLocation.t :=
  PresentationDefinitionWithLocation.mk (Some d) VP_TOKEN.

Definition request (types : option (list string)) (nonce : option string)
  : VerifiedAuthenticationRequestWithJWT.t :=
  VerifiedAuthenticationRequestWithJWT.mk (Some "eyJhbGciOiJFUzI1NksifQ.e30.c2ln")
    (AuthenticationRequestPayload.mk (Some (mkRegistration types))
       (Some "state-1") nonce (Some "https://rp.example/cb"))
    (Some [located definition]).

Definition responseOpts (did nonce : option string) : AuthenticationResponseOpts.t :=
  AuthenticationResponseOpts.mk
    (Some (InternalSignature "f857544a9d1097e242ff0b287a7e6e90f19cf973efe2317f2a4678739664420f"
             "did:ethr:0xabc" None))
    did None nonce None None None.

Definition clock (k : nat) : Z := (now + Z.of_nat k)%Z.

(** A registration that advertises both DID and thumbprint subjects. *)
Definition thumbprintTypes : option (list string) :=
  Some ["did:ethr"; "urn:ietf:params:oauth:jwk-thumbprint"].

End Sample.

(** ** More sample values *)

Module SampleMore.

(** The same environment, except that linked-domain validation rejects. *)
Definition unlinked (E : Env) : Env :=
  {| SELF_ISSUED_V2 := SELF_ISSUED_V2 E;
     DID := DID E;
     JWK_THUMBPRINT := JWK_THUMBPRINT E;
     parseJWT := parseJWT E;
     getResolver := getResolver E;
     verifyDidJWT := verifyDidJWT E;
     getIssuerDidFromPayload := getIssuerDidFromPayload E;
     validateLinkedDomainWithDid := λ _ _ _, Err (PlainError "no linked domain");
     verifyRevocation := verifyRevocation E;
     assertValidPresentationDefinitionWithLocations :=
       assertValidPresentationDefinitionWithLocations E;
     validatePayloadsAgainstDefinitions := validatePayloadsAgainstDefinitions E;
     getThumbprint := getThumbprint E;
     getPublicJWKFromHexPrivateKey := getPublicJWKFromHexPrivateKey E;
     getState := getState E;
     getNonce := getNonce E;
     uuidv4 := uuidv4 E |}.

(** Presentations for the response, by location. *)
Definition inToken : VerifiablePresentationPayload.t :=
  VerifiablePresentationPayload.mk LDP_VP (Some (LdpPresentation None None)) (Some ID_TOKEN).

Definition inVpToken : VerifiablePresentationPayload.t :=
  VerifiablePresentationPayload.mk JWT_VP (Some (JwtPresentation "eyJ.e30.c2ln"))
    (Some VP_TOKEN).

Definition nowhere : VerifiablePresentationPayload.t :=
  VerifiablePresentationPayload.mk LDP_VP (Some (LdpPresentation None None)) None.

(** Response options of a holder who presents [vp]. *)
Definition presenting (vp : option (list VerifiablePresentationPayload.t))
  : AuthenticationResponseOpts.t :=
  AuthenticationResponseOpts.mk
    (Some (InternalSignature "f857544a9d1097e242ff0b287a7e6e90f19cf973efe2317f2a4678739664420f"
             "did:ethr:0xabc" None))
    (Some "did:ethr:0xabc") None None None vp None.

Definition noTokens : TokenEndpointOpts.t := TokenEndpointOpts.mk None None None.

(** Response options of a holder that carry a state. *)
Definition stating (state : string) : AuthenticationResponseOpts.t :=
  AuthenticationResponseOpts.mk
    (Some (InternalSignature "f857544a9d1097e242ff0b287a7e6e90f19cf973efe2317f2a4678739664420f"
             "did:ethr:0xabc" None))
    (Some "did:ethr:0xabc") (Some state) None None None None.

(** The holder's environment at a later call, where [getState] makes up
    another state. *)
Definition later : Env :=
  {| SELF_ISSUED_V2 := SELF_ISSUED_V2 Sample.holder;
     DID := DID Sample.holder;
     JWK_THUMBPRINT := JWK_THUMBPRINT Sample.holder;
     parseJWT := parseJWT Sample.holder;
     getResolver := getResolver Sample.holder;
     verifyDidJWT := verifyDidJWT Sample.holder;
     getIssuerDidFromPayload := getIssuerDidFromPayload Sample.holder;
     validateLinkedDomainWithDid := validateLinkedDomainWithDid Sample.holder;
     verifyRevocation := verifyRevocation Sample.holder;
     assertValidPresentationDefinitionWithLocations :=
       assertValidPresentationDefinitionWithLocations Sample.holder;
     validatePayloadsAgainstDefinitions := validatePayloadsAgainstDefinitions Sample.holder;
     getThumbprint := getThumbprint Sample.holder;
     getPublicJWKFromHexPrivateKey := getPublicJWKFromHexPrivateKey Sample.holder;
     getState := λ state, JS.or_str state "7c1aa3d0e5f24b96a0c4d7f1";
     getNonce := getNonce Sample.holder;
     uuidv4 := uuidv4 Sample.holder |}.

(** An entry of a vp_token that holds no presentation. *)
Definition bare : VerifiablePresentationPayload.t :=
  VerifiablePresentationPayload.mk LDP_VP None None.

(** Verify options that configure no presentation definition. *)
Definition undefining (revocation : option RevocationOpts)
  : VerifyAuthenticationResponseOpts.t :=
  VerifyAuthenticationResponseOpts.mk
    (Some (Sample.verification None revocation)) Sample.rp
    (Some (mkClaimOpts None)) None Sample.cb.

(** Response options of a holder whose token is to last [expiresIn]
    seconds. *)
Definition lasting (expiresIn : option float) : AuthenticationResponseOpts.t :=
  AuthenticationResponseOpts.mk
    (Some (InternalSignature "f857544a9d1097e242ff0b287a7e6e90f19cf973efe2317f2a4678739664420f"
             "did:ethr:0xabc" None))
    (Some "did:ethr:0xabc") None None expiresIn None None.

End SampleMore.

(** ** Builder: the whole class *)

Module RP.

(** Foreign objects that the builder only stores and passes on. *)
Inductive PropertyTargets := property_targets (id : nat).
Inductive SessionManager := session_manager (id : nat).
Inductive SigningAlgo := signing_algo (name : string).

(** The client metadata handed to the builder is an object of the caller;
    the builder writes its [targets] property, so it has an identity. *)
Inductive ClientMetadataOpts := client_metadata_opts (id : nat).

Definition object_id (clientMetadata : ClientMetadataOpts) : nat :=
  match clientMetadata with client_metadata_opts id => id end.

(** The emitter given to [withEventEmitter], or the one it makes. *)
Inductive EventEmitter := emitter (id : nat) | newEventEmitter.

Inductive PassBy := NONE | REFERENCE | VALUE.

Inductive PropertyTarget := AUTHORIZATION_REQUEST | REQUEST_OBJECT.

#[global] Instance PassBy_eq_dec : EqDecision PassBy.
Proof. solve_decision. Defined.

Record ObjectBy := mkObjectBy {
  passBy : PassBy;
  reference_uri : option string;
  targets : PropertyTarget
}.

Record UniResolverOpts := mkUniResolverOpts {
  resolveUrl : option string;
  baseUrl : option string
}.

(** What the [resolvers] map holds for a method: the resolver given to
    [addResolver], or what [addDidMethod] makes of its options. *)
Inductive ResolverEntry :=
| given (resolver : Resolvable)
| null
| newUniResolver (config : UniResolverOpts)
| newResolver (method : string) (opts : UniResolverOpts).

(** The signature objects of [withSignature]. *)
Inductive BuilderSignature :=
| InternalSignatureOf (hexPrivateKey did kid : string) (alg : SigningAlgo)
    (customJwtSigner : option Signer)
| SuppliedSignatureOf (signature : Callback) (did kid : string) (alg : SigningAlgo).

(** [ResponseType | ResponseType[] | string]; the members of the enum are
    strings. *)
Inductive ResponseTypeArg :=
| OneResponseType (responseType : string)
| ResponseTypes (responseType : list string).

Module DefinitionProperties.
Record t := mk {
  presentation_definition : IPresentationDefinition.t;
  presentation_definition_uri : option string
}.
End DefinitionProperties.

Module DefinitionOpts.
Record t := mk {
  definition : IPresentationDefinition.t;
  definitionUri : option string
}.
End DefinitionOpts.

(** A claims object, by property name. *)
Definition Claims := gmap string DefinitionProperties.t.

(** [Partial<AuthorizationRequestPayload>] and
    [Partial<RequestObjectPayload>]: the properties that the builder
    writes. *)
Module RequestPayload.

Record t := mk {
  scope : option string;
  response_type : option string;
  client_id : option string;
  iss : option string;
  authorization_endpoint : option string;
  redirect_uri : option string;
  response_mode : option string;
  registration : option ClientMetadataOpts;
  client_metadata : option ClientMetadataOpts;
  claims : option Claims;
  presentation_definition : option IPresentationDefinition.t;
  presentation_definition_uri : option string
}.

(** [{}] *)
Definition empty : t := mk None None None None None None None None None None None None.

Definition set_scope (v : option string) (p : t) : t :=
  let 'mk _ b c d e f g h i j k l := p in mk v b c d e f g h i j k l.
Definition set_response_type (v : option string) (p : t) : t :=
  let 'mk a _ c d e f g h i j k l := p in mk a v c d e f g h i j k l.
Definition set_client_id (v : option string) (p : t) : t :=
  let 'mk a b _ d e f g h i j k l := p in mk a b v d e f g h i j k l.
Definition set_iss (v : option string) (p : t) : t :=
  let 'mk a b c _ e f g h i j k l := p in mk a b c v e f g h i j k l.
Definition set_authorization_endpoint (v : option string) (p : t) : t :=
  let 'mk a b c d _ f g h i j k l := p in mk a b c d v f g h i j k l.
Definition set_redirect_uri (v : option string) (p : t) : t :=
  let 'mk a b c d e _ g h i j k l := p in mk a b c d e v g h i j k l.
Definition set_response_mode (v : option string) (p : t) : t :=
  let 'mk a b c d e f _ h i j k l := p in mk a b c d e f v h i j k l.
Definition set_registration (v : option ClientMetadataOpts) (p : t) : t :=
  let 'mk a b c d e f g _ i j k l := p in mk a b c d e f g v i j k l.
Definition set_client_metadata (v : option ClientMetadataOpts) (p : t) : t :=
  let 'mk a b c d e f g h _ j k l := p in mk a b c d e f g h v j k l.
Definition set_claims (v : option Claims) (p : t) : t :=
  let 'mk a b c d e f g h i _ k l := p in mk a b c d e f g h i v k l.
Definition set_presentation_definition (v : option IPresentationDefinition.t) (p : t) : t :=
  let 'mk a b c d e f g h i j _ l := p in mk a b c d e f g h i j v l.
Definition set_presentation_definition_uri (v : option string) (p : t) : t :=
  let 'mk a b c d e f g h i j k _ := p in mk a b c d e f g h i j k v.

End RequestPayload.

(** The fields of the class.  [versions] is the part of the state that the
    version methods touch, [supportedVersions]; [targetsOf] is the [targets]
    property of the client metadata objects that the builder has written. *)
Record Builder := mkBuilder {
  resolvers : gmap string ResolverEntry;
  customResolver : option Resolvable;
  requestObjectBy : option ObjectBy;
  signature : option BuilderSignature;
  checkLinkedDomain : option CheckLinkedDomain.t;
  wellknownDIDVerifyCallback : option Callback;
  revocationVerification : option RevocationVerification.t;
  revocationVerificationCallback : option Callback;
  presentationVerificationCallback : option Callback;
  versions : RPBuilder.Builder;
  eventEmitter : option EventEmitter;
  sessionManager : option SessionManager;
  _authorizationRequestPayload : RequestPayload.t;
  _requestObjectPayload : RequestPayload.t;
  clientMetadata : option ClientMetadataOpts;
  clientId : option string;
  targetsOf : gmap nat (option PropertyTargets)
}.

Definition set_resolvers (v : gmap string ResolverEntry) (x : Builder) : Builder :=
  let 'mkBuilder _ b c d e f g h i j k l m n o p q := x in
  mkBuilder v b c d e f g h i j k l m n o p q.
Definition set_customResolver (v : option Resolvable) (x : Builder) : Builder :=
  let 'mkBuilder a _ c d e f g h i j k l m n o p q := x in
  mkBuilder a v c d e f g h i j k l m n o p q.
Definition set_requestObjectBy (v : option ObjectBy) (x : Builder) : Builder :=
  let 'mkBuilder a b _ d e f g h i j k l m n o p q := x in
  mkBuilder a b v d e f g h i j k l m n o p q.
Definition set_signature (v : option BuilderSignature) (x : Builder) : Builder :=
  let 'mkBuilder a b c _ e f g h i j k l m n o p q := x in
  mkBuilder a b c v e f g h i j k l m n o p q.
Definition set_checkLinkedDomain (v : option CheckLinkedDomain.t) (x : Builder) : Builder :=
  let 'mkBuilder a b c d _ f g h i j k l m n o p q := x in
  mkBuilder a b c d v f g h i j k l m n o p q.
Definition set_wellknownDIDVerifyCallback (v : option Callback) (x : Builder) : Builder :=
  let 'mkBuilder a b c d e _ g h i j k l m n o p q := x in
  mkBuilder a b c d e v g h i j k l m n o p q.
Definition set_revocationVerification (v : option RevocationVerification.t) (x : Builder)
  : Builder :=
  let 'mkBuilder a b c d e f _ h i j k l m n o p q := x in
  mkBuilder a b c d e f v h i j k l m n o p q.
Definition set_revocationVerificationCallback (v : option Callback) (x : Builder) : Builder :=
  let 'mkBuilder a b c d e f g _ i j k l m n o p q := x in
  mkBuilder a b c d e f g v i j k l m n o p q.
Definition set_presentationVerificationCallback (v : option Callback) (x : Builder)
  : Builder :=
  let 'mkBuilder a b c d e f g h _ j k l m n o p q := x in
  mkBuilder a b c d e f g h v j k l m n o p q.
Definition set_versions (v : RPBuilder.Builder) (x : Builder) : Builder :=
  let 'mkBuilder a b c d e f g h i _ k l m n o p q := x in
  mkBuilder a b c d e f g h i v k l m n o p q.
Definition set_eventEmitter (v : option EventEmitter) (x : Builder) : Builder :=
  let 'mkBuilder a b c d e f g h i j _ l m n o p q := x in
  mkBuilder a b c d e f g h i j v l m n o p q.
Definition set_sessionManager (v : option SessionManager) (x : Builder) : Builder :=
  let 'mkBuilder a b c d e f g h i j k _ m n o p q := x in
  mkBuilder a b c d e f g h i j k v m n o p q.
Definition set_authorizationRequestPayload (v : RequestPayload.t) (x : Builder) : Builder :=
  let 'mkBuilder a b c d e f g h i j k l _ n o p q := x in
  mkBuilder a b c d e f g h i j k l v n o p q.
Definition set_requestObjectPayload (v : RequestPayload.t) (x : Builder) : Builder :=
  let 'mkBuilder a b c d e f g h i j k l m _ o p q := x in
  mkBuilder a b c d e f g h i j k l m v o p q.
Definition set_clientMetadata (v : option ClientMetadataOpts) (x : Builder) : Builder :=
  let 'mkBuilder a b c d e f g h i j k l m n _ p q := x in
  mkBuilder a b c d e f g h i j k l m n v p q.
Definition set_clientId (v : option string) (x : Builder) : Builder :=
  let 'mkBuilder a b c d e f g h i j k l m n o _ q := x in
  mkBuilder a b c d e f g h i j k l m n o v q.
Definition set_targetsOf (v : gmap nat (option PropertyTargets)) (x : Builder) : Builder :=
  let 'mkBuilder a b c d e f g h i j k l m n o p _ := x in
  mkBuilder a b c d e f g h i j k l m n o p v.

(** [new RP({ builder: this })] *)
Inductive RPInstance := newRP (builder : Builder).

(** What the class imports from the modules [./Opts], [../did] and
    [../types], and the string method [trim]. *)
Record Imports := mkImports {
  getMethodFromDid : string → Outcome string;
  assignIfAuth : ∀ A : Type, A → option PropertyTargets → bool → option A;
  assignIfRequestObject : ∀ A : Type, A → option PropertyTargets → bool → option A;
  isTarget : PropertyTarget → option PropertyTargets → bool;
  isTargetOrNoTargets : PropertyTarget → option PropertyTargets → bool;
  SIOPv2_D11 : RPBuilder.SupportedVersion;
  SubjectSyntaxTypesSupportedValues_DID : string;
  trim : string → string;
  construct : Builder → Outcome RPInstance
}.

Section Methods.

Context (I : Imports).

(** The write of one request property to the two payloads. *)
Definition assign {A} (set : option A → RequestPayload.t → RequestPayload.t)
    (propertyValue : A) (targets : option PropertyTargets) (b : Builder) : Builder :=
  let b :=
    set_authorizationRequestPayload
      (set (assignIfAuth I A propertyValue targets false) (_authorizationRequestPayload b)) b in
  set_requestObjectPayload
    (set (assignIfRequestObject I A propertyValue targets true) (_requestObjectPayload b)) b.

Definition withScope (scope : string) (targets : option PropertyTargets) (b : Builder)
  : Builder :=
  assign RequestPayload.set_scope scope targets b.

Definition withResponseType (responseType : ResponseTypeArg)
    (targets : option PropertyTargets) (b : Builder) : Builder :=
  let propertyValue :=
    match responseType with
    | ResponseTypes l => trim I (String.concat " " l)
    | OneResponseType s => s
    end in
  assign RequestPayload.set_response_type propertyValue targets b.

Definition withClientId (clientId : string) (targets : option PropertyTargets) (b : Builder)
  : Builder :=
  set_clientId (Some clientId) (assign RequestPayload.set_client_id clientId targets b).

Definition withIssuer (issuer : string) (targets : option PropertyTargets) (b : Builder)
  : Builder :=
  assign RequestPayload.set_iss issuer targets b.

Definition withPresentationVerification (presentationVerificationCallback : Callback)
    (b : Builder) : Builder :=
  set_presentationVerificationCallback (Some presentationVerificationCallback) b.

Definition withRevocationVerification (mode : RevocationVerification.t) (b : Builder)
  : Builder :=
  set_revocationVerification (Some mode) b.

Definition withRevocationVerificationCallback (callback : Callback) (b : Builder) : Builder :=
  set_revocationVerificationCallback (Some callback) b.

Definition withCustomResolver (resolver : Resolvable) (b : Builder) : Builder :=
  set_customResolver (Some resolver) b.

Definition startsWith (s prefix : string) : bool := String.prefix prefix s.

Definition addResolver (didMethod : string) (resolver : ResolverEntry) (b : Builder)
  : Outcome Builder :=
  qualifiedDidMethod ←
    (if startsWith didMethod "did:" then getMethodFromDid I didMethod else Ok didMethod) ;
  Ok (set_resolvers (<[qualifiedDidMethod := resolver]> (resolvers b)) b).

Definition withAuthorizationEndpoint (authorizationEndpoint : string)
    (targets : option PropertyTargets) (b : Builder) : Builder :=
  assign RequestPayload.set_authorization_endpoint authorizationEndpoint targets b.

Definition withCheckLinkedDomain (mode : CheckLinkedDomain.t) (b : Builder) : Builder :=
  set_checkLinkedDomain (Some mode) b.

Definition addDidMethod (didMethod : string) (opts : option UniResolverOpts) (b : Builder)
  : Outcome Builder :=
  method ←
    (if startsWith didMethod "did:" then getMethodFromDid I didMethod else Ok didMethod) ;
  b ←
    (if bool_decide (method = SubjectSyntaxTypesSupportedValues_DID I)
     then
       match opts with
       | Some opts => addResolver "" (newUniResolver opts) b
       | None => addResolver "" null b
       end
     else Ok b) ;
  match opts with
  | Some opts => addResolver method (newResolver method opts) b
  | None => addResolver method null b
  end.

Definition withRedirectUri (redirectUri : string) (targets : option PropertyTargets)
    (b : Builder) : Builder :=
  assign RequestPayload.set_redirect_uri redirectUri targets b.

Definition withRequestBy (passBy : PassBy) (referenceUri : option string) (b : Builder)
  : Outcome Builder :=
  if bool_decide (passBy = REFERENCE) && negb (JS.truthy referenceUri)
  then Err (PlainError "Cannot use pass by reference without a reference URI")
  else Ok (set_requestObjectBy
             (Some (mkObjectBy passBy referenceUri AUTHORIZATION_REQUEST)) b).

Definition withRequestByReference (referenceUri : string) (b : Builder) : Outcome Builder :=
  withRequestBy REFERENCE (Some referenceUri) b.

Definition withRequestByValue (b : Builder) : Outcome Builder :=
  withRequestBy VALUE None b.

Definition withResponseMode (responseMode : string) (targets : option PropertyTargets)
    (b : Builder) : Builder :=
  assign RequestPayload.set_response_mode responseMode targets b.

(** [this.getSupportedRequestVersion() < SupportedVersion.SIOPv2_D11] *)
Definition before_D11 (b : Builder) : Outcome bool :=
  version ← RPBuilder.getSupportedRequestVersion None (versions b) ;
  Ok (match version with
      | Some version => bool_decide (version < SIOPv2_D11 I)%Z
      | None => false
      end).

Definition withClientMetadata (clientMetadata : ClientMetadataOpts)
    (targets : option PropertyTargets) (b : Builder) : Outcome Builder :=
  let b := set_targetsOf (<[object_id clientMetadata := targets]> (targetsOf b)) b in
  before ← before_D11 b ;
  let b :=
    if before : bool
    then assign RequestPayload.set_registration clientMetadata targets b
    else assign RequestPayload.set_client_metadata clientMetadata targets b in
  Ok (set_clientMetadata (Some clientMetadata) b).

Definition withSignature (signature : BuilderSignature) (b : Builder) : Builder :=
  set_signature (Some signature) b.

Definition withInternalSignature (hexPrivateKey did kid : string) (alg : SigningAlgo)
    (customJwtSigner : option Signer) (b : Builder) : Builder :=
  withSignature (InternalSignatureOf hexPrivateKey did kid alg customJwtSigner) b.

Definition withSuppliedSignature (signature : Callback) (did kid : string)
    (alg : SigningAlgo) (b : Builder) : Builder :=
  withSignature (SuppliedSignatureOf signature did kid alg) b.

(** [{ ...(payload.claims ? payload.claims : {}), vp_token: vp_token }] *)
Definition with_vp_token (vp_token : DefinitionProperties.t) (p : RequestPayload.t)
  : RequestPayload.t :=
  RequestPayload.set_claims
    (Some (<["vp_token" := vp_token]> (default ∅ (RequestPayload.claims p)))) p.

Definition withPresentationDefinition (definitionOpts : DefinitionOpts.t)
    (targets : option PropertyTargets) (b : Builder) : Outcome Builder :=
  let definition := DefinitionOpts.definition definitionOpts in
  let definitionUri := DefinitionOpts.definitionUri definitionOpts in
  let definitionProperties := DefinitionProperties.mk definition definitionUri in
  before ← before_D11 b ;
  if before : bool
  then
    let vp_token := definitionProperties in
    let b :=
      if isTarget I AUTHORIZATION_REQUEST targets
      then set_authorizationRequestPayload
             (with_vp_token vp_token (_authorizationRequestPayload b)) b
      else b in
    let b :=
      if isTargetOrNoTargets I REQUEST_OBJECT targets
      then set_requestObjectPayload (with_vp_token vp_token (_requestObjectPayload b)) b
      else b in
    Ok b
  else
    let auth := _authorizationRequestPayload b in
    let auth :=
      RequestPayload.set_presentation_definition
        (assignIfAuth I _ definition targets false) auth in
    let auth :=
      RequestPayload.set_presentation_definition_uri
        (mjoin (assignIfAuth I _ definitionUri targets true)) auth in
    let b := set_authorizationRequestPayload auth b in
    let object := _requestObjectPayload b in
    let object :=
      RequestPayload.set_presentation_definition
        (assignIfRequestObject I _ definition targets true) object in
    let object :=
      RequestPayload.set_presentation_definition_uri
        (mjoin (assignIfRequestObject I _ definitionUri targets true)) object in
    Ok (set_requestObjectPayload object b).

Definition withWellknownDIDVerifyCallback (wellknownDIDVerifyCallback : Callback)
    (b : Builder) : Builder :=
  set_wellknownDIDVerifyCallback (Some wellknownDIDVerifyCallback) b.

Definition addSupportedVersion (supportedVersion : RPBuilder.SupportedVersion) (b : Builder)
  : Builder :=
  set_versions (RPBuilder.addSupportedVersion supportedVersion (versions b)) b.

Definition withSupportedVersions (supportedVersion : RPBuilder.VersionsArg) (b : Builder)
  : Builder :=
  set_versions (RPBuilder.withSupportedVersions supportedVersion (versions b)) b.

Definition withEventEmitter (eventEmitter : option EventEmitter) (b : Builder) : Builder :=
  set_eventEmitter (Some (default newEventEmitter eventEmitter)) b.

Definition withSessionManager (sessionManager : SessionManager) (b : Builder) : Builder :=
  set_sessionManager (Some sessionManager) b.

Definition getSupportedRequestVersion (requireVersion : option bool) (b : Builder)
  : Outcome (option RPBuilder.SupportedVersion) :=
  RPBuilder.getSupportedRequestVersion requireVersion (versions b).

(** The field initialisers, then the constructor. *)
Definition newInstance (supportedVersion : option RPBuilder.SupportedVersion) : Builder :=
  mkBuilder ∅ None None None None None None None None
    (RPBuilder.newInstance supportedVersion)
    None None RequestPayload.empty RequestPayload.empty None None ∅.

Definition build (b : Builder) : Outcome RPInstance :=
  if JS.defined (sessionManager b) && negb (JS.defined (eventEmitter b))
  then Err (PlainError
              "Please enable the event emitter on the RP when using a replay registry")
  else construct I b.

Definition authorizationRequestPayload (b : Builder) : RequestPayload.t :=
  _authorizationRequestPayload b.

Definition requestObjectPayload (b : Builder) : RequestPayload.t :=
  _requestObjectPayload b.

(** A call of one of the methods that return the builder. *)
Inductive Call :=
| WithScope (scope : string) (targets : option PropertyTargets)
| WithResponseType (responseType : ResponseTypeArg) (targets : option PropertyTargets)
| WithClientId (clientId : string) (targets : option PropertyTargets)
| WithIssuer (issuer : string) (targets : option PropertyTargets)
| WithPresentationVerification (presentationVerificationCallback : Callback)
| WithRevocationVerification (mode : RevocationVerification.t)
| WithRevocationVerificationCallback (callback : Callback)
| WithCustomResolver (resolver : Resolvable)
| AddResolver (didMethod : string) (resolver : ResolverEntry)
| WithAuthorizationEndpoint (authorizationEndpoint : string)
    (targets : option PropertyTargets)
| WithCheckLinkedDomain (mode : CheckLinkedDomain.t)
| AddDidMethod (didMethod : string) (opts : option UniResolverOpts)
| WithRedirectUri (redirectUri : string) (targets : option PropertyTargets)
| WithRequestByReference (referenceUri : string)
| WithRequestByValue
| WithRequestBy (passBy : PassBy) (referenceUri : option string)
| WithResponseMode (responseMode : string) (targets : option PropertyTargets)
| WithClientMetadata (clientMetadata : ClientMetadataOpts)
    (targets : option PropertyTargets)
| WithSignature (signature : BuilderSignature)
| WithInternalSignature (hexPrivateKey did kid : string) (alg : SigningAlgo)
    (customJwtSigner : option Signer)
| WithSuppliedSignature (signature : Callback) (did kid : string) (alg : SigningAlgo)
| WithPresentationDefinition (definitionOpts : DefinitionOpts.t)
    (targets : option PropertyTargets)
| WithWellknownDIDVerifyCallback (wellknownDIDVerifyCallback : Callback)
| AddSupportedVersion (supportedVersion : RPBuilder.SupportedVersion)
| WithSupportedVersions (supportedVersion : RPBuilder.VersionsArg)
| WithEventEmitter (eventEmitter : option EventEmitter)
| WithSessionManager (sessionManager : SessionManager).

Definition call (b : Builder) (c : Call) : Outcome Builder :=
  match c with
  | WithScope scope targets => Ok (withScope scope targets b)
  | WithResponseType responseType targets => Ok (withResponseType responseType targets b)
  | WithClientId clientId targets => Ok (withClientId clientId targets b)
  | WithIssuer issuer targets => Ok (withIssuer issuer targets b)
  | WithPresentationVerification cb => Ok (withPresentationVerification cb b)
  | WithRevocationVerification mode => Ok (withRevocationVerification mode b)
  | WithRevocationVerificationCallback cb => Ok (withRevocationVerificationCallback cb b)
  | WithCustomResolver resolver => Ok (withCustomResolver resolver b)
  | AddResolver didMethod resolver => addResolver didMethod resolver b
  | WithAuthorizationEndpoint authorizationEndpoint targets =>
      Ok (withAuthorizationEndpoint authorizationEndpoint targets b)
  | WithCheckLinkedDomain mode => Ok (withCheckLinkedDomain mode b)
  | AddDidMethod didMethod opts => addDidMethod didMethod opts b
  | WithRedirectUri redirectUri targets => Ok (withRedirectUri redirectUri targets b)
  | WithRequestByReference referenceUri => withRequestByReference referenceUri b
  | WithRequestByValue => withRequestByValue b
  | WithRequestBy passBy referenceUri => withRequestBy passBy referenceUri b
  | WithResponseMode responseMode targets => Ok (withResponseMode responseMode targets b)
  | WithClientMetadata clientMetadata targets => withClientMetadata clientMetadata targets b
  | WithSignature signature => Ok (withSignature signature b)
  | WithInternalSignature hexPrivateKey did kid alg customJwtSigner =>
      Ok (withInternalSignature hexPrivateKey did kid alg customJwtSigner b)
  | WithSuppliedSignature sign did kid alg => Ok (withSuppliedSignature sign did kid alg b)
  | WithPresentationDefinition definitionOpts targets =>
      withPresentationDefinition definitionOpts targets b
  | WithWellknownDIDVerifyCallback cb => Ok (withWellknownDIDVerifyCallback cb b)
  | AddSupportedVersion supportedVersion => Ok (addSupportedVersion supportedVersion b)
  | WithSupportedVersions supportedVersion => Ok (withSupportedVersions supportedVersion b)
  | WithEventEmitter eventEmitter => Ok (withEventEmitter eventEmitter b)
  | WithSessionManager sessionManager => Ok (withSessionManager sessionManager b)
  end.

(** A chain of calls; the first exception ends it. *)
Fixpoint calls (b : Builder) (cs : list Call) : Outcome Builder :=
  match cs with
  | [] => Ok b
  | c :: cs => b ← call b c ; calls b cs
  end.

(** The calls of a chain that the version methods see. *)
Definition version_calls (cs : list Call) : list RPBuilder.Call :=
  cs ≫= λ c,
    match c with
    | AddSupportedVersion v => [RPBuilder.CallAdd v]
    | WithSupportedVersions a => [RPBuilder.CallWith a]
    | _ => []
    end.

End Methods.

End RP.

(** ** Sample values for the builder *)

Module SampleBuilder.

(** Imports under which every property is written wherever it may go, and
    [SIOPv2_D11] is 110. *)
Definition imports : RP.Imports :=
  RP.mkImports
    (λ did, Ok (String.substring 4 (String.length did - 4) did))
    (λ A propertyValue targets isDefaultTarget, Some propertyValue)
    (λ A propertyValue targets isDefaultTarget, Some propertyValue)
    (λ target targets, true)
    (λ target targets, true)
    110%Z
    "did"
    (λ s, s)
    (λ b, Ok (RP.newRP b)).

Definition metadata : RP.ClientMetadataOpts := RP.client_metadata_opts 1.

Definition someTargets : option RP.PropertyTargets := Some (RP.property_targets 1).

Definition definitionOpts : RP.DefinitionOpts.t :=
  RP.DefinitionOpts.mk (IPresentationDefinition.mk (Some "definition-1") ["input"])
    (Some "https://rp.example/definition").

(** A chain of calls on a builder: with a session manager and no event
    emitter. *)
Definition chain : list RP.Call :=
  [ RP.WithClientId "https://rp.example" None;
    RP.WithSessionManager (RP.session_manager 1);
    RP.AddDidMethod "did:ethr" None;
    RP.WithRequestByReference "https://rp.example/request";
    RP.WithClientMetadata metadata someTargets;
    RP.WithPresentationDefinition definitionOpts someTargets;
    RP.WithSupportedVersions (RPBuilder.ManyVersions [110; 70]%Z) ].

(** A builder for version 70 that resolves did:web. *)
Definition resolving : RP.Builder :=
  RP.set_resolvers {[ "web" := RP.given (resolvable 1) ]} (RP.newInstance (Some 70%Z)).

End SampleBuilder.

(** * Properties *)

(** ** JavaScript helpers *)

Lemma truthy_Some (s : option string) :
  JS.truthy s = true ↔ ∃ v, s = Some v ∧ v ≠ EmptyString.
Proof.
  destruct s as [[|c r]|]; simpl; split; try discriminate.
  - intros (v & [= <-] & Hv). by destruct Hv.
  - intros _. by eexists.
  - intros (v & [= <-] & ?). done.
  - by intros (v & ? & ?).
Qed.

(** The expiry test of claims validation, [!exp || exp < t]: the claim is
    absent, or it is zero or NaN, or it is less than [t]. *)
Lemma expired_spec (exp : option float) (t : float) :
  negb (JS.truthy_num exp) || JS.lt_num exp t = true
  ↔ match exp with
    | None => True
    | Some e =>
        PrimFloat.eqb e 0%float = true ∨ PrimFloat.is_nan e = true
        ∨ PrimFloat.ltb e t = true
    end.
Proof.
  destruct exp as [e|]; [|done].
  unfold JS.truthy_num, JS.truthy_number, JS.lt_num, JS.lt.
  rewrite negb_involutive, !orb_true_iff. tauto.
Qed.

(** The same test answers no: the claim is a number other than zero and
    NaN, and it is not less than [t]. *)
Lemma not_expired_spec (exp : option float) (t : float) :
  negb (JS.truthy_num exp) || JS.lt_num exp t = false
  ↔ ∃ e, exp = Some e
       ∧ PrimFloat.eqb e 0%float = false ∧ PrimFloat.is_nan e = false
       ∧ PrimFloat.ltb e t = false.
Proof.
  destruct exp as [e|]; [|cbn; naive_solver].
  unfold JS.truthy_num, JS.truthy_number, JS.lt_num, JS.lt.
  rewrite negb_involutive, !orb_false_iff. naive_solver.
Qed.

(** ** Builder: the list of supported versions *)

Section SupportedVersions.

Import RPBuilder.

Lemma addSupportedVersion_versions v b :
  versions (addSupportedVersion v b) =
    if decide (v ∈ versions b) then versions b else versions b ++ [v].
Proof.
  destruct b as [[vs|]]; unfold addSupportedVersion, versions; simpl.
  - by case_decide.
  - done.
Qed.

Lemma addSupportedVersion_NoDup v b :
  NoDup (versions b) → NoDup (versions (addSupportedVersion v b)).
Proof.
  intros Hnd. rewrite addSupportedVersion_versions.
  case_decide as Hin; [done|].
  apply NoDup_app. split_and!; [done | | apply NoDup_singleton].
  intros x Hx ->%list_elem_of_singleton. done.
Qed.

Lemma addSupportedVersion_head v b :
  head (versions (addSupportedVersion v b)) =
    match head (versions b) with Some first => Some first | None => Some v end.
Proof.
  rewrite addSupportedVersion_versions. case_decide as Hin.
  - destruct (versions b) as [|x l]; [by apply elem_of_nil in Hin | done].
  - apply head_snoc.
Qed.

Lemma withSupportedVersions_NoDup a b :
  NoDup (versions b) → NoDup (versions (withSupportedVersions a b)).
Proof.
  unfold withSupportedVersions. generalize (versions_of a) as vs.
  intros vs. revert b. induction vs as [|v vs IH]; intros b Hnd; simpl; [done|].
  apply IH, addSupportedVersion_NoDup, Hnd.
Qed.

Lemma withSupportedVersions_head a b :
  head (versions (withSupportedVersions a b)) =
    match head (versions b) with
    | Some first => Some first
    | None => head (versions_of a)
    end.
Proof.
  unfold withSupportedVersions. generalize (versions_of a) as vs.
  intros vs. revert b. induction vs as [|v vs IH]; intros b; simpl.
  - by destruct (head (versions b)).
  - rewrite IH, addSupportedVersion_head. by destruct (head (versions b)).
Qed.

Lemma call_NoDup c b : NoDup (versions b) → NoDup (versions (call b c)).
Proof.
  destruct c; simpl; [apply addSupportedVersion_NoDup | apply withSupportedVersions_NoDup].
Qed.

Lemma calls_NoDup cs b : NoDup (versions b) → NoDup (versions (calls b cs)).
Proof.
  unfold calls. revert b. induction cs as [|c cs IH]; intros b Hnd; simpl; [done|].
  apply IH, call_NoDup, Hnd.
Qed.

Lemma calls_head cs b :
  head (versions (calls b cs)) =
    match head (versions b) with
    | Some first => Some first
    | None => head (added cs)
    end.
Proof.
  unfold calls, added. revert b. induction cs as [|c cs IH]; intros b; simpl.
  - by destruct (head (versions b)).
  - rewrite IH, head_app. destruct c as [v|a]; simpl.
    + rewrite addSupportedVersion_head. by destruct (head (versions b)).
    + rewrite withSupportedVersions_head.
      destruct (head (versions b)); [done|]. by destruct a as [v|[|v vs]].
Qed.

Lemma newInstance_versions initial : versions (newInstance initial) = given initial.
Proof. destruct initial as [v|]; [|done]. cbn. by case_decide. Qed.

Lemma newInstance_NoDup initial : NoDup (versions (newInstance initial)).
Proof.
  destruct initial as [v|]; simpl; [|apply NoDup_nil_2].
  case_decide; [apply NoDup_nil_2|].
  apply addSupportedVersion_NoDup, NoDup_nil_2.
Qed.

Lemma getSupportedRequestVersion_head requireVersion b :
  getSupportedRequestVersion requireVersion b =
    match head (versions b) with
    | Some first => Ok (Some first)
    | None =>
        if decide (requireVersion = Some false) then Ok None
        else Err (PlainError "No supported version supplied/available")
    end.
Proof.
  unfold getSupportedRequestVersion, versions.
  by destruct (supportedVersions b) as [[|v vs]|].
Qed.

(** C10.  Start from [Builder.newInstance] (with or without a version) and
    make any sequence of [addSupportedVersion] and [withSupportedVersions]
    calls.  The list of supported versions then has no duplicates, and
    [getSupportedRequestVersion] returns the first version that was handed
    to the builder; when none was, so that the list is empty or unset, it
    throws unless [requireVersion] is [false], in which case it returns
    undefined. *)
Theorem supportedVersions_NoDup_first
    (initial : option SupportedVersion) (cs : list Call) (requireVersion : option bool) :
  let b := calls (newInstance initial) cs in
  NoDup (versions b)
  ∧ getSupportedRequestVersion requireVersion b =
      match head (given initial ++ added cs) with
      | Some first => Ok (Some first)
      | None =>
          if decide (requireVersion = Some false) then Ok None
          else Err (PlainError "No supported version supplied/available")
      end.
Proof.
  intros b. split.
  - apply calls_NoDup, newInstance_NoDup.
  - rewrite getSupportedRequestVersion_head. unfold b.
    by rewrite calls_head, head_app, newInstance_versions.
Qed.

End SupportedVersions.

(** ** Response verification: [verifyJWT] *)

Arguments assertValidResponseJWT : simpl never.
Arguments assertValidVerifiablePresentations : simpl never.

(** Unfolds the plumbing of a computation. *)
Ltac run :=
  cbn [mbind mret M_bind M_ret Outcome_bind Outcome_ret lift call throw
       events outcome fst snd app negb] in *.

(** Case analysis on every call and test of a computation. *)
Ltac tidy := unfold throw, lift, call, mret, M_ret in *; cbn in *; simplify_eq.
Ltac crunch :=
  tidy; repeat (first [ case_match | case_bool_decide ]; tidy); try done.

(** An event of one kind is not in a list of events of other kinds. *)
Ltac not_in_log :=
  let Hin := fresh "Hin" in
  intros Hin;
  repeat (apply elem_of_cons in Hin as [Hin|Hin]; [discriminate Hin|]);
  by apply elem_of_nil in Hin.

(** What claims validation answers on verified claims, check by check. *)
Lemma assertValidResponseJWT_verified E now header verPayload audience :
  assertValidResponseJWT E now
    (ResponseJWTOpts.mk (Some header) None (Some verPayload) audience) =
    if negb (JS.truthy (IdToken.nonce verPayload)) then Err (SIOPError NO_NONCE)
    else if negb (JS.truthy_num (IdToken.exp verPayload))
            || JS.lt_num (IdToken.exp verPayload) (seconds now)
    then Err (SIOPError EXPIRED)
    else if (JS.truthy (IdToken.aud verPayload) && negb (JS.truthy audience))
            || (negb (JS.truthy (IdToken.aud verPayload)) && JS.truthy audience)
    then Err (SIOPError BAD_PARAMS)
    else if JS.truthy audience && bool_decide (audience ≠ IdToken.aud verPayload)
    then Err (SIOPError INVALID_AUDIENCE)
    else Ok tt.
Proof.
  unfold assertValidResponseJWT; simpl.
  destruct (JS.truthy (IdToken.nonce verPayload)); simpl; [|done].
  by destruct (negb (JS.truthy_num (IdToken.exp verPayload))
              || JS.lt_num (IdToken.exp verPayload) (seconds now)).
Qed.

(** The check on the parsed, not yet verified claims. *)
Lemma assertValidResponseJWT_parsed E now header payload :
  assertValidResponseJWT E now (ResponseJWTOpts.mk (Some header) payload None None) =
    match payload with
    | Some p =>
        if bool_decide (JWTPayload.iss p ≠ Some (SELF_ISSUED_V2 E))
        then Err (SIOPErrorGot NO_SELFISSUED_ISS (JWTPayload.iss p))
        else Ok tt
    | None => Ok tt
    end.
Proof.
  unfold assertValidResponseJWT; simpl.
  destruct payload as [p|]; [|done]. by case_bool_decide.
Qed.

Lemma assertValidResponseJWT_parsed_ok E now header payload :
  (∀ claims, payload = Some claims → JWTPayload.iss claims = Some (SELF_ISSUED_V2 E)) →
  assertValidResponseJWT E now (ResponseJWTOpts.mk (Some header) payload None None) = Ok tt.
Proof.
  intros Hiss. rewrite assertValidResponseJWT_parsed. destruct payload as [p|]; [|done].
  rewrite bool_decide_false; [done|]. intros Hne. by apply Hne, Hiss.
Qed.

Lemma truthy_nonempty (s : string) : s ≠ EmptyString → JS.truthy (Some s) = true.
Proof. intros Hs. apply truthy_Some. by exists s. Qed.

Lemma assertValidVerifyOpts_ok opts verification :
  VerifyAuthenticationResponseOpts.verification opts = Some verification →
  Verification.mode verification ≠ UNKNOWN_MODE →
  assertValidVerifyOpts (Some opts) = Ok tt.
Proof.
  intros Hv Hmode. unfold assertValidVerifyOpts. rewrite Hv.
  unfold isExternalVerification, isInternalVerification.
  by destruct (Verification.mode verification).
Qed.

Section VerifyStages.

Context (E : Env) (now : Z) (jwt : string).
Context (opts : VerifyAuthenticationResponseOpts.t) (verification : Verification.t).
Context (header : JWTHeader) (payload : option JWTPayload.t).

(** The token and the options are accepted and the token parses. *)
Hypothesis Hjwt : jwt ≠ EmptyString.
Hypothesis Hverification :
  VerifyAuthenticationResponseOpts.verification opts = Some verification.
Hypothesis Hmode : Verification.mode verification ≠ UNKNOWN_MODE.
Hypothesis Hparse : parseJWT E jwt = Ok (Some header, payload).

Lemma verifyJWT_accepts_input :
  JS.truthy (Some jwt) = true ∧ assertValidVerifyOpts (Some opts) = Ok tt.
Proof.
  split; [by apply truthy_nonempty | by eapply assertValidVerifyOpts_ok].
Qed.

(** C3, as the code has it.  The issuer check is made on the parsed
    claims, before the signature is verified: a token whose [iss] is not
    the self-issued identifier is rejected with the issuer error as soon
    as it is parsed.  The only call made is the one to the parser, so
    neither signature verification, nor the linked-domain check, nor any
    presentation-exchange stage has run. *)
Theorem verifyJWT_issuer_mismatch_first (claims : JWTPayload.t) :
  payload = Some claims →
  JWTPayload.iss claims ≠ Some (SELF_ISSUED_V2 E) →
  verifyJWT E now jwt (Some opts) =
    ([ParseJWT jwt], Err (SIOPErrorGot NO_SELFISSUED_ISS (JWTPayload.iss claims))).
Proof.
  intros Hclaims Hiss. destruct verifyJWT_accepts_input as [Ht Ho].
  unfold verifyJWT. rewrite Ht, Ho, Hparse. run.
  rewrite assertValidResponseJWT_parsed, Hclaims. rewrite bool_decide_true by done.
  by run.
Qed.

(** From here on the issuer check passes, the signature verifies and the
    issuer DID is found. *)
Context (resolver : Resolvable) (verifiedJWT : VerifiedJWT.t) (issuerDid : string).

Hypothesis Hiss :
  ∀ claims, payload = Some claims → JWTPayload.iss claims = Some (SELF_ISSUED_V2 E).
Hypothesis Hresolver : getResolver E (Verification.resolveOpts verification) = Ok resolver.
Hypothesis Hsignature :
  verifyDidJWT E jwt resolver (VerifyAuthenticationResponseOpts.audience opts)
    = Ok verifiedJWT.
Hypothesis Hissuer : getIssuerDidFromPayload E payload = Ok issuerDid.

Local Abbreviation calls_so_far := (signature_stage jwt opts verification payload).
Local Abbreviation linked := (linked_domain_stage E opts verification issuerDid).
Local Abbreviation rest := (claims_stage E now jwt opts header verifiedJWT issuerDid).

Lemma verifyJWT_parsed_ok :
  assertValidResponseJWT E now (ResponseJWTOpts.mk (Some header) payload None None) = Ok tt.
Proof. by apply assertValidResponseJWT_parsed_ok. Qed.

(** A call that gets as far as the issuer DID: the calls it makes and how
    it ends. *)
Lemma verifyJWT_run :
  verifyJWT E now jwt (Some opts) =
    (calls_so_far ++ events linked,
     outcome linked ;; rest).
Proof.
  destruct verifyJWT_accepts_input as [Ht Ho].
  unfold verifyJWT. rewrite Ht, Ho, Hparse. run.
  rewrite verifyJWT_parsed_ok, Hverification, Hresolver. run.
  rewrite Hsignature, Hissuer. run.
  fold linked. unfold rest, calls_so_far.
  destruct linked as [l [[]|e]]; [|done].
  match goal with |- context [assertValidResponseJWT ?e ?n ?o] =>
    destruct (assertValidResponseJWT e n o) as [[]|] end;
    destruct (JS.defined
      (VerifyAuthenticationResponseOpts.presentationVerificationCallback opts));
    cbn; by rewrite app_nil_r.
Qed.


(** The linked-domain stage lets the call through. *)
Hypothesis Hlinked : outcome linked = Ok tt.

Lemma verifyJWT_outcome : outcome (verifyJWT E now jwt (Some opts)) = rest.
Proof. rewrite verifyJWT_run. cbn [outcome snd]. by rewrite Hlinked. Qed.

(** A call that gets to claims validation and whose verified claims lack a
    non-empty nonce fails with [NO_NONCE]; one whose claims have the nonce
    and an [exp] that is absent, zero, NaN or less than the time fails with
    [EXPIRED]. *)
Lemma verifyJWT_no_nonce :
  JS.truthy (IdToken.nonce (VerifiedJWT.payload verifiedJWT)) = false →
  outcome (verifyJWT E now jwt (Some opts)) = Err (SIOPError NO_NONCE).
Proof.
  intros Hnonce. rewrite verifyJWT_outcome. unfold rest.
  by rewrite assertValidResponseJWT_verified, Hnonce.
Qed.

Lemma verifyJWT_exp_rejected :
  JS.truthy (IdToken.nonce (VerifiedJWT.payload verifiedJWT)) = true →
  match IdToken.exp (VerifiedJWT.payload verifiedJWT) with
  | None => True
  | Some e =>
      PrimFloat.eqb e 0%float = true ∨ PrimFloat.is_nan e = true
      ∨ PrimFloat.ltb e (seconds now) = true
  end →
  outcome (verifyJWT E now jwt (Some opts)) = Err (SIOPError EXPIRED).
Proof.
  intros Hnonce Hexp%expired_spec. rewrite verifyJWT_outcome. unfold rest.
  by rewrite assertValidResponseJWT_verified, Hnonce, Hexp.
Qed.

(** C4, as the code has it.  Take a verification call that gets to claims
    validation: the earlier stages have passed.  The nonce and the expiry
    are tested before the audience: claims without a non-empty nonce fail
    with [NO_NONCE], and claims with one whose [exp] is absent, zero, NaN or
    less than the time fail with [EXPIRED], whatever the audiences.  When
    the claims carry a non-empty nonce and an [exp] that is none of these,
    claims validation answers as follows, and the call fails with the
    same error when it is one: claims with an audience and a verifier
    expecting none, or the reverse, give [BAD_PARAMS] (the audience-mismatch
    error); both present and unequal give [INVALID_AUDIENCE]; both absent,
    or both present and equal, pass. *)
Theorem verifyJWT_audience :
  let claims := VerifiedJWT.payload verifiedJWT in
  let audience := VerifyAuthenticationResponseOpts.audience opts in
  let run := outcome (verifyJWT E now jwt (Some opts)) in
  let check :=
    assertValidResponseJWT E now
      (ResponseJWTOpts.mk (Some header) None (Some claims) audience) in
  (JS.truthy (IdToken.nonce claims) = false → run = Err (SIOPError NO_NONCE))
  ∧ (JS.truthy (IdToken.nonce claims) = true →
     match IdToken.exp claims with
     | None => True
     | Some e =>
         PrimFloat.eqb e 0%float = true ∨ PrimFloat.is_nan e = true
         ∨ PrimFloat.ltb e (seconds now) = true
     end →
     run = Err (SIOPError EXPIRED))
  ∧ (∀ e,
       JS.truthy (IdToken.nonce claims) = true →
       IdToken.exp claims = Some e →
       PrimFloat.eqb e 0%float = false →
       PrimFloat.is_nan e = false →
       PrimFloat.ltb e (seconds now) = false →
       check =
         match JS.truthy (IdToken.aud claims), JS.truthy audience with
         | true, false | false, true => Err (SIOPError BAD_PARAMS)
         | true, true =>
             if decide (audience = IdToken.aud claims) then Ok tt
             else Err (SIOPError INVALID_AUDIENCE)
         | false, false => Ok tt
         end
       ∧ ∀ err, check = Err err → run = Err err).
Proof.
  intros claims audience run check. split_and!.
  - apply verifyJWT_no_nonce.
  - apply verifyJWT_exp_rejected.
  - intros e Hnonce Hexp Hzero Hnan Hlt. split.
    + unfold check. rewrite assertValidResponseJWT_verified.
      fold claims. rewrite Hnonce. cbn [negb].
      assert (negb (JS.truthy_num (IdToken.exp claims))
              || JS.lt_num (IdToken.exp claims) (seconds now) = false) as ->.
      { apply not_expired_spec. by exists e. }
      destruct (JS.truthy (IdToken.aud claims)), (JS.truthy audience); cbn; try done.
      case_bool_decide; by case_decide.
    + intros err Hcheck. unfold run. rewrite verifyJWT_outcome. unfold rest.
      fold claims audience check. by rewrite Hcheck.
Qed.

End VerifyStages.

(** C6, as the code has it.  Take a verification call at time [now] whose
    token and options are accepted and whose parsed issuer passes.  The
    signature is verified first: when it does not verify, the call fails
    with the error of the signature check, whatever the token's [exp].  When
    it verifies and the linked-domain stage passes, claims validation tests
    the nonce before the expiry: verified claims without a non-empty nonce
    fail with [NO_NONCE]; claims with one whose [exp] is absent, zero, NaN
    or less than [now / 1000], divided and compared as doubles, fail with
    [EXPIRED]. *)
Theorem verifyJWT_expired E now jwt opts verification header payload resolver :
  jwt ≠ EmptyString →
  VerifyAuthenticationResponseOpts.verification opts = Some verification →
  Verification.mode verification ≠ UNKNOWN_MODE →
  parseJWT E jwt = Ok (Some header, payload) →
  (∀ claims, payload = Some claims → JWTPayload.iss claims = Some (SELF_ISSUED_V2 E)) →
  getResolver E (Verification.resolveOpts verification) = Ok resolver →
  let audience := VerifyAuthenticationResponseOpts.audience opts in
  let run := outcome (verifyJWT E now jwt (Some opts)) in
  (∀ e, verifyDidJWT E jwt resolver audience = Err e → run = Err e)
  ∧ (∀ verifiedJWT issuerDid,
       verifyDidJWT E jwt resolver audience = Ok verifiedJWT →
       getIssuerDidFromPayload E payload = Ok issuerDid →
       outcome (linked_domain_stage E opts verification issuerDid) = Ok tt →
       let claims := VerifiedJWT.payload verifiedJWT in
       (JS.truthy (IdToken.nonce claims) = false → run = Err (SIOPError NO_NONCE))
       ∧ (JS.truthy (IdToken.nonce claims) = true →
          match IdToken.exp claims with
          | None => True
          | Some e =>
              PrimFloat.eqb e 0%float = true ∨ PrimFloat.is_nan e = true
              ∨ PrimFloat.ltb e (seconds now) = true
          end →
          run = Err (SIOPError EXPIRED))).
Proof.
  intros Hjwt Hv Hmode Hparse Hiss Hres audience run. split.
  - intros e Hsig. unfold run, verifyJWT.
    rewrite (truthy_nonempty _ Hjwt), (assertValidVerifyOpts_ok _ _ Hv Hmode), Hparse. run.
    rewrite (assertValidResponseJWT_parsed_ok _ _ _ _ Hiss), Hv, Hres. run.
    fold audience. by rewrite Hsig.
  - intros verifiedJWT issuerDid Hsig Hdid Hlinked claims. split.
    + by eapply verifyJWT_no_nonce.
    + by eapply verifyJWT_exp_rejected.
Qed.



(** No call without presentation-verification callback returns a verified
    response. *)
Lemma verifyJWT_needs_callback E now jwt verifyOpts :
  verifyOpts ≫= VerifyAuthenticationResponseOpts.presentationVerificationCallback = None →
  is_Ok (outcome (verifyJWT E now jwt verifyOpts)) = false.
Proof.
  intros Hcb. unfold verifyJWT, outcome.
  destruct verifyOpts as [opts|]; cbn in Hcb; [rewrite Hcb|]; crunch.
Qed.


(** C9, as the code has it.  A call to [verifyJWT] whose options lack the
    presentation-verification callback never returns a verified response.
    The callback is tested last, after every other stage: such a call makes
    the same calls as the call with the same options and a callback
    configured; where that one fails, it fails with the same error; where
    that one returns a verified response, it fails with the error for the
    missing callback. *)
Theorem verifyJWT_without_presentation_callback E now jwt opts cb :
  VerifyAuthenticationResponseOpts.presentationVerificationCallback opts = None →
  let configured :=
    VerifyAuthenticationResponseOpts.mk
      (VerifyAuthenticationResponseOpts.verification opts)
      (VerifyAuthenticationResponseOpts.audience opts)
      (VerifyAuthenticationResponseOpts.claims opts)
      (VerifyAuthenticationResponseOpts.verifyCallback opts)
      (Some cb) in
  is_Ok (outcome (verifyJWT E now jwt (Some opts))) = false
  ∧ verifyJWT E now jwt (Some opts) =
      (events (verifyJWT E now jwt (Some configured)),
       match outcome (verifyJWT E now jwt (Some configured)) with
       | Ok _ => Err (SIOPError VERIFIABLE_PRESENTATION_VERIFICATION_FUNCTION_MISSING)
       | Err e => Err e
       end).
Proof.
  intros Hcb configured. split; [by apply verifyJWT_needs_callback|].
  unfold configured, verifyJWT, events, outcome.
  destruct opts as [verification audience claims verifyCallback callback].
  cbn in Hcb. subst callback. cbn.
  by crunch.
Qed.

(** *** Runs of [verifyJWT] on the sample environment *)

Section VerifyRuns.

Import Sample.

(** C3, as stated, fails: the token below has a foreign issuer and a
    signature that does not verify.  It is rejected with the issuer error
    after the parser alone has been called; the signature was never
    looked at. *)
Lemma verifyJWT_issuer_checked_before_signature :
  let E := env foreign false (Ok tt) in
  let run := verifyJWT E now "ey.token" (Some (verifyOpts None None rp cb)) in
  verifyDidJWT E "ey.token" (resolvable 0) rp = Err (SIOPError ERROR_VERIFYING_SIGNATURE)
  ∧ outcome run = Err (SIOPErrorGot NO_SELFISSUED_ISS (Some "https://issuer.example"))
  ∧ events run = [ParseJWT "ey.token"]
  ∧ ∀ audience, VerifyDidJWT "ey.token" audience ∉ events run.
Proof. split_and!; [done | done | done | intros audience; not_in_log]. Qed.

Lemma verifyJWT_issuer_mismatch_first_witness :
  verifyJWT (env foreign false (Ok tt)) now "ey.token" (Some (verifyOpts None None rp cb))
  = ([ParseJWT "ey.token"],
     Err (SIOPErrorGot NO_SELFISSUED_ISS (Some "https://issuer.example"))).
Proof.
  apply (verifyJWT_issuer_mismatch_first (env foreign false (Ok tt)) now "ey.token"
           (verifyOpts None None rp cb) (verification None None)
           header (Some (decoded foreign))) with (claims := decoded foreign); done.
Defined.

(** C4, as stated, fails: the verifier expects no audience and the claims
    carry one, yet the first call fails for its missing nonce and the
    second for its expiry, both of which are tested before the audience. *)
Lemma verifyJWT_audience_not_reached :
  outcome (verifyJWT (env (claims None future rp) true (Ok tt)) now "ey.token"
             (Some (verifyOpts None None None cb)))
    = Err (SIOPError NO_NONCE)
  ∧ outcome (verifyJWT (env (claims nonce past rp) true (Ok tt)) now "ey.token"
               (Some (verifyOpts None None None cb)))
      = Err (SIOPError EXPIRED).
Proof. split; reflexivity. Qed.

Lemma verifyJWT_audience_witness :
  outcome (verifyJWT (env (claims nonce future rp) true (Ok tt)) now "ey.token"
             (Some (verifyOpts None None None cb)))
    = Err (SIOPError BAD_PARAMS).
Proof.
  edestruct (verifyJWT_audience (env (claims nonce future rp) true (Ok tt)) now
               "ey.token" (verifyOpts None None None cb) (verification None None)
               header (Some (decoded (claims nonce future rp))))
    as (_ & _ & Haudience);
    [ done | reflexivity | done | reflexivity | by intros ? [= <-]
    | reflexivity | reflexivity | reflexivity | reflexivity | ].
  edestruct Haudience as [Hcheck Hfail]; [reflexivity..|].
  apply Hfail. exact Hcheck.
Defined.

(** C6, as stated, fails twice over.  Both tokens expired in 2020.  The
    first carries no nonce: claims validation rejects it for the nonce.
    The signature of the second does not verify: the call fails with the
    signature error and claims validation is never reached. *)
Lemma verifyJWT_expired_not_reported :
  PrimFloat.ltb 1600000000%float (seconds now) = true
  ∧ outcome (verifyJWT (env (claims None past rp) true (Ok tt)) now "ey.token"
               (Some (verifyOpts None None rp cb)))
      = Err (SIOPError NO_NONCE)
  ∧ outcome (verifyJWT (env (claims nonce past rp) false (Ok tt)) now "ey.token"
               (Some (verifyOpts None None rp cb)))
      = Err (SIOPError ERROR_VERIFYING_SIGNATURE).
Proof. split_and!; reflexivity. Qed.

Lemma verifyJWT_expired_witness :
  outcome (verifyJWT (env (claims nonce past rp) true (Ok tt)) now "ey.token"
             (Some (verifyOpts None None rp cb)))
    = Err (SIOPError EXPIRED).
Proof.
  edestruct (verifyJWT_expired (env (claims nonce past rp) true (Ok tt)) now
               "ey.token" (verifyOpts None None rp cb) (verification None None)
               header (Some (decoded (claims nonce past rp))) (resolvable 0))
    as [_ Hverified];
    [ done | reflexivity | done | reflexivity | by intros ? [= <-] | reflexivity | ].
  edestruct Hverified as [_ Hexpired]; [reflexivity..|].
  apply Hexpired; [reflexivity|]. right. right. reflexivity.
Defined.


(** C9, as stated, fails: the options lack the callback, the verified
    claims carry no nonce, and the call fails with the error for the
    nonce, a member of the enum with a message of its own. *)
Lemma verifyJWT_callback_not_reported :
  VerifyAuthenticationResponseOpts.presentationVerificationCallback
    (verifyOpts None None rp None) = None
  ∧ outcome (verifyJWT (env (claims None future rp) true (Ok tt)) now "ey.token"
               (Some (verifyOpts None None rp None)))
      = Err (SIOPError NO_NONCE)
  ∧ declared NO_NONCE = true.
Proof. split_and!; reflexivity. Qed.

Lemma verifyJWT_without_presentation_callback_witness :
  is_Ok (outcome (verifyJWT (env (claims nonce future rp) true (Ok tt)) now
                    "ey.token" (Some (verifyOpts None None rp None)))) = false
  ∧ outcome (verifyJWT (env (claims nonce future rp) true (Ok tt)) now
               "ey.token" (Some (verifyOpts None None rp None)))
      = Err (SIOPError VERIFIABLE_PRESENTATION_VERIFICATION_FUNCTION_MISSING).
Proof.
  destruct (verifyJWT_without_presentation_callback
              (env (claims nonce future rp) true (Ok tt)) now "ey.token"
              (verifyOpts None None rp None) (callback 1) eq_refl) as [Hfails Hlast].
  split; [exact Hfails|]. by rewrite Hlast.
Defined.

End VerifyRuns.

(** ** Presentation exchange: [assertValidVerifiablePresentations] *)

Lemma filter_none {A} (f : A → bool) (l : list A) :
  Nat.eqb (length (List.filter f l)) 0 = true ↔ Forall (λ x, f x = false) l.
Proof.
  induction l as [|x l IH]; cbn; [by split; [constructor|]|].
  destruct (f x) eqn:Hx; cbn.
  - split; [done|]. intros Hall. apply Forall_cons in Hall as [? _]. congruence.
  - rewrite IH. split; [by constructor|]. by intros [_ ?]%Forall_cons.
Qed.

(** The test that opens [assertValidVerifiablePresentations]: there is
    nothing to check when no entry of [definitions] holds a definition and
    the presentations are absent or an array no item of which holds a
    presentation. *)
Lemma nothing_to_check_spec
    (definitions : option (list PresentationDefinitionWithLocation.t)) (vps : VpToken) :
  (match definitions with
   | None => true
   | Some ds => Nat.eqb (length (List.filter has_definition ds)) 0
   end)
  && (match vps with
      | NoVp => true
      | OneVp _ => false
      | VpArray l => Nat.eqb (length (List.filter has_presentation l)) 0
      end) = true
  ↔ Forall (λ d, has_definition d = false) (default [] definitions)
    ∧ (vps = NoVp
       ∨ ∃ l, vps = VpArray l ∧ Forall (λ vp, has_presentation vp = false) l).
Proof.
  rewrite andb_true_iff.
  assert ((match definitions with
           | None => true
           | Some ds => Nat.eqb (length (List.filter has_definition ds)) 0
           end) = true
          ↔ Forall (λ d, has_definition d = false) (default [] definitions)) as Hd.
  { destruct definitions as [ds|]; cbn; [apply filter_none|]. by split; [constructor|]. }
  assert ((match vps with
           | NoVp => true
           | OneVp _ => false
           | VpArray l => Nat.eqb (length (List.filter has_presentation l)) 0
           end) = true
          ↔ vps = NoVp
            ∨ ∃ l, vps = VpArray l ∧ Forall (λ vp, has_presentation vp = false) l) as Hv.
  { destruct vps as [|vp|l]; [naive_solver..|]. rewrite filter_none. naive_solver. }
  tauto.
Qed.

(** What the function does when there is something to check. *)
Lemma assertValidVerifiablePresentations_checked E args :
  let definitions := PresentationArgs.definitions args in
  let vps := PresentationArgs.vps args in
  ¬ (Forall (λ d, has_definition d = false) (default [] definitions)
     ∧ (vps = NoVp
        ∨ ∃ l, vps = VpArray l ∧ Forall (λ vp, has_presentation vp = false) l)) →
  assertValidVerifiablePresentations E args =
    (call (AssertValidPresentationDefinitionWithLocations definitions)
          (assertValidPresentationDefinitionWithLocations E definitions) ;;
     let n := count_definitions definitions in
     let m := count_presentations vps in
     if Nat.eqb n 0 then throw (SIOPError AUTH_REQUEST_DOESNT_EXPECT_VP)
     else if negb (Nat.eqb n m) then throw (SIOPError AUTH_REQUEST_EXPECTS_VP)
     else
       let submission := head (presentations_of vps) ≫= submission_of in
       call (ValidatePayloadsAgainstDefinitions (default [] definitions)
               (presentations_of vps) submission)
            (validatePayloadsAgainstDefinitions E (default [] definitions)
               (presentations_of vps) submission
               (PresentationArgs.presentationVerificationCallback args))).
Proof.
  destruct args as [definitions vps cb]. cbn. intros Hcheck.
  rewrite <- nothing_to_check_spec in Hcheck. apply not_true_is_false in Hcheck.
  unfold assertValidVerifiablePresentations.
  cbn [PresentationArgs.definitions PresentationArgs.vps
       PresentationArgs.presentationVerificationCallback].
  rewrite Hcheck. clear Hcheck. unfold call.
  destruct (assertValidPresentationDefinitionWithLocations E definitions) as [[]|e];
    [|done].
  by destruct definitions as [[|d ds]|], vps as [|vp|[|v l]].
Qed.

(** What the function does when there is nothing to check. *)
Lemma assertValidVerifiablePresentations_unchecked E args :
  let definitions := PresentationArgs.definitions args in
  let vps := PresentationArgs.vps args in
  Forall (λ d, has_definition d = false) (default [] definitions)
  ∧ (vps = NoVp
     ∨ ∃ l, vps = VpArray l ∧ Forall (λ vp, has_presentation vp = false) l) →
  assertValidVerifiablePresentations E args = ([], Ok tt).
Proof.
  intros definitions vps Hnothing%nothing_to_check_spec.
  unfold assertValidVerifiablePresentations. fold definitions vps.
  by rewrite Hnothing.
Qed.




(** ** Building the identity token: [createSIOPIDToken] *)

Lemma Some_or_str (a : option string) (b : string) :
  Some (JS.or_str a b) = if JS.truthy a then a else Some b.
Proof. by destruct a as [[|c s]|]. Qed.

(** What a successful call was given and what it returns. *)
Lemma createSIOPIDToken_Ok E clock verifiedJwt resOpts idToken :
  outcome (createSIOPIDToken E clock verifiedJwt resOpts) = Ok idToken →
  ∃ request opts,
    verifiedJwt = Some request ∧ resOpts = Some opts
    ∧ JS.truthy (AuthenticationResponseOpts.did opts) = true
    ∧ IdToken.sub idToken = AuthenticationResponseOpts.did opts
    ∧ IdToken.sub_jwk idToken = None
    ∧ IdToken.nonce idToken =
        let payload := VerifiedAuthenticationRequestWithJWT.payload request in
        let state :=
          JS.or_str (AuthenticationResponseOpts.state opts)
                    (getState E (AuthenticationRequestPayload.state payload)) in
        Some (JS.or_str (AuthenticationRequestPayload.nonce payload)
                (JS.or_str (AuthenticationResponseOpts.nonce opts) (getNonce E state))).
Proof.
  unfold createSIOPIDToken, outcome, assertValidResponseOpts.
  destruct verifiedJwt as [request|], resOpts as [opts|]; [|crunch..].
  destruct (JS.truthy (AuthenticationResponseOpts.did opts)) eqn:Hdid; [|crunch].
  rewrite andb_false_r. intros Hrun. exists request, opts.
  split_and!; try done; crunch.
Qed.

(** C2: the thumbprint subject is never produced.  The function means to
    produce it (its last statement tests for a missing DID and calls
    [createThumbprintAndJWK]), but its first statement,
    [assertValidResponseOpts], has already rejected options without a DID:
    such a call fails with BAD_PARAMS before anything else is looked at,
    whatever the registration of the request advertises, and every identity
    token that is returned has the supplied DID as [sub] and carries no
    [sub_jwk]. *)
Theorem createSIOPIDToken_subject E clock verifiedJwt resOpts :
  (JS.truthy (resOpts ≫= AuthenticationResponseOpts.did) = false →
   createSIOPIDToken E clock verifiedJwt resOpts = ([], Err (SIOPError BAD_PARAMS)))
  ∧ (∀ idToken,
       outcome (createSIOPIDToken E clock verifiedJwt resOpts) = Ok idToken →
       ∃ opts did,
         resOpts = Some opts
         ∧ AuthenticationResponseOpts.did opts = Some did
         ∧ did ≠ EmptyString
         ∧ IdToken.sub idToken = Some did
         ∧ IdToken.sub_jwk idToken = None).
Proof.
  split.
  - intros Hdid. unfold createSIOPIDToken, assertValidResponseOpts.
    destruct resOpts as [opts|]; [|done]. cbn in Hdid.
    destruct (AuthenticationResponseOpts.signatureType opts); [|done].
    by rewrite Hdid.
  - intros idToken (request & opts & _ & -> & Hdid & Hsub & Hjwk & _)%createSIOPIDToken_Ok.
    apply truthy_Some in Hdid as (did & Hdid & Hne).
    exists opts, did. by rewrite Hsub.
Qed.

(** C8.  The nonce of the identity token that [createSIOPIDToken] returns
    is the nonce of the verified request when that is present (a non-empty
    string), otherwise the nonce of the response options when that is
    present, otherwise [getNonce] of the state, where the state is the one
    of the response options or, failing that, what [getState] makes of the
    state of the request. *)
Theorem createSIOPIDToken_nonce E clock verifiedJwt resOpts idToken :
  outcome (createSIOPIDToken E clock verifiedJwt resOpts) = Ok idToken →
  ∃ request opts,
    verifiedJwt = Some request ∧ resOpts = Some opts
    ∧ let payload := VerifiedAuthenticationRequestWithJWT.payload request in
      let state :=
        JS.or_str (AuthenticationResponseOpts.state opts)
                  (getState E (AuthenticationRequestPayload.state payload)) in
      IdToken.nonce idToken =
        if JS.truthy (AuthenticationRequestPayload.nonce payload)
        then AuthenticationRequestPayload.nonce payload
        else if JS.truthy (AuthenticationResponseOpts.nonce opts)
        then AuthenticationResponseOpts.nonce opts
        else Some (getNonce E state).
Proof.
  intros (request & opts & -> & -> & _ & _ & _ & Hnonce)%createSIOPIDToken_Ok.
  exists request, opts. split_and!; [done..|]. cbn zeta in *.
  rewrite Hnonce, Some_or_str.
  destruct (JS.truthy (AuthenticationRequestPayload.nonce _)); [done|].
  apply Some_or_str.
Qed.

(** *** Runs of [createSIOPIDToken] on the sample environment *)

Section BuildRuns.

Import Sample.

Local Abbreviation E := holder.

(** C2 at the input of the claim: the registration advertises thumbprint
    subjects and the options supply no DID, yet no token with a thumbprint
    subject comes back; the call is rejected, and neither the thumbprint nor
    the key is asked for.  The branch is dead twice over: the list that it
    searches for the thumbprint type holds only the types that contain
    "did", which the thumbprint type does not. *)
Lemma createSIOPIDToken_thumbprint_unreachable :
  JWK_THUMBPRINT E ∈ default [] thumbprintTypes
  ∧ AuthenticationResponseOpts.did (responseOpts None None) = None
  ∧ createSIOPIDToken E clock (Some (request thumbprintTypes nonce))
      (Some (responseOpts None None))
    = ([], Err (SIOPError BAD_PARAMS))
  ∧ JS.includes (JWK_THUMBPRINT E) (DID E) = false.
Proof. split_and!; [|done..]. cbn. apply elem_of_cons. right. apply elem_of_cons. by left. Qed.

Lemma createSIOPIDToken_subject_witness :
  createSIOPIDToken E clock (Some (request thumbprintTypes nonce))
    (Some (responseOpts None None))
  = ([], Err (SIOPError BAD_PARAMS))
  ∧ ∃ idToken,
      outcome (createSIOPIDToken E clock (Some (request thumbprintTypes nonce))
                 (Some (responseOpts (Some "did:ethr:0xabc") None))) = Ok idToken
      ∧ IdToken.sub idToken = Some "did:ethr:0xabc"
      ∧ IdToken.sub_jwk idToken = None.
Proof.
  split.
  - by apply (createSIOPIDToken_subject E clock (Some (request thumbprintTypes nonce))
                (Some (responseOpts None None))).
  - eexists. split; [reflexivity|].
    edestruct (createSIOPIDToken_subject E clock (Some (request thumbprintTypes nonce))
                 (Some (responseOpts (Some "did:ethr:0xabc") None)))
      as [_ Hsub].
    destruct (Hsub _ eq_refl) as (opts & did & [= <-] & [= <-] & _ & Hs & Hj).
    by split.
Defined.

Lemma createSIOPIDToken_nonce_witness :
  (∃ idToken,
     outcome (createSIOPIDToken E clock (Some (request thumbprintTypes nonce))
                (Some (responseOpts (Some "did:ethr:0xabc") (Some "from-options"))))
       = Ok idToken
     ∧ IdToken.nonce idToken = nonce)
  ∧ (∃ idToken,
       outcome (createSIOPIDToken E clock (Some (request thumbprintTypes None))
                  (Some (responseOpts (Some "did:ethr:0xabc") (Some "from-options"))))
         = Ok idToken
       ∧ IdToken.nonce idToken = Some "from-options")
  ∧ (∃ idToken,
       outcome (createSIOPIDToken E clock (Some (request thumbprintTypes None))
                  (Some (responseOpts (Some "did:ethr:0xabc") None)))
         = Ok idToken
       ∧ IdToken.nonce idToken = Some "nonce-of-state-1").
Proof.
  split_and!.
  - eexists. split; [reflexivity|].
    destruct (createSIOPIDToken_nonce E clock (Some (request thumbprintTypes nonce))
                (Some (responseOpts (Some "did:ethr:0xabc") (Some "from-options")))
                _ eq_refl) as (req & opts & [= <-] & [= <-] & Hnonce).
    exact Hnonce.
  - eexists. split; [reflexivity|].
    destruct (createSIOPIDToken_nonce E clock (Some (request thumbprintTypes None))
                (Some (responseOpts (Some "did:ethr:0xabc") (Some "from-options")))
                _ eq_refl) as (req & opts & [= <-] & [= <-] & Hnonce).
    exact Hnonce.
  - eexists. split; [reflexivity|].
    destruct (createSIOPIDToken_nonce E clock (Some (request thumbprintTypes None))
                (Some (responseOpts (Some "did:ethr:0xabc") None))
                _ eq_refl) as (req & opts & [= <-] & [= <-] & Hnonce).
    exact Hnonce.
Defined.

End BuildRuns.

(** ** Revocation: [verifyVPs] *)

Lemma outcome_bind {A B} (m : M A) (f : A → M B) :
  outcome (m ≫= f) =
    match outcome m with
    | Ok a => outcome (f a)
    | Err e => Err e
    end.
Proof. destruct m as [l [a|e]]; cbn; [|done]. by destruct (f a). Qed.

(** A loop over promises that nobody awaits ends well, whatever became of
    the promises. *)
Lemma forEach_detached_outcome {A B} (f : A → M B) (l : list A) :
  outcome (forEach (λ x, detached (f x)) l) = Ok tt.
Proof.
  induction l as [|x l IH]; [done|]. cbn [forEach].
  rewrite outcome_bind. by destruct (f x) as [lx [b|e]].
Qed.

(** When the response carries an array of presentations, the outcome of
    [verifyVPs] is the outcome of the presentation-exchange validation: the
    revocation checks cannot change it. *)
Lemma verifyVPs_array_outcome E payload opts claims verification vps :
  AuthenticationResponsePayload.vp_token payload = VpArray vps →
  VerifyAuthenticationResponseOpts.claims opts = Some claims →
  VerifyAuthenticationResponseOpts.verification opts = Some verification →
  outcome (verifyVPs E payload (Some opts)) =
    outcome (assertValidVerifiablePresentations E
               (PresentationArgs.mk
                  (Some [PresentationDefinitionWithLocation.mk
                           (vpToken claims ≫= presentationDefinition) VP_TOKEN])
                  (VpArray vps)
                  (VerifyAuthenticationResponseOpts.presentationVerificationCallback opts))).
Proof.
  intros Hvps Hclaims Hverification. unfold verifyVPs.
  rewrite Hvps, Hclaims, Hverification.
  rewrite outcome_bind. cbn [mret M_ret outcome snd]. rewrite outcome_bind.
  cbn [mbind option_bind].
  destruct (outcome (assertValidVerifiablePresentations _ _)) as [[]|e]; [|done].
  case_bool_decide; [|done]. apply forEach_detached_outcome.
Qed.

(** C1 at the failing input.  The revocation policy is ALWAYS with a
    callback, the response carries an array with one presentation, the
    presentation matches the one definition, and the revocation check of
    that presentation fails.  [verifyVPs] calls the revocation check, the
    failure ends up as an unhandled rejection, and the call itself
    succeeds.  The same presentation sent on its own instead of in an array
    makes [verifyVPs] fail with the revocation error. *)
Theorem verifyVPs_array_drops_revocation_failure :
  let E := Sample.env (Sample.claims Sample.nonce Sample.future Sample.rp) true Sample.revoked in
  let policy := mkRevocationOpts RevocationVerification.ALWAYS (Some (callback 2)) in
  let opts := Sample.verifyOpts None (Some policy) Sample.rp Sample.cb in
  let vp := Sample.presentation "did:ethr:0xabc" in
  let definitions := [Sample.located Sample.definition] in
  verifyRevocation E (Some vp) (Some (callback 2)) RevocationVerification.ALWAYS
    = Err (PlainError "credential revoked")
  ∧ verifyVPs E (AuthenticationResponsePayload.mk None (VpArray [vp])) (Some opts)
    = ([AssertValidPresentationDefinitionWithLocations (Some definitions);
        ValidatePayloadsAgainstDefinitions definitions [vp] None;
        VerifyRevocation (Some vp) RevocationVerification.ALWAYS;
        UnhandledRejection (PlainError "credential revoked")],
       Ok tt)
  ∧ verifyVPs E (AuthenticationResponsePayload.mk None (OneVp vp)) (Some opts)
    = ([AssertValidPresentationDefinitionWithLocations (Some definitions);
        ValidatePayloadsAgainstDefinitions definitions [vp] None;
        VerifyRevocation (Some vp) RevocationVerification.ALWAYS],
       Err (PlainError "credential revoked")).
Proof. split_and!; reflexivity. Qed.

(** * Further properties *)

(** ** Builder: what the version methods keep *)

Section SupportedVersionsMore.

Import RPBuilder.

Lemma addSupportedVersion_elem x v b :
  x ∈ versions (addSupportedVersion v b) ↔ x ∈ versions b ∨ x = v.
Proof.
  rewrite addSupportedVersion_versions. case_decide as Hin.
  - split; [by left|]. intros [?| ->]; done.
  - by rewrite elem_of_app, list_elem_of_singleton.
Qed.

Lemma withSupportedVersions_elem x a b :
  x ∈ versions (withSupportedVersions a b) ↔ x ∈ versions b ∨ x ∈ versions_of a.
Proof.
  unfold withSupportedVersions. generalize (versions_of a) as vs.
  intros vs. revert b. induction vs as [|v vs IH]; intros b; simpl.
  - rewrite elem_of_nil. tauto.
  - rewrite IH, addSupportedVersion_elem, elem_of_cons. tauto.
Qed.

Lemma addSupportedVersion_prefix v b :
  versions b `prefix_of` versions (addSupportedVersion v b).
Proof.
  rewrite addSupportedVersion_versions. case_decide; [done|]. by apply prefix_app_r.
Qed.

Lemma withSupportedVersions_prefix a b :
  versions b `prefix_of` versions (withSupportedVersions a b).
Proof.
  unfold withSupportedVersions. generalize (versions_of a) as vs.
  intros vs. revert b. induction vs as [|v vs IH]; intros b; simpl; [done|].
  etrans; [apply addSupportedVersion_prefix | apply IH].
Qed.

(** The versions a builder supports after a sequence of calls are the ones
    it supported before and the ones the calls handed to it: none is lost
    and none is made up. *)
Theorem calls_versions_elem x cs b :
  x ∈ versions (calls b cs) ↔ x ∈ versions b ∨ x ∈ added cs.
Proof.
  unfold calls, added. revert b. induction cs as [|c cs IH]; intros b; simpl.
  - rewrite elem_of_nil. tauto.
  - rewrite IH, elem_of_app. destruct c as [v|a]; simpl.
    + rewrite addSupportedVersion_elem, list_elem_of_singleton. tauto.
    + rewrite withSupportedVersions_elem. tauto.
Qed.

(** The list of supported versions only grows at its end: what was
    supported before a sequence of calls is still there, in the same
    places. *)
Theorem calls_versions_prefix cs b :
  versions b `prefix_of` versions (calls b cs).
Proof.
  unfold calls. revert b. induction cs as [|c cs IH]; intros b; simpl; [done|].
  etrans; [|apply IH]. destruct c; simpl;
    [apply addSupportedVersion_prefix | apply withSupportedVersions_prefix].
Qed.

(** Once [getSupportedRequestVersion] returns a version, no later call of
    [addSupportedVersion] or [withSupportedVersions] changes its answer. *)
Theorem getSupportedRequestVersion_stable requireVersion requireVersion' v cs b :
  getSupportedRequestVersion requireVersion b = Ok (Some v) →
  getSupportedRequestVersion requireVersion' (calls b cs) = Ok (Some v).
Proof.
  rewrite !getSupportedRequestVersion_head, calls_head.
  destruct (head (versions b)) as [first|]; [by intros [= ->]|].
  by case_decide.
Qed.

Lemma getSupportedRequestVersion_stable_witness :
  getSupportedRequestVersion (Some false)
    (calls (newInstance (Some 70%Z)) [CallWith (ManyVersions [110; 70; 71]%Z); CallAdd 110%Z])
  = Ok (Some 70%Z).
Proof.
  apply (getSupportedRequestVersion_stable None (Some false) 70%Z
           [CallWith (ManyVersions [110; 70; 71]%Z); CallAdd 110%Z]
           (newInstance (Some 70%Z))).
  reflexivity.
Defined.

End SupportedVersionsMore.

(** ** Claims validation and [verifyJWT]: what acceptance means *)



(** The calls [verifyJWT] makes follow one fixed sequence, each made at most
    once and only after the one before it: parse the token, get the
    resolver, verify the signature, find the issuer DID, validate the linked
    domain.  In particular [verifyJWT] never calls a presentation-exchange
    or revocation capability. *)
Theorem verifyJWT_call_sequence E now jwt verifyOpts :
  ∃ resolveOpts payload did mode,
    events (verifyJWT E now jwt verifyOpts)
      `prefix_of`
      [ParseJWT jwt; GetResolver resolveOpts;
       VerifyDidJWT jwt (verifyOpts ≫= VerifyAuthenticationResponseOpts.audience);
       GetIssuerDidFromPayload payload; ValidateLinkedDomainWithDid did mode].
Proof.
  unfold verifyJWT, events.
  destruct verifyOpts as [opts|]; cbn [mbind option_bind].
  2: { exists None, None, EmptyString, CheckLinkedDomain.NEVER.
       crunch; apply prefix_nil. }
  destruct (VerifyAuthenticationResponseOpts.verification opts) as [verification|] eqn:Hv.
  2: { exists None, None, EmptyString, CheckLinkedDomain.NEVER.
       crunch; apply prefix_nil. }
  exists (Verification.resolveOpts verification).
  destruct (parseJWT E jwt) as [[header payload]|e] eqn:Hparse.
  2: { exists None, EmptyString, CheckLinkedDomain.NEVER.
       crunch; first [apply prefix_nil | by apply prefix_cons, prefix_nil]. }
  exists payload.
  destruct (getIssuerDidFromPayload E payload) as [did|e] eqn:Hdid.
  2: { exists EmptyString, CheckLinkedDomain.NEVER.
       crunch; repeat first [apply prefix_nil | apply prefix_cons]. }
  exists did.
  destruct (Verification.checkLinkedDomain verification) as [mode|] eqn:Hmode;
    [exists mode | exists CheckLinkedDomain.IF_PRESENT];
    crunch; repeat first [apply prefix_nil | apply prefix_cons]; done.
Qed.

Lemma assertValidResponseJWT_header E now opts :
  assertValidResponseJWT E now opts = Ok tt → is_Some (ResponseJWTOpts.header opts).
Proof.
  unfold assertValidResponseJWT. destruct (ResponseJWTOpts.header opts); [by eexists|done].
Qed.

Lemma assertValidResponseJWT_parsed_iss E now header payload claims :
  assertValidResponseJWT E now (ResponseJWTOpts.mk (Some header) payload None None) = Ok tt →
  payload = Some claims →
  JWTPayload.iss claims = Some (SELF_ISSUED_V2 E).
Proof.
  rewrite assertValidResponseJWT_parsed. intros Hok ->.
  by case_bool_decide as Hiss.
Qed.

(** What a verified response certifies.  When [verifyJWT] returns, the token
    was parsed with a header, its parsed issuer (if it has claims) is the
    self-issued identifier, its signature was verified against the expected
    audience, the response carries the token, the issuer DID found in the
    parsed claims and the verified claims, those claims pass claims
    validation at the verification time, and a presentation-verification
    callback is configured. *)
Theorem verifyJWT_sound E now jwt verifyOpts response :
  outcome (verifyJWT E now jwt verifyOpts) = Ok response →
  ∃ opts header payload resolver verifiedJWT,
    verifyOpts = Some opts
    ∧ jwt ≠ EmptyString
    ∧ parseJWT E jwt = Ok (Some header, payload)
    ∧ (∀ claims, payload = Some claims →
                 JWTPayload.iss claims = Some (SELF_ISSUED_V2 E))
    ∧ verifyDidJWT E jwt resolver (VerifyAuthenticationResponseOpts.audience opts)
        = Ok verifiedJWT
    ∧ getIssuerDidFromPayload E payload
        = Ok (VerifiedAuthenticationResponseWithJWT.issuer response)
    ∧ response = verified_response jwt opts verifiedJWT
                   (VerifiedAuthenticationResponseWithJWT.issuer response)
    ∧ assertValidResponseJWT E now
        (ResponseJWTOpts.mk (Some header) None
           (Some (VerifiedAuthenticationResponseWithJWT.payload response))
           (VerifyAuthenticationResponseOpts.audience opts)) = Ok tt
    ∧ is_Some (VerifyAuthenticationResponseOpts.presentationVerificationCallback opts).
Proof.
  unfold verifyJWT, outcome. intros Hrun.
  destruct verifyOpts as [opts|]; [|crunch].
  destruct (VerifyAuthenticationResponseOpts.verification opts) as [verification|] eqn:Hv;
    [|crunch].
  destruct (parseJWT E jwt) as [[header payload]|e] eqn:Hparse; [|crunch].
  destruct (assertValidResponseJWT E now (ResponseJWTOpts.mk header payload None None))
    as [[]|e] eqn:Hparsed; [|crunch].
  destruct (assertValidResponseJWT_header _ _ _ Hparsed) as [h Hh]. cbn in Hh. subst header.
  destruct (getResolver E (Verification.resolveOpts verification)) as [resolver|e] eqn:Hres;
    [|crunch].
  destruct (verifyDidJWT E jwt resolver (VerifyAuthenticationResponseOpts.audience opts))
    as [verifiedJWT|e] eqn:Hsig; [|crunch].
  destruct (getIssuerDidFromPayload E payload) as [did|e] eqn:Hdid; [|crunch].
  destruct (assertValidResponseJWT E now
              (ResponseJWTOpts.mk (Some h) None (Some (VerifiedJWT.payload verifiedJWT))
                 (VerifyAuthenticationResponseOpts.audience opts))) as [[]|e] eqn:Hclaims;
    [|crunch].
  destruct (VerifyAuthenticationResponseOpts.presentationVerificationCallback opts)
    as [cb|] eqn:Hcb; [|crunch].
  assert (jwt ≠ EmptyString) as Hjwt by (intros ->; crunch).
  assert (response = verified_response jwt opts verifiedJWT did) as -> by crunch.
  exists opts, h, payload, resolver, verifiedJWT. cbn.
  split_and!; try done.
  intros claims. by eapply assertValidResponseJWT_parsed_iss.
Qed.

Lemma verifyJWT_sound_witness :
  ∃ response,
    outcome (verifyJWT (Sample.env (Sample.claims Sample.nonce Sample.future Sample.rp)
                          true (Ok tt))
               Sample.now "ey.token"
               (Some (Sample.verifyOpts None None Sample.rp Sample.cb))) = Ok response
    ∧ assertValidResponseJWT
        (Sample.env (Sample.claims Sample.nonce Sample.future Sample.rp) true (Ok tt))
        Sample.now
        (ResponseJWTOpts.mk (Some Sample.header) None
           (Some (VerifiedAuthenticationResponseWithJWT.payload response)) Sample.rp)
      = Ok tt.
Proof.
  eexists. split; [reflexivity|].
  destruct (verifyJWT_sound
              (Sample.env (Sample.claims Sample.nonce Sample.future Sample.rp) true (Ok tt))
              Sample.now "ey.token"
              (Some (Sample.verifyOpts None None Sample.rp Sample.cb)) _ eq_refl)
    as (opts & header & payload & resolver & verifiedJWT & [= <-] & _ & Hparse & _ & _
        & _ & _ & Hclaims & _).
  vm_compute in Hparse. injection Hparse as <- _. exact Hclaims.
Defined.

(** A token whose signature does not verify is rejected with the error of
    the signature check, and nothing is done with it afterwards: the issuer
    DID is not looked up and the linked domain is not validated. *)
Theorem verifyJWT_signature_failure E now jwt opts verification header payload resolver e :
  jwt ≠ EmptyString →
  VerifyAuthenticationResponseOpts.verification opts = Some verification →
  Verification.mode verification ≠ UNKNOWN_MODE →
  parseJWT E jwt = Ok (Some header, payload) →
  (∀ claims, payload = Some claims → JWTPayload.iss claims = Some (SELF_ISSUED_V2 E)) →
  getResolver E (Verification.resolveOpts verification) = Ok resolver →
  verifyDidJWT E jwt resolver (VerifyAuthenticationResponseOpts.audience opts) = Err e →
  verifyJWT E now jwt (Some opts) =
    ([ParseJWT jwt; GetResolver (Verification.resolveOpts verification);
      VerifyDidJWT jwt (VerifyAuthenticationResponseOpts.audience opts)],
     Err e).
Proof.
  intros Hjwt Hv Hmode Hparse Hiss Hres Hsig. unfold verifyJWT.
  rewrite (truthy_nonempty _ Hjwt), (assertValidVerifyOpts_ok _ _ Hv Hmode), Hparse. run.
  rewrite (assertValidResponseJWT_parsed_ok _ _ _ _ Hiss), Hv, Hres. run.
  by rewrite Hsig.
Qed.

Lemma verifyJWT_signature_failure_witness :
  verifyJWT (Sample.env (Sample.claims Sample.nonce Sample.future Sample.rp) false (Ok tt))
    Sample.now "ey.token" (Some (Sample.verifyOpts None None Sample.rp Sample.cb))
  = ([ParseJWT "ey.token"; GetResolver None; VerifyDidJWT "ey.token" Sample.rp],
     Err (SIOPError ERROR_VERIFYING_SIGNATURE)).
Proof.
  eapply (verifyJWT_signature_failure
            (Sample.env (Sample.claims Sample.nonce Sample.future Sample.rp) false (Ok tt))
            Sample.now "ey.token" (Sample.verifyOpts None None Sample.rp Sample.cb)
            (Sample.verification None None) Sample.header
            (Some (Sample.decoded (Sample.claims Sample.nonce Sample.future Sample.rp))));
    [ done | reflexivity | done | reflexivity | by intros ? [= <-]
    | reflexivity | reflexivity ].
Defined.

(** A failed linked-domain validation is fatal.  When the policy is
    IF_PRESENT or ALWAYS, or unset (which counts as IF_PRESENT), the issuer
    DID is validated in that mode with the configured [verifyCallback]; if
    the validation rejects, [verifyJWT] fails with its error and the claims
    are not validated. *)
Theorem verifyJWT_linked_domain_failure
    E now jwt opts verification header payload resolver verifiedJWT issuerDid mode e :
  jwt ≠ EmptyString →
  VerifyAuthenticationResponseOpts.verification opts = Some verification →
  Verification.mode verification ≠ UNKNOWN_MODE →
  parseJWT E jwt = Ok (Some header, payload) →
  (∀ claims, payload = Some claims → JWTPayload.iss claims = Some (SELF_ISSUED_V2 E)) →
  getResolver E (Verification.resolveOpts verification) = Ok resolver →
  verifyDidJWT E jwt resolver (VerifyAuthenticationResponseOpts.audience opts)
    = Ok verifiedJWT →
  getIssuerDidFromPayload E payload = Ok issuerDid →
  mode = default CheckLinkedDomain.IF_PRESENT (Verification.checkLinkedDomain verification) →
  mode ≠ CheckLinkedDomain.NEVER →
  validateLinkedDomainWithDid E issuerDid
    (VerifyAuthenticationResponseOpts.verifyCallback opts) mode = Err e →
  verifyJWT E now jwt (Some opts) =
    (signature_stage jwt opts verification payload
       ++ [ValidateLinkedDomainWithDid issuerDid mode],
     Err e).
Proof.
  intros Hjwt Hv Hmode Hparse Hiss Hres Hsig Hdid -> Hnever Hlinked.
  erewrite verifyJWT_run by done. unfold linked_domain_stage.
  destruct (Verification.checkLinkedDomain verification) as [m|]; cbn in *.
  - rewrite bool_decide_true by done. cbn. by rewrite Hlinked.
  - by rewrite Hlinked.
Qed.

Lemma verifyJWT_linked_domain_failure_witness :
  outcome (verifyJWT (SampleMore.unlinked Sample.holder) Sample.now "ey.token"
             (Some (Sample.verifyOpts (Some CheckLinkedDomain.ALWAYS) None
                      Sample.rp Sample.cb)))
  = Err (PlainError "no linked domain").
Proof.
  erewrite (verifyJWT_linked_domain_failure (SampleMore.unlinked Sample.holder)
              Sample.now "ey.token"
              (Sample.verifyOpts (Some CheckLinkedDomain.ALWAYS) None Sample.rp Sample.cb)
              (Sample.verification (Some CheckLinkedDomain.ALWAYS) None) Sample.header
              (Some (Sample.decoded (Sample.claims Sample.nonce Sample.future Sample.rp))));
    [ reflexivity | done | reflexivity | done | reflexivity | by intros ? [= <-]
    | reflexivity | reflexivity | reflexivity | reflexivity | done | reflexivity ].
Defined.

(** ** Presentation exchange and revocation, further *)

(** The only calls [assertValidVerifiablePresentations] makes are the check
    of the definitions and the matching. *)
Lemma assertValidVerifiablePresentations_events E args ev :
  ev ∈ events (assertValidVerifiablePresentations E args) →
  (∃ ds, ev = AssertValidPresentationDefinitionWithLocations ds)
  ∨ (∃ ds ps sub, ev = ValidatePayloadsAgainstDefinitions ds ps sub).
Proof.
  unfold assertValidVerifiablePresentations, events.
  crunch; intros Hin;
    repeat (apply elem_of_cons in Hin as [->|Hin]; [eauto 6|]);
    by apply elem_of_nil in Hin.
Qed.

(** As many entries of [definitions] as presentations, and at least one,
    and something to check (some entry holds a definition, or the
    presentations are a single object, or some item of the array holds a
    presentation): the verdict is the matcher's.  The definitions are
    checked first; if they pass, [validatePayloadsAgainstDefinitions] is
    called once with the definitions, the presentations in their order, the
    submission that the first presentation carries (if it carries one) and
    the callback, and its outcome is the outcome of the call. *)
Theorem assertValidVerifiablePresentations_delegates E args ds :
  let vps := PresentationArgs.vps args in
  let submission := head (presentations_of vps) ≫= submission_of in
  PresentationArgs.definitions args = Some ds →
  (0 < length ds)%nat →
  length ds = count_presentations vps →
  Exists (λ d, has_definition d = true) ds
  ∨ (∃ vp, vps = OneVp vp)
  ∨ Exists (λ vp, has_presentation vp = true) (presentations_of vps) →
  assertValidPresentationDefinitionWithLocations E (Some ds) = Ok tt →
  assertValidVerifiablePresentations E args =
    ([AssertValidPresentationDefinitionWithLocations (Some ds);
      ValidatePayloadsAgainstDefinitions ds (presentations_of vps) submission],
     validatePayloadsAgainstDefinitions E ds (presentations_of vps) submission
       (PresentationArgs.presentationVerificationCallback args)).
Proof.
  intros vps submission Hds Hpos Hlen Hsome Hvalid.
  rewrite assertValidVerifiablePresentations_checked.
  - fold vps. rewrite Hds, Hvalid. cbn [count_definitions from_option default].
    rewrite <- Hlen, Nat.eqb_refl.
    destruct (Nat.eqb_spec (length ds) 0) as [Hzero|_]; [lia|].
    cbn. by destruct (validatePayloadsAgainstDefinitions E _ _ _ _).
  - fold vps. rewrite Hds. cbn [default]. intros [Hnone Hvps].
    destruct Hsome as [Hd|[[vp Hone]|Hp]].
    + apply Exists_exists in Hd as (d & Hin & Hd).
      rewrite Forall_forall in Hnone. specialize (Hnone d Hin). congruence.
    + rewrite Hone in Hvps. by destruct Hvps as [?|(l & ? & _)].
    + apply Exists_exists in Hp as (vp & Hin & Hp).
      destruct Hvps as [Hno|(l & Hl & Hnone')]; rewrite ?Hno, ?Hl in Hin; cbn in Hin.
      * by apply elem_of_nil in Hin.
      * rewrite Forall_forall in Hnone'. specialize (Hnone' vp Hin). congruence.
Qed.

Lemma assertValidVerifiablePresentations_delegates_witness :
  assertValidVerifiablePresentations Sample.holder
    (PresentationArgs.mk (Some [Sample.located Sample.definition])
       (VpArray [Sample.presentation "did:ethr:0xabc"]) Sample.cb)
  = ([AssertValidPresentationDefinitionWithLocations
        (Some [Sample.located Sample.definition]);
      ValidatePayloadsAgainstDefinitions [Sample.located Sample.definition]
        [Sample.presentation "did:ethr:0xabc"] None],
     Ok tt).
Proof.
  apply (assertValidVerifiablePresentations_delegates Sample.holder
           (PresentationArgs.mk (Some [Sample.located Sample.definition])
              (VpArray [Sample.presentation "did:ethr:0xabc"]) Sample.cb)
           [Sample.located Sample.definition]);
    [ reflexivity | cbn; lia | reflexivity | left; by repeat constructor
    | reflexivity ].
Defined.

(** A loop of callbacks that each leave one event and succeed. *)
Lemma forEach_const {A} (ev : Event) (l : list A) :
  forEach (λ _, ([ev], Ok tt) : M unit) l = (replicate (length l) ev, Ok tt).
Proof.
  induction l as [|x l IH]; [done|]. cbn [forEach]. rewrite IH. done.
Qed.

Section VerifyVPsMore.

Context (E : Env) (payload : AuthenticationResponsePayload.t).
Context (opts : VerifyAuthenticationResponseOpts.t).
Context (claims : ClaimOpts) (verification : Verification.t).

Hypothesis Hclaims : VerifyAuthenticationResponseOpts.claims opts = Some claims.
Hypothesis Hverification :
  VerifyAuthenticationResponseOpts.verification opts = Some verification.

(** The presentation-exchange validation that [verifyVPs] starts with. *)
Local Abbreviation exchange :=
  (assertValidVerifiablePresentations E
     (PresentationArgs.mk
        (Some [PresentationDefinitionWithLocation.mk
                 (vpToken claims ≫= presentationDefinition) VP_TOKEN])
        (AuthenticationResponsePayload.vp_token payload)
        (VerifyAuthenticationResponseOpts.presentationVerificationCallback opts))).

(** With the revocation policy NEVER, [verifyVPs] is the presentation
    exchange validation and nothing more: same calls, same outcome, and no
    revocation check. *)
Theorem verifyVPs_never revocationOpts :
  Verification.revocationOpts verification = Some revocationOpts →
  revocationVerification revocationOpts = RevocationVerification.NEVER →
  verifyVPs E payload (Some opts) = exchange.
Proof.
  intros Hr Hnever. unfold verifyVPs. rewrite Hclaims, Hverification, Hr, Hnever.
  rewrite bool_decide_false by naive_solver.
  cbn. destruct exchange as [l [[]|e]]; cbn; [|done]. by rewrite app_nil_r.
Qed.

(** A single presentation (not an array) under a policy other than NEVER:
    once the presentation exchange validation has passed, the revocation
    check is called with the presentation, the configured callback and the
    configured mode, and its outcome is the outcome of [verifyVPs]. *)
Theorem verifyVPs_single vp revocationOpts :
  AuthenticationResponsePayload.vp_token payload = OneVp vp →
  Verification.revocationOpts verification = Some revocationOpts →
  revocationVerification revocationOpts ≠ RevocationVerification.NEVER →
  outcome exchange = Ok tt →
  verifyVPs E payload (Some opts) =
    (events exchange
       ++ [VerifyRevocation (Some vp) (revocationVerification revocationOpts)],
     verifyRevocation E (Some vp) (revocationVerificationCallback revocationOpts)
       (revocationVerification revocationOpts)).
Proof.
  intros Hvp Hr Hmode. unfold verifyVPs, revocationCallback.
  rewrite Hclaims, Hverification, Hr. rewrite bool_decide_true by done.
  cbn. destruct exchange as [l [[]|e]]; cbn; [|done]. intros _.
  rewrite Hvp. cbn. by destruct (verifyRevocation E _ _ _).
Qed.

(** Without [revocationOpts] the mode defaults to IF_PRESENT, but the
    callback is then read off the missing options: no revocation check is
    ever called.  After a successful presentation exchange validation, a
    response with an array of presentations is accepted and any other
    response fails with a TypeError. *)
Theorem verifyVPs_without_revocationOpts :
  Verification.revocationOpts verification = None →
  (∀ vp mode, VerifyRevocation vp mode ∉ events (verifyVPs E payload (Some opts)))
  ∧ (outcome exchange = Ok tt →
     outcome (verifyVPs E payload (Some opts)) =
       match AuthenticationResponsePayload.vp_token payload with
       | VpArray _ => Ok tt
       | _ => Err TypeError
       end).
Proof.
  intros Hr. split.
  - intros vp mode. unfold verifyVPs, revocationCallback, events.
    rewrite Hclaims, Hverification, Hr. rewrite bool_decide_true by done. cbn.
    pose proof (assertValidVerifiablePresentations_events E
      (PresentationArgs.mk
         (Some [PresentationDefinitionWithLocation.mk
                  (vpToken claims ≫= presentationDefinition) VP_TOKEN])
         (AuthenticationResponsePayload.vp_token payload)
         (VerifyAuthenticationResponseOpts.presentationVerificationCallback opts))
      (VerifyRevocation vp mode)) as Hev.
    unfold events in Hev.
    destruct exchange as [l [[]|e]]; cbn in *; [|naive_solver].
    destruct (AuthenticationResponsePayload.vp_token payload) as [|one|l'];
      cbn; rewrite ?app_nil_r; [naive_solver..|].
    rewrite (forEach_const (UnhandledRejection TypeError) l'). cbn.
    intros [Hin|[Hin _]%elem_of_replicate]%elem_of_app; [naive_solver|done].
  - unfold verifyVPs, revocationCallback. rewrite outcome_bind, Hclaims.
    cbn [mret M_ret outcome snd]. rewrite outcome_bind.
    cbn [mbind option_bind]. intros ->.
    rewrite Hverification, Hr. rewrite bool_decide_true by done.
    destruct (AuthenticationResponsePayload.vp_token payload); try done.
    apply forEach_detached_outcome.
Qed.

End VerifyVPsMore.

(** The presentation exchange validation that [verifyVPs] asks for, on an
    array of two or more items: it passes only when there is nothing to
    check. *)
Lemma assertValidVerifiablePresentations_several E definition l cb :
  (2 ≤ length l)%nat →
  let run :=
    assertValidVerifiablePresentations E
      (PresentationArgs.mk (Some [PresentationDefinitionWithLocation.mk definition VP_TOKEN])
         (VpArray l) cb) in
  (definition = None ∧ Forall (λ vp, has_presentation vp = false) l → run = ([], Ok tt))
  ∧ (¬ (definition = None ∧ Forall (λ vp, has_presentation vp = false) l) →
     is_Ok (outcome run) = false).
Proof.
  intros Hlen run. split.
  - intros [-> Hnone]. apply assertValidVerifiablePresentations_unchecked. cbn.
    split; [by repeat constructor|]. right. by exists l.
  - intros Hsome. unfold run.
    rewrite assertValidVerifiablePresentations_checked.
    + cbn. unfold call.
      destruct (assertValidPresentationDefinitionWithLocations E _) as [[]|e]; [|done].
      cbn. destruct l as [|v [|w l]]; cbn in Hlen; [lia..|done].
    + cbn. intros [Hd [?|(l' & [= <-] & Hl)]]; [done|].
      apply Hsome. split; [|done].
      apply Forall_cons in Hd as [Hd _]. by destruct definition.
Qed.

(** A response with an array of two or more items passes [verifyVPs] in
    one case only: the options and their [claims] and [verification] are
    there, no presentation definition is configured and no item of the
    array holds a presentation, so that nothing is checked.  In every other
    case the call fails: the one entry that [verifyVPs] builds cannot be
    matched by more than one presentation. *)
Theorem verifyVPs_rejects_several E payload verifyOpts l :
  AuthenticationResponsePayload.vp_token payload = VpArray l →
  (2 ≤ length l)%nat →
  is_Ok (outcome (verifyVPs E payload verifyOpts)) = true
  ↔ ∃ opts claims verification,
      verifyOpts = Some opts
      ∧ VerifyAuthenticationResponseOpts.claims opts = Some claims
      ∧ VerifyAuthenticationResponseOpts.verification opts = Some verification
      ∧ vpToken claims ≫= presentationDefinition = None
      ∧ Forall (λ vp, has_presentation vp = false) l.
Proof.
  intros Hvp Hlen. unfold verifyVPs. rewrite outcome_bind, Hvp.
  destruct verifyOpts as [opts|]; cbn [outcome snd mret M_ret mbind option_bind].
  2: { rewrite outcome_bind. split; [|by intros (? & ? & ? & ? & _)].
       by destruct (outcome (assertValidVerifiablePresentations E _)) as [[]|e]. }
  destruct (VerifyAuthenticationResponseOpts.claims opts) as [claims|] eqn:Hclaims;
    [|split; [done|intros (? & ? & ? & [= <-] & ? & _); congruence]].
  cbn [outcome snd mret M_ret]. rewrite outcome_bind.
  destruct (assertValidVerifiablePresentations_several E
              (vpToken claims ≫= presentationDefinition) l
              (VerifyAuthenticationResponseOpts.presentationVerificationCallback opts)
              Hlen) as [Hskip Hfail].
  split.
  - intros Hok.
    destruct (outcome (assertValidVerifiablePresentations E _)) as [[]|e] eqn:Hrun;
      [|done].
    destruct (VerifyAuthenticationResponseOpts.verification opts) as [verification|]
      eqn:Hv; [|by cbn in Hok].
    exists opts, claims, verification. split_and!; try done.
    + destruct (vpToken claims ≫= presentationDefinition) as [d|]; [|done].
      exfalso. assert (is_Ok (Ok ()) = false) as Habsurd; [|done].
      apply Hfail. by intros [[=] _].
    + destruct (decide (Forall (λ vp, has_presentation vp = false) l)) as [|Hno];
        [done|].
      exfalso. assert (is_Ok (Ok ()) = false) as Habsurd; [|done].
      apply Hfail. by intros [_ ?].
  - intros (opts' & claims' & verification & [= <-] & Hclaims' & Hv & Hd & Hnone).
    assert (claims' = claims) as -> by congruence.
    rewrite Hskip by done. cbn [outcome snd]. rewrite Hv.
    case_bool_decide; [|done].
    match goal with
    | |- context [forEach (λ p, detached (@?f p)) ?l] =>
        by rewrite (forEach_detached_outcome f l)
    end.
Qed.

Section RevocationRuns.

Import Sample.

Local Abbreviation vp := (presentation "did:ethr:0xabc").
Local Abbreviation E := (env (claims nonce future rp) true revoked).
Local Abbreviation policy mode := (Some (mkRevocationOpts mode (Some (callback 2)))).

(** Two items that hold no presentation, and no definition configured:
    the call passes and nothing was validated. *)
Lemma verifyVPs_rejects_several_witness :
  is_Ok (outcome (verifyVPs holder
                    (AuthenticationResponsePayload.mk None
                       (VpArray [SampleMore.bare; SampleMore.bare]))
                    (Some (SampleMore.undefining (policy RevocationVerification.ALWAYS)))))
  = true.
Proof.
  apply (verifyVPs_rejects_several holder
           (AuthenticationResponsePayload.mk None
              (VpArray [SampleMore.bare; SampleMore.bare]))
           (Some (SampleMore.undefining (policy RevocationVerification.ALWAYS)))
           [SampleMore.bare; SampleMore.bare]);
    [ reflexivity | cbn; lia | ].
  eexists _, _, _. split_and!; [reflexivity.. | by repeat constructor].
Defined.

Lemma verifyVPs_never_witness :
  verifyVPs E (AuthenticationResponsePayload.mk None (OneVp vp))
    (Some (verifyOpts None (policy RevocationVerification.NEVER) rp cb))
  = ([AssertValidPresentationDefinitionWithLocations (Some [located definition]);
      ValidatePayloadsAgainstDefinitions [located definition] [vp] None],
     Ok tt).
Proof.
  by erewrite (verifyVPs_never E (AuthenticationResponsePayload.mk None (OneVp vp))
                 (verifyOpts None (policy RevocationVerification.NEVER) rp cb)
                 (mkClaimOpts (Some (mkVpTokenOpts (Some definition))))
                 (verification None (policy RevocationVerification.NEVER))
                 eq_refl eq_refl (mkRevocationOpts RevocationVerification.NEVER
                                    (Some (callback 2))) eq_refl eq_refl).
Defined.

Lemma verifyVPs_single_witness :
  verifyVPs E (AuthenticationResponsePayload.mk None (OneVp vp))
    (Some (verifyOpts None (policy RevocationVerification.IF_PRESENT) rp cb))
  = ([AssertValidPresentationDefinitionWithLocations (Some [located definition]);
      ValidatePayloadsAgainstDefinitions [located definition] [vp] None;
      VerifyRevocation (Some vp) RevocationVerification.IF_PRESENT],
     Err (PlainError "credential revoked")).
Proof.
  by erewrite (verifyVPs_single E (AuthenticationResponsePayload.mk None (OneVp vp))
                 (verifyOpts None (policy RevocationVerification.IF_PRESENT) rp cb)
                 (mkClaimOpts (Some (mkVpTokenOpts (Some definition))))
                 (verification None (policy RevocationVerification.IF_PRESENT))
                 eq_refl eq_refl vp
                 (mkRevocationOpts RevocationVerification.IF_PRESENT (Some (callback 2)))
                 eq_refl eq_refl ltac:(done) eq_refl).
Defined.

Lemma verifyVPs_without_revocationOpts_witness :
  outcome (verifyVPs E (AuthenticationResponsePayload.mk None (OneVp vp))
             (Some (verifyOpts None None rp cb)))
  = Err TypeError.
Proof.
  destruct (verifyVPs_without_revocationOpts E
              (AuthenticationResponsePayload.mk None (OneVp vp))
              (verifyOpts None None rp cb)
              (mkClaimOpts (Some (mkVpTokenOpts (Some definition))))
              (verification None None) eq_refl eq_refl eq_refl) as [_ Houtcome].
  by apply Houtcome.
Defined.

End RevocationRuns.

(** ** The identity token, further *)

(** The token of a successful [createSIOPIDToken] call, field by field. *)
Lemma createSIOPIDToken_fields E clock verifiedJwt resOpts idToken :
  outcome (createSIOPIDToken E clock verifiedJwt resOpts) = Ok idToken →
  ∃ request opts definition_id,
    verifiedJwt = Some request ∧ resOpts = Some opts
    ∧ first_definition_id
        (VerifiedAuthenticationRequestWithJWT.presentationDefinitions request)
      = Ok definition_id
    ∧ let payload := VerifiedAuthenticationRequestWithJWT.payload request in
      let state :=
        JS.or_str (AuthenticationResponseOpts.state opts)
                  (getState E (AuthenticationRequestPayload.state payload)) in
      idToken =
        IdToken.mk
          (Some (SELF_ISSUED_V2 E))
          (AuthenticationRequestPayload.redirect_uri payload)
          (Some (seconds (clock 0%nat)))
          (Some (PrimFloat.add (seconds (clock 1%nat))
                   (JS.or_num (AuthenticationResponseOpts.expiresIn opts) 600%float)))
          (AuthenticationResponseOpts.did opts)
          (Some (seconds (clock 2%nat)))
          (Some (JS.or_str (AuthenticationRequestPayload.nonce payload)
                   (JS.or_str (AuthenticationResponseOpts.nonce opts) (getNonce E state))))
          (Some (mkVpTokenClaim
                   (PresentationSubmission.mk (uuidv4 E) definition_id
                      [mkDescriptor LDP_VP "$"])))
          None.
Proof.
  unfold createSIOPIDToken, outcome, assertValidResponseOpts, isString_entry.
  destruct verifiedJwt as [request|], resOpts as [opts|]; [|crunch..].
  destruct (JS.truthy (AuthenticationResponseOpts.did opts)) eqn:Hdid; [|crunch].
  rewrite !andb_false_r.
  destruct (first_definition_id _) as [definition_id|] eqn:Hid; [|crunch].
  intros Hrun. exists request, opts, definition_id.
  split_and!; try done. crunch.
Qed.

(** [createSIOPIDToken] calls nothing outside its module: no key is read and
    no thumbprint is computed, whatever it is given. *)
Theorem createSIOPIDToken_no_calls E clock verifiedJwt resOpts :
  events (createSIOPIDToken E clock verifiedJwt resOpts) = [].
Proof.
  unfold createSIOPIDToken, events, assertValidResponseOpts.
  destruct verifiedJwt as [request|], resOpts as [opts|]; [|crunch..].
  destruct (JS.truthy (AuthenticationResponseOpts.did opts)) eqn:Hdid; [|crunch].
  rewrite andb_false_r. crunch.
Qed.

(** [createSIOPIDToken] returns a token exactly when the response options
    name a recognised signature shape and a non-empty DID, the verified
    request carries its non-empty jwt, its registration lists the supported
    subject syntax types, and its presentation definitions are defined and,
    when there are any, the first of them holds a definition. *)
Theorem createSIOPIDToken_succeeds_iff E clock verifiedJwt resOpts :
  is_Ok (outcome (createSIOPIDToken E clock verifiedJwt resOpts)) = true
  ↔ (∃ opts signature did,
       resOpts = Some opts
       ∧ AuthenticationResponseOpts.signatureType opts = Some signature
       ∧ signature ≠ NoSignature
       ∧ AuthenticationResponseOpts.did opts = Some did ∧ did ≠ EmptyString)
    ∧ (∃ request jwt registration types,
         verifiedJwt = Some request
         ∧ VerifiedAuthenticationRequestWithJWT.jwt request = Some jwt
         ∧ jwt ≠ EmptyString
         ∧ AuthenticationRequestPayload.registration
             (VerifiedAuthenticationRequestWithJWT.payload request) = Some registration
         ∧ subject_syntax_types_supported registration = Some types
         ∧ (VerifiedAuthenticationRequestWithJWT.presentationDefinitions request = Some []
            ∨ ∃ first rest definition,
                VerifiedAuthenticationRequestWithJWT.presentationDefinitions request
                  = Some (first :: rest)
                ∧ PresentationDefinitionWithLocation.definition first = Some definition)).
Proof.
  unfold createSIOPIDToken, outcome, assertValidResponseOpts, first_definition_id.
  split.
  - destruct verifiedJwt as [request|], resOpts as [opts|]; [|by crunch..].
    destruct (AuthenticationResponseOpts.signatureType opts) as [signature|] eqn:Hsig;
      [|by crunch].
    destruct (AuthenticationResponseOpts.did opts) as [did|] eqn:Hdid; [|by crunch].
    destruct (VerifiedAuthenticationRequestWithJWT.jwt request) as [jwt|] eqn:Hjwt;
      [|by crunch].
    destruct (AuthenticationRequestPayload.registration _) as [registration|] eqn:Hreg;
      [|by crunch].
    cbn [mbind option_bind].
    destruct (subject_syntax_types_supported registration) as [types|] eqn:Htypes;
      [|by crunch].
    intros Hrun. split.
    + exists opts, signature, did. split_and!; try done.
      * intros ->. crunch.
      * intros ->. crunch.
    + exists request, jwt, registration, types. split_and!; try done.
      * intros ->. crunch.
      * destruct (VerifiedAuthenticationRequestWithJWT.presentationDefinitions request)
          as [[|first rest]|]; [by left | | by crunch].
        destruct (PresentationDefinitionWithLocation.definition first) as [d|] eqn:Hd;
          [|by crunch].
        right. by exists first, rest, d.
  - intros [(opts & signature & did & -> & Hsig & Hshape & Hdid & Hne)
            (request & jwt & registration & types & -> & Hjwt & Hjne & Hreg & Htypes & Hpd)].
    rewrite Hsig, Hdid, Hjwt, Hreg.
    assert (JS.truthy (Some did) = true) as -> by (by apply truthy_nonempty).
    assert (JS.truthy (Some jwt) = true) as -> by (by apply truthy_nonempty).
    destruct Hpd as [->|(first & rest & d & -> & Hd)]; [|rewrite Hd];
      destruct signature; cbn; rewrite ?Htypes; cbn; rewrite ?andb_false_r; done.
Qed.

Lemma or_str_nonempty (a : option string) (b : string) :
  b ≠ EmptyString → JS.or_str a b ≠ EmptyString.
Proof. by destruct a as [[|c s]|]. Qed.

Lemma or_str_falsy (a : option string) (b : string) :
  JS.truthy a = false → JS.or_str a b = b.
Proof. by destruct a as [[|c s]|]. Qed.

(** The validity window of a token.  Each of [iat], [exp] and [auth_time]
    takes a reading of the clock of its own: [iat] is the first reading and
    [auth_time] the third, in seconds, and [exp] is the sum, as doubles, of
    the second reading in seconds and [expiresIn], where an [expiresIn]
    that is absent, zero or NaN counts as 600. *)
Theorem createSIOPIDToken_validity E clock verifiedJwt resOpts idToken :
  outcome (createSIOPIDToken E clock verifiedJwt resOpts) = Ok idToken →
  ∃ opts lifetime,
    resOpts = Some opts
    ∧ lifetime =
        match AuthenticationResponseOpts.expiresIn opts with
        | Some e =>
            if PrimFloat.eqb e 0%float || PrimFloat.is_nan e then 600%float else e
        | None => 600%float
        end
    ∧ IdToken.iat idToken = Some (seconds (clock 0%nat))
    ∧ IdToken.exp idToken = Some (PrimFloat.add (seconds (clock 1%nat)) lifetime)
    ∧ IdToken.auth_time idToken = Some (seconds (clock 2%nat)).
Proof.
  intros (request & opts & id & -> & -> & _ & ->)%createSIOPIDToken_fields.
  eexists opts, _. split_and!; [done | reflexivity | done | | done].
  cbn. unfold JS.or_num, JS.truthy_number.
  by destruct (AuthenticationResponseOpts.expiresIn opts) as [e|];
    [destruct (PrimFloat.eqb e 0 || PrimFloat.is_nan e)|].
Qed.

(** A lifetime below the spacing of the doubles near the clock reading is
    lost in the sum: with [expiresIn] 2^-34 s, a token made at one clock
    reading expires when it is issued. *)
Lemma createSIOPIDToken_validity_witness :
  ∃ idToken,
    outcome (createSIOPIDToken Sample.holder (λ _, 1700000000001%Z)
               (Some (Sample.request Sample.thumbprintTypes Sample.nonce))
               (Some (SampleMore.lasting (Some 0x1p-34%float)))) = Ok idToken
    ∧ IdToken.exp idToken
      = Some (PrimFloat.add (seconds 1700000000001) 0x1p-34%float)
    ∧ IdToken.exp idToken = IdToken.iat idToken.
Proof.
  eexists. split; [reflexivity|].
  destruct (createSIOPIDToken_validity Sample.holder (λ _, 1700000000001%Z)
              (Some (Sample.request Sample.thumbprintTypes Sample.nonce))
              (Some (SampleMore.lasting (Some 0x1p-34%float))) _ eq_refl)
    as (opts & lifetime & [= <-] & -> & Hiat & Hexp & _).
  split; [exact Hexp|]. rewrite Hexp, Hiat. reflexivity.
Defined.

(** The presentation submission of a token.  Whatever presentations the
    response options carry (none, one or several), the token has a
    submission with exactly one descriptor, whose path is the document
    root, under a fresh identifier; its [definition_id] is that of the
    first presentation definition of the request.  The issuer is the
    self-issued identifier and the audience is the redirect URI of the
    request. *)
Theorem createSIOPIDToken_submission E clock verifiedJwt resOpts idToken :
  outcome (createSIOPIDToken E clock verifiedJwt resOpts) = Ok idToken →
  ∃ request claim,
    verifiedJwt = Some request
    ∧ IdToken.iss idToken = Some (SELF_ISSUED_V2 E)
    ∧ IdToken.aud idToken =
        AuthenticationRequestPayload.redirect_uri
          (VerifiedAuthenticationRequestWithJWT.payload request)
    ∧ IdToken._vp_token idToken = Some claim
    ∧ PresentationSubmission.id (presentation_submission claim) = uuidv4 E
    ∧ path <$> PresentationSubmission.descriptor_map (presentation_submission claim)
        = ["$"]
    ∧ first_definition_id
        (VerifiedAuthenticationRequestWithJWT.presentationDefinitions request)
      = Ok (PresentationSubmission.definition_id (presentation_submission claim)).
Proof.
  intros (request & opts & id & -> & -> & Hid & ->)%createSIOPIDToken_fields.
  eexists request, _. by split_and!.
Qed.

Lemma createSIOPIDToken_submission_witness :
  ∃ idToken claim,
    outcome (createSIOPIDToken Sample.holder Sample.clock
               (Some (Sample.request Sample.thumbprintTypes Sample.nonce))
               (Some (Sample.responseOpts (Some "did:ethr:0xabc") None))) = Ok idToken
    ∧ IdToken._vp_token idToken = Some claim
    ∧ PresentationSubmission.definition_id (presentation_submission claim)
      = Some "definition-1".
Proof.
  eexists. 
  destruct (createSIOPIDToken_submission Sample.holder Sample.clock
              (Some (Sample.request Sample.thumbprintTypes Sample.nonce))
              (Some (Sample.responseOpts (Some "did:ethr:0xabc") None)) _ eq_refl)
    as (request & claim & [= <-] & _ & _ & Hclaim & _ & _ & Hid).
  exists claim. split_and!; [reflexivity | exact Hclaim |].
  cbn in Hid. by injection Hid as <-.
Defined.

(** Build, then validate.  The nonce and audience checks of the verifier
    never fail for a token built by [createSIOPIDToken], when the verifier
    expects the redirect URI of the request as audience and [getNonce] never
    returns the empty string: the token passes claims validation whenever
    its expiry does, that is, whenever its [exp] is a number other than
    zero and NaN that is not less than the validation time [now / 1000], as
    doubles. *)
Theorem createSIOPIDToken_passes_claims_validation
    E clock verifiedJwt resOpts idToken request expiry now header :
  outcome (createSIOPIDToken E clock verifiedJwt resOpts) = Ok idToken →
  verifiedJwt = Some request →
  (∀ state, getNonce E state ≠ EmptyString) →
  IdToken.exp idToken = Some expiry →
  PrimFloat.eqb expiry 0%float = false →
  PrimFloat.is_nan expiry = false →
  PrimFloat.ltb expiry (seconds now) = false →
  assertValidResponseJWT E now
    (ResponseJWTOpts.mk (Some header) None (Some idToken)
       (AuthenticationRequestPayload.redirect_uri
          (VerifiedAuthenticationRequestWithJWT.payload request))) = Ok tt.
Proof.
  intros (request' & opts & id & -> & -> & _ & ->)%createSIOPIDToken_fields
         [= <-] Hnonce Hexp Hzero Hnan Hlt.
  rewrite assertValidResponseJWT_verified.
  cbn [IdToken.nonce IdToken.exp IdToken.aud] in *.
  rewrite truthy_nonempty by (by apply or_str_nonempty, or_str_nonempty).
  cbn [negb].
  assert (negb (JS.truthy_num
                  (Some (PrimFloat.add (seconds (clock 1%nat))
                           (JS.or_num (AuthenticationResponseOpts.expiresIn opts) 600))))
          || JS.lt_num
               (Some (PrimFloat.add (seconds (clock 1%nat))
                        (JS.or_num (AuthenticationResponseOpts.expiresIn opts) 600)))
               (seconds now) = false) as ->.
  { apply not_expired_spec. by exists expiry. }
  destruct (JS.truthy (AuthenticationRequestPayload.redirect_uri _)) eqn:Haud; cbn; [|done].
  by rewrite bool_decide_false by naive_solver.
Qed.

(** A token made at 1700000000001 ms with the default lifetime, validated
    600 s later to the millisecond, passes. *)
Lemma createSIOPIDToken_passes_claims_validation_witness :
  ∃ idToken,
    outcome (createSIOPIDToken Sample.holder Sample.clock
               (Some (Sample.request Sample.thumbprintTypes None))
               (Some (Sample.responseOpts (Some "did:ethr:0xabc") None))) = Ok idToken
    ∧ assertValidResponseJWT Sample.holder 1700000600001
        (ResponseJWTOpts.mk (Some Sample.header) None (Some idToken)
           (Some "https://rp.example/cb")) = Ok tt.
Proof.
  eexists. split; [reflexivity|].
  eapply (createSIOPIDToken_passes_claims_validation Sample.holder Sample.clock
            (Some (Sample.request Sample.thumbprintTypes None))
            (Some (Sample.responseOpts (Some "did:ethr:0xabc") None)) _
            (Sample.request Sample.thumbprintTypes None));
    [ reflexivity | reflexivity | done | reflexivity
    | reflexivity | reflexivity | reflexivity ].
Defined.

(** And a token made at the same reading to last a tenth of a second is
    refused a tenth of a second later: its [exp] is the double below the
    validation time. *)
Lemma createSIOPIDToken_expires_early :
  ∃ idToken,
    outcome (createSIOPIDToken Sample.holder Sample.clock
               (Some (Sample.request Sample.thumbprintTypes None))
               (Some (SampleMore.lasting (Some 0x1.999999999999ap-4%float)))) = Ok idToken
    ∧ assertValidResponseJWT Sample.holder 1700000000101
        (ResponseJWTOpts.mk (Some Sample.header) None (Some idToken)
           (Some "https://rp.example/cb")) = Err (SIOPError EXPIRED).
Proof. eexists. split; reflexivity. Qed.

(** ** The response payload *)

(** [extractPresentations] fails exactly when two or more entries of
    [resOpts.vp] are located in the vp_token, and then with
    REQUEST_CLAIMS_PRESENTATION_DEFINITION_NOT_VALID. *)
Theorem extractPresentations_fails_iff resOpts e :
  extractPresentations resOpts = Err e
  ↔ e = SIOPError REQUEST_CLAIMS_PRESENTATION_DEFINITION_NOT_VALID
    ∧ (2 ≤ length (List.filter (located_at VP_TOKEN)
                     (default [] (AuthenticationResponseOpts.vp resOpts))))%nat.
Proof.
  unfold extractPresentations.
  destruct (AuthenticationResponseOpts.vp resOpts) as [[|first rest]|];
    cbn -[List.filter];
    [split; [done|intros [_ ?]; cbn in *; lia]..
    | | split; [done|intros [_ ?]; cbn in *; lia]].
  destruct (List.filter (located_at VP_TOKEN) (first :: rest)) as [|one [|two more]];
    cbn -[List.filter]; split; try done; try (intros [_ ?]; lia).
  - intros [= <-]. split; [done|lia].
  - by intros [-> _].
Qed.

(** What [extractPresentations] returns: the entries located in the id
    token, in their order, or undefined when there is none (never an empty
    array); and the one entry located in the vp_token, or undefined when
    there is none.  Entries without location are dropped. *)
Theorem extractPresentations_Ok resOpts verifiable_presentations vp_token :
  extractPresentations resOpts = Ok (verifiable_presentations, vp_token) →
  let vp := default [] (AuthenticationResponseOpts.vp resOpts) in
  default [] verifiable_presentations = List.filter (located_at ID_TOKEN) vp
  ∧ verifiable_presentations ≠ Some []
  ∧ option_list vp_token = List.filter (located_at VP_TOKEN) vp.
Proof.
  unfold extractPresentations.
  destruct (AuthenticationResponseOpts.vp resOpts) as [[|first rest]|];
    cbn -[List.filter];
    [by intros [= <- <-].. | | by intros [= <- <-]].
  destruct (List.filter (located_at VP_TOKEN) (first :: rest)) as [|one [|two more]];
    cbn -[List.filter]; [| |done];
    destruct (List.filter (located_at ID_TOKEN) (first :: rest)) as [|x l];
    by intros [= <- <-].
Qed.

Lemma extractPresentations_Ok_witness :
  extractPresentations
    (SampleMore.presenting
       (Some [SampleMore.inToken; SampleMore.nowhere; SampleMore.inVpToken;
              SampleMore.inToken]))
  = Ok (Some [SampleMore.inToken; SampleMore.inToken], Some SampleMore.inVpToken)
  ∧ [SampleMore.inToken; SampleMore.inToken]
    = List.filter (located_at ID_TOKEN)
        [SampleMore.inToken; SampleMore.nowhere; SampleMore.inVpToken; SampleMore.inToken].
Proof.
  split; [reflexivity|].
  by apply (extractPresentations_Ok
              (SampleMore.presenting
                 (Some [SampleMore.inToken; SampleMore.nowhere; SampleMore.inVpToken;
                        SampleMore.inToken]))
              (Some [SampleMore.inToken; SampleMore.inToken])
              (Some SampleMore.inVpToken)).
Defined.

(** [createSIOPResponsePayload] returns a payload exactly when the response
    options are valid, the verified request carries its non-empty jwt,
    [resOpts.vp] is not an empty array, and at most one of its entries is
    located in the vp_token. *)
Theorem createSIOPResponsePayload_succeeds_iff E verifiedJwt resOpts tokens :
  is_Ok (createSIOPResponsePayload E verifiedJwt resOpts tokens) = true
  ↔ assertValidResponseOpts resOpts = Ok tt
    ∧ (∃ request,
         verifiedJwt = Some request
         ∧ JS.truthy (VerifiedAuthenticationRequestWithJWT.jwt request) = true)
    ∧ (∃ opts,
         resOpts = Some opts
         ∧ AuthenticationResponseOpts.vp opts ≠ Some []
         ∧ (length (List.filter (located_at VP_TOKEN)
                      (default [] (AuthenticationResponseOpts.vp opts))) ≤ 1)%nat).
Proof.
  unfold createSIOPResponsePayload, extractPresentations.
  destruct (assertValidResponseOpts resOpts) as [[]|e] eqn:Hopts;
    cbn -[List.filter]; [|naive_solver].
  destruct verifiedJwt as [request|]; [|naive_solver].
  destruct (JS.truthy (VerifiedAuthenticationRequestWithJWT.jwt request)) eqn:Hjwt;
    cbn -[List.filter];
    [|split; [done|]; intros (_ & (r & [= <-] & Ht) & _); congruence].
  destruct resOpts as [opts|]; [|done].
  assert (∀ b : bool,
    (b = true ↔ AuthenticationResponseOpts.vp opts ≠ Some []
       ∧ (length (List.filter (located_at VP_TOKEN)
                    (default [] (AuthenticationResponseOpts.vp opts))) ≤ 1)%nat)
    → b = true
      ↔ Ok () = Ok ()
        ∧ (∃ request0, Some request = Some request0
             ∧ JS.truthy (VerifiedAuthenticationRequestWithJWT.jwt request0) = true)
        ∧ (∃ opts0, Some opts = Some opts0
             ∧ AuthenticationResponseOpts.vp opts0 ≠ Some []
             ∧ (length (List.filter (located_at VP_TOKEN)
                   (default [] (AuthenticationResponseOpts.vp opts0))) ≤ 1)%nat))
    as Hshape.
  { intros b ->. split.
    - intros [??]. split; [done|]. split; [by exists request|]. by exists opts.
    - by intros (_ & _ & opts' & [= <-] & ? & ?). }
  apply Hshape.
  destruct (AuthenticationResponseOpts.vp opts) as [[|first rest]|];
    cbn -[List.filter]; [naive_solver| |cbn; split; [split; [done|lia]|done]].
  destruct (List.filter (located_at VP_TOKEN) (first :: rest)) as [|one [|two more]];
    cbn -[List.filter].
  - destruct (located_at ID_TOKEN first), rest; cbn; split; (done || (split; [done|lia])).
  - destruct (located_at ID_TOKEN first), rest; cbn; split; (done || (split; [done|lia])).
  - split; [done|]. intros [_ ?]. lia.
Qed.

(** When the first entry of [resOpts.vp] is not located in the id token (or
    there is no [resOpts.vp]), the vp_token of the payload is the one entry
    located in the vp_token, wherever it stands in the array, and undefined
    when there is none. *)
Theorem createSIOPResponsePayload_located_vp_token E verifiedJwt opts tokens payload :
  createSIOPResponsePayload E verifiedJwt (Some opts) tokens = Ok payload →
  (AuthenticationResponseOpts.vp opts ≫= head) ≫= VerifiablePresentationPayload.location
    ≠ Some ID_TOKEN →
  SIOPResponsePayload.vp_token payload
  = from_option BuiltOne BuiltUndefined
      (head (List.filter (located_at VP_TOKEN)
               (default [] (AuthenticationResponseOpts.vp opts)))).
Proof.
  unfold createSIOPResponsePayload, extractPresentations.
  destruct (assertValidResponseOpts (Some opts)) as [[]|e]; cbn -[List.filter]; [|done].
  destruct verifiedJwt as [request|]; [|done].
  destruct (JS.truthy (VerifiedAuthenticationRequestWithJWT.jwt request));
    cbn -[List.filter]; [|done].
  destruct (AuthenticationResponseOpts.vp opts) as [[|first rest]|];
    cbn -[List.filter]; [done| |by intros [= <-]].
  intros Hrun Hfirst.
  assert (located_at ID_TOKEN first = false) as Hloc.
  { unfold located_at. by rewrite bool_decide_false. }
  rewrite Hloc in Hrun.
  destruct (List.filter (located_at VP_TOKEN) (first :: rest)) as [|one [|two more]];
    cbn in *; by simplify_eq.
Qed.

Lemma createSIOPResponsePayload_located_vp_token_witness :
  ∃ payload,
    createSIOPResponsePayload Sample.holder
      (Some (Sample.request Sample.thumbprintTypes None))
      (Some (SampleMore.presenting
               (Some [SampleMore.nowhere; SampleMore.inToken; SampleMore.inVpToken])))
      SampleMore.noTokens = Ok payload
    ∧ SIOPResponsePayload.vp_token payload = BuiltOne SampleMore.inVpToken.
Proof.
  eexists. split; [reflexivity|].
  by apply (createSIOPResponsePayload_located_vp_token Sample.holder
              (Some (Sample.request Sample.thumbprintTypes None))
              (SampleMore.presenting
                 (Some [SampleMore.nowhere; SampleMore.inToken; SampleMore.inVpToken]))
              SampleMore.noTokens).
Defined.

(** The identity token and the response payload of one request agree on
    the state that the response options carry.  Each of the two functions
    asks [getState] for a state of its own when the options carry none, so
    let the two calls run in environments of their own.  When the options
    carry a non-empty state and neither the request nor the options carry a
    nonce, the response payload reports that state, and the nonce of the
    identity token is the one that [getNonce] derives from it. *)
Theorem createSIOPIDToken_nonce_of_response_state
    E E' clock verifiedJwt resOpts tokens idToken payload request opts :
  outcome (createSIOPIDToken E clock verifiedJwt resOpts) = Ok idToken →
  createSIOPResponsePayload E' verifiedJwt resOpts tokens = Ok payload →
  verifiedJwt = Some request →
  resOpts = Some opts →
  JS.truthy (AuthenticationResponseOpts.state opts) = true →
  JS.truthy (AuthenticationRequestPayload.nonce
               (VerifiedAuthenticationRequestWithJWT.payload request)) = false →
  JS.truthy (AuthenticationResponseOpts.nonce opts) = false →
  AuthenticationResponseOpts.state opts = Some (SIOPResponsePayload.state payload)
  ∧ IdToken.nonce idToken = Some (getNonce E (SIOPResponsePayload.state payload)).
Proof.
  intros Htoken Hpayload -> -> Hstate Hrequest Hopts.
  apply createSIOPIDToken_fields in Htoken
    as (request' & opts' & definition_id & [= <-] & [= <-] & _ & ->).
  cbn [IdToken.nonce].
  rewrite (or_str_falsy _ _ Hrequest), (or_str_falsy _ _ Hopts).
  apply truthy_Some in Hstate as (state & Hstate & Hne).
  assert (∀ b, JS.or_str (AuthenticationResponseOpts.state opts) b = state) as Hor.
  { intros b. rewrite Hstate. by destruct state. }
  rewrite Hor.
  assert (SIOPResponsePayload.state payload = state) as ->; [|done].
  revert Hpayload. unfold createSIOPResponsePayload.
  destruct (assertValidResponseOpts (Some opts)) as [[]|e]; cbn; [|done].
  destruct (JS.truthy (VerifiedAuthenticationRequestWithJWT.jwt request)); cbn; [|done].
  destruct (extractPresentations opts) as [[presentations vp_token]|e]; cbn; [|done].
  rewrite Hor. repeat case_match; by intros [= <-].
Qed.

(** The token is made in an environment whose [getState] would make up one
    state and the payload in one whose [getState] would make up another:
    the state of the options prevails in both. *)
Lemma createSIOPIDToken_nonce_of_response_state_witness :
  ∃ idToken payload,
    outcome (createSIOPIDToken Sample.holder Sample.clock
               (Some (Sample.request Sample.thumbprintTypes None))
               (Some (SampleMore.stating "state-of-options"))) = Ok idToken
    ∧ createSIOPResponsePayload SampleMore.later
        (Some (Sample.request Sample.thumbprintTypes None))
        (Some (SampleMore.stating "state-of-options")) SampleMore.noTokens = Ok payload
    ∧ SIOPResponsePayload.state payload = "state-of-options"
    ∧ IdToken.nonce idToken = Some "nonce-of-state-of-options".
Proof.
  eexists _, _. split; [reflexivity|]. split; [reflexivity|].
  edestruct (createSIOPIDToken_nonce_of_response_state Sample.holder SampleMore.later
               Sample.clock (Some (Sample.request Sample.thumbprintTypes None))
               (Some (SampleMore.stating "state-of-options")) SampleMore.noTokens)
    as [Hstate Hnonce]; [reflexivity..|].
  split; [reflexivity|exact Hnonce].
Defined.

(** For a request and options from which [createSIOPIDToken] makes a token,
    [createSIOPResponsePayload] can only fail on the presentations: with a
    TypeError when [resOpts.vp] is an empty array, or with
    REQUEST_CLAIMS_PRESENTATION_DEFINITION_NOT_VALID when two or more entries
    are located in the vp_token. *)
Theorem createSIOPResponsePayload_fails_after_token
    E clock verifiedJwt resOpts tokens idToken e :
  outcome (createSIOPIDToken E clock verifiedJwt resOpts) = Ok idToken →
  createSIOPResponsePayload E verifiedJwt resOpts tokens = Err e →
  ∃ opts,
    resOpts = Some opts
    ∧ ((e = TypeError ∧ AuthenticationResponseOpts.vp opts = Some [])
       ∨ (e = SIOPError REQUEST_CLAIMS_PRESENTATION_DEFINITION_NOT_VALID
          ∧ (2 ≤ length (List.filter (located_at VP_TOKEN)
                           (default [] (AuthenticationResponseOpts.vp opts))))%nat)).
Proof.
  intros Htoken.
  assert (is_Ok (outcome (createSIOPIDToken E clock verifiedJwt resOpts)) = true)
    as Hok by by rewrite Htoken.
  revert Hok. clear Htoken.
  unfold createSIOPIDToken, createSIOPResponsePayload, extractPresentations, outcome.
  destruct (assertValidResponseOpts resOpts) as [[]|e']; [|by crunch].
  destruct verifiedJwt as [request|]; [|by crunch].
  destruct (JS.truthy (VerifiedAuthenticationRequestWithJWT.jwt request)); [|by crunch].
  destruct resOpts as [opts|]; [|by crunch].
  intros _. cbn -[List.filter]. intros Hfail. exists opts. split; [done|].
  revert Hfail.
  destruct (AuthenticationResponseOpts.vp opts) as [[|first rest]|];
    cbn -[List.filter]; [intros [= <-]; by left| |done].
  destruct (List.filter (located_at VP_TOKEN) (first :: rest)) as [|one [|two more]];
    cbn -[List.filter].
  - by destruct (located_at ID_TOKEN first), rest.
  - by destruct (located_at ID_TOKEN first), rest.
  - intros [= <-]. right. split; [done|lia].
Qed.

Lemma createSIOPResponsePayload_fails_after_token_witness :
  ∃ idToken,
    outcome (createSIOPIDToken Sample.holder Sample.clock
               (Some (Sample.request Sample.thumbprintTypes None))
               (Some (SampleMore.presenting (Some [])))) = Ok idToken
    ∧ createSIOPResponsePayload Sample.holder
        (Some (Sample.request Sample.thumbprintTypes None))
        (Some (SampleMore.presenting (Some []))) SampleMore.noTokens = Err TypeError
    ∧ ∃ opts,
        Some (SampleMore.presenting (Some [])) = Some opts
        ∧ ((TypeError = TypeError ∧ AuthenticationResponseOpts.vp opts = Some [])
           ∨ (TypeError = SIOPError REQUEST_CLAIMS_PRESENTATION_DEFINITION_NOT_VALID
              ∧ (2 ≤ length (List.filter (located_at VP_TOKEN)
                               (default [] (AuthenticationResponseOpts.vp opts))))%nat)).
Proof.
  eexists. split; [reflexivity|]. split; [reflexivity|].
  by eapply (createSIOPResponsePayload_fails_after_token Sample.holder Sample.clock
               (Some (Sample.request Sample.thumbprintTypes None))
               (Some (SampleMore.presenting (Some []))) SampleMore.noTokens).
Defined.

(** ** The builder class *)

Section BuilderClass.

Import RP.

Context (I : Imports).

Ltac methods :=
  unfold call, withScope, withResponseType, withClientId, withIssuer,
    withPresentationVerification, withRevocationVerification,
    withRevocationVerificationCallback, withCustomResolver,
    withAuthorizationEndpoint, withCheckLinkedDomain, addDidMethod, addResolver,
    withRedirectUri, withRequestByReference, withRequestByValue, withRequestBy,
    withResponseMode, withClientMetadata, withInternalSignature, withSuppliedSignature,
    withSignature, withPresentationDefinition, withWellknownDIDVerifyCallback,
    RP.addSupportedVersion, RP.withSupportedVersions, withEventEmitter,
    withSessionManager, before_D11, assign in *.

(** One call, field by field. *)
Ltac one_call b c :=
  destruct c, b; methods; cbn in *; simplify_eq;
  repeat (first [ case_match
                | case_bool_decide
                | match goal with
                  | H : context [mbind _ ?m] |- _ => destruct m eqn:?
                  end ];
          cbn in *; simplify_eq);
  try done.

Lemma call_eventEmitter b c b' :
  call I b c = Ok b' →
  eventEmitter b' =
    match c with
    | WithEventEmitter e => Some (default newEventEmitter e)
    | _ => eventEmitter b
    end.
Proof. intros Hcall. one_call b c. Qed.

Lemma call_sessionManager b c b' :
  call I b c = Ok b' →
  sessionManager b' =
    match c with
    | WithSessionManager m => Some m
    | _ => sessionManager b
    end.
Proof. intros Hcall. one_call b c. Qed.

Lemma call_versions b c b' :
  call I b c = Ok b' →
  versions b' = foldl RPBuilder.call (versions b) (version_calls [c]).
Proof. intros Hcall. one_call b c. Qed.

Lemma call_requestObjectBy b c b' :
  call I b c = Ok b' →
  requestObjectBy b' = requestObjectBy b
  ∨ ∃ o, requestObjectBy b' = Some o
      ∧ targets o = AUTHORIZATION_REQUEST
      ∧ (passBy o = REFERENCE → JS.truthy (reference_uri o) = true).
Proof.
  intros Hcall. one_call b c; try by left.
  all: right; eexists; split_and!; try done.
  cbn. intros _. by destruct referenceUri as [[|]|].
Qed.

Lemma calls_cons b c cs b' :
  calls I b (c :: cs) = Ok b' ↔ ∃ b1, call I b c = Ok b1 ∧ calls I b1 cs = Ok b'.
Proof. cbn. destruct (call I b c) as [b1|e]; cbn; naive_solver. Qed.

Lemma calls_invariant (P : Builder → Prop) b cs b' :
  (∀ b c b', call I b c = Ok b' → P b → P b') →
  P b → calls I b cs = Ok b' → P b'.
Proof.
  intros Hstep. revert b. induction cs as [|c cs IH]; intros b Hb.
  - by intros [= <-].
  - intros (b1 & Hcall & Hcalls)%calls_cons. eauto.
Qed.

Lemma calls_sessionManager b cs b' :
  calls I b cs = Ok b' →
  is_Some (sessionManager b')
  ↔ is_Some (sessionManager b) ∨ ∃ m, WithSessionManager m ∈ cs.
Proof.
  revert b. induction cs as [|c cs IH]; intros b.
  - intros [= <-]. split; [by left|]. intros [?|[m Hm]]; [done|].
    by apply elem_of_nil in Hm.
  - intros (b1 & Hcall & Hcalls)%calls_cons.
    rewrite (IH _ Hcalls), (call_sessionManager _ _ _ Hcall).
    setoid_rewrite elem_of_cons. destruct c; naive_solver.
Qed.

Lemma calls_eventEmitter b cs b' :
  calls I b cs = Ok b' →
  is_Some (eventEmitter b')
  ↔ is_Some (eventEmitter b) ∨ ∃ e, WithEventEmitter e ∈ cs.
Proof.
  revert b. induction cs as [|c cs IH]; intros b.
  - intros [= <-]. split; [by left|]. intros [?|[m Hm]]; [done|].
    by apply elem_of_nil in Hm.
  - intros (b1 & Hcall & Hcalls)%calls_cons.
    rewrite (IH _ Hcalls), (call_eventEmitter _ _ _ Hcall).
    setoid_rewrite elem_of_cons. destruct c; naive_solver.
Qed.

Lemma calls_versions b cs b' :
  calls I b cs = Ok b' →
  versions b' = RPBuilder.calls (versions b) (version_calls cs).
Proof.
  revert b. induction cs as [|c cs IH]; intros b.
  - by intros [= <-].
  - intros (b1 & Hcall & Hcalls)%calls_cons.
    rewrite (IH _ Hcalls), (call_versions _ _ _ Hcall).
    unfold RPBuilder.calls, version_calls. cbn. by rewrite app_nil_r, foldl_app.
Qed.

(** The builder's first version after a chain of calls on a new instance. *)
Lemma calls_first_version initial cs b :
  calls I (newInstance initial) cs = Ok b →
  head (RPBuilder.versions (versions b))
  = head (RPBuilder.versions (RPBuilder.newInstance initial)
          ++ RPBuilder.added (version_calls cs)).
Proof.
  intros Hcalls. rewrite (calls_versions _ _ _ Hcalls), calls_head, head_app.
  done.
Qed.

(** [build] refuses a builder with a session manager and no event emitter,
    and only that one.  Told by the calls made on a new instance: [build]
    throws when [withSessionManager] was called and [withEventEmitter] never
    was, whatever else was called and in whatever order; otherwise it hands
    the builder to the constructor of the RP. *)
Theorem build_after_calls initial cs b :
  calls I (newInstance initial) cs = Ok b →
  (((∃ m, WithSessionManager m ∈ cs) ∧ (∀ e, WithEventEmitter e ∉ cs)) →
   build I b
   = Err (PlainError
            "Please enable the event emitter on the RP when using a replay registry"))
  ∧ (((∀ m, WithSessionManager m ∉ cs) ∨ (∃ e, WithEventEmitter e ∈ cs)) →
     build I b = construct I b).
Proof.
  intros Hcalls.
  pose proof (calls_sessionManager _ _ _ Hcalls) as Hmanager.
  pose proof (calls_eventEmitter _ _ _ Hcalls) as Hemitter.
  cbn in Hmanager, Hemitter. unfold build.
  destruct (sessionManager b) as [manager|], (eventEmitter b) as [given|]; cbn.
  all: split; [intros [[m Hm] He]|intros [Hm|[e He]]]; try done.
  - destruct (proj1 Hemitter) as [[? [=]]|[e Hin]]; [done|]. by destruct (He e).
  - destruct (proj1 Hmanager) as [[? [=]]|[m Hin]]; [done|]. by destruct (Hm m).
  - destruct (proj2 Hemitter) as [? [=]]. eauto.
  - destruct (proj2 Hmanager) as [? [=]]. eauto.
  - destruct (proj2 Hmanager) as [? [=]]. eauto.
Qed.

(** However the request-passing methods are called, and whatever else is,
    the builder never holds a pass-by-reference without its URI: a
    [requestObjectBy] that the builder holds targets the authorization
    request and, when it passes by reference, has a non-empty reference
    URI. *)
Theorem requestObjectBy_after_calls initial cs b o :
  calls I (newInstance initial) cs = Ok b →
  requestObjectBy b = Some o →
  targets o = AUTHORIZATION_REQUEST
  ∧ (passBy o = REFERENCE → ∃ uri, reference_uri o = Some uri ∧ uri ≠ EmptyString).
Proof.
  intros Hcalls.
  pose (P := λ b, ∀ o, requestObjectBy b = Some o →
                       targets o = AUTHORIZATION_REQUEST
                       ∧ (passBy o = REFERENCE → JS.truthy (reference_uri o) = true)).
  assert (P b) as Hb.
  { apply (calls_invariant P _ _ _) with (3 := Hcalls); [|done].
    intros b0 c b1 Hcall H0 o1 Ho1.
    destruct (call_requestObjectBy _ _ _ Hcall) as [Heq|(o2 & Ho2 & ?)].
    - apply H0. by rewrite <- Heq.
    - by simplify_eq. }
  intros Ho. destruct (Hb o Ho) as [? Huri]. split; [done|].
  intros Href. by apply truthy_Some, Huri.
Qed.

(** The other methods leave the supported versions alone: after any chain
    of calls of the class, the version state is what the calls of
    [addSupportedVersion] and [withSupportedVersions] in the chain make of
    it, in their order. *)
Theorem calls_version_calls b cs b' requireVersion :
  calls I b cs = Ok b' →
  versions b' = RPBuilder.calls (versions b) (version_calls cs)
  ∧ getSupportedRequestVersion requireVersion b'
    = RPBuilder.getSupportedRequestVersion requireVersion
        (RPBuilder.calls (versions b) (version_calls cs)).
Proof.
  intros Hcalls. unfold getSupportedRequestVersion.
  by rewrite (calls_versions _ _ _ Hcalls).
Qed.

Lemma calls_supported v cs b :
  v ≠ 0%Z →
  calls I (newInstance (Some v)) cs = Ok b →
  RPBuilder.getSupportedRequestVersion None (versions b) = Ok (Some v).
Proof.
  intros Hv Hcalls.
  rewrite getSupportedRequestVersion_head, (calls_first_version _ _ _ Hcalls).
  cbn. by case_decide.
Qed.

Lemma before_D11_supported b v :
  RPBuilder.getSupportedRequestVersion None (versions b) = Ok (Some v) →
  before_D11 I b = Ok (bool_decide (v < SIOPv2_D11 I)%Z).
Proof. unfold before_D11. by intros ->. Qed.

(** The version given to [newInstance] decides for good where
    [withClientMetadata] writes.  After any chain of calls on an instance
    made for version [v], the call succeeds, keeps the metadata as
    [clientMetadata], records the targets on the metadata object, and writes
    the [registration] property of the two payloads when [v] is before
    SIOPv2_D11, the [client_metadata] property otherwise, leaving the other
    one as it was. *)
Theorem withClientMetadata_after_calls v cs b metadata targets :
  v ≠ 0%Z →
  calls I (newInstance (Some v)) cs = Ok b →
  ∃ b',
    withClientMetadata I metadata targets b = Ok b'
    ∧ clientMetadata b' = Some metadata
    ∧ targetsOf b' !! object_id metadata = Some targets
    ∧ let written := assignIfAuth I _ metadata targets false in
      let written' := assignIfRequestObject I _ metadata targets true in
      let auth := authorizationRequestPayload b in
      let auth' := authorizationRequestPayload b' in
      let object := requestObjectPayload b in
      let object' := requestObjectPayload b' in
      if bool_decide (v < SIOPv2_D11 I)%Z
      then RequestPayload.registration auth' = written
           ∧ RequestPayload.registration object' = written'
           ∧ RequestPayload.client_metadata auth' = RequestPayload.client_metadata auth
           ∧ RequestPayload.client_metadata object' = RequestPayload.client_metadata object
      else RequestPayload.client_metadata auth' = written
           ∧ RequestPayload.client_metadata object' = written'
           ∧ RequestPayload.registration auth' = RequestPayload.registration auth
           ∧ RequestPayload.registration object' = RequestPayload.registration object.
Proof.
  intros Hv Hcalls. pose proof (calls_supported _ _ _ Hv Hcalls) as Hfirst.
  unfold withClientMetadata.
  rewrite (before_D11_supported _ v) by by destruct b.
  cbn [mbind Outcome_bind]. eexists. split; [done|].
  destruct b as [? ? ? ? ? ? ? ? ? ? ? ? [] [] ? ? ?]. unfold assign.
  case_bool_decide; cbn; by rewrite lookup_insert_eq.
Qed.

Lemma withPresentationDefinition_Err b definitionOpts targets e :
  withPresentationDefinition I definitionOpts targets b = Err e
  ↔ RPBuilder.getSupportedRequestVersion None (versions b) = Err e.
Proof.
  unfold withPresentationDefinition, before_D11.
  destruct (RPBuilder.getSupportedRequestVersion None (versions b)) as [[v|]|e'];
    cbn; [case_bool_decide|..]; naive_solver.
Qed.

(** [withPresentationDefinition] fails only for want of a version: on an
    instance made without a version (or with version 0, which the
    constructor takes for none) to which no call has added one, and then
    with the error of [getSupportedRequestVersion]. *)
Theorem withPresentationDefinition_fails_iff initial cs b definitionOpts targets e :
  calls I (newInstance initial) cs = Ok b →
  withPresentationDefinition I definitionOpts targets b = Err e
  ↔ e = PlainError "No supported version supplied/available"
    ∧ (initial = None ∨ initial = Some 0%Z)
    ∧ RPBuilder.added (version_calls cs) = [].
Proof.
  intros Hcalls.
  rewrite withPresentationDefinition_Err, getSupportedRequestVersion_head,
    (calls_first_version _ _ _ Hcalls), head_app.
  destruct initial as [v|]; cbn; [case_decide as Hv; cbn|].
  - destruct (RPBuilder.added _) as [|x l]; cbn; [case_decide|]; naive_solver.
  - naive_solver.
  - destruct (RPBuilder.added _) as [|x l]; cbn; [case_decide|]; naive_solver.
Qed.

Lemma call_payload_style v b c b' :
  let style b :=
    RPBuilder.getSupportedRequestVersion None (versions b) = Ok (Some v)
    ∧ ∀ p, p = authorizationRequestPayload b ∨ p = requestObjectPayload b →
        if bool_decide (v < SIOPv2_D11 I)%Z
        then RequestPayload.client_metadata p = None
             ∧ RequestPayload.presentation_definition p = None
             ∧ RequestPayload.presentation_definition_uri p = None
        else RequestPayload.registration p = None
             ∧ RequestPayload.claims p = None in
  call I b c = Ok b' → style b → style b'.
Proof.
  intros style Hcall [Hfirst Hstyle]. split.
  - rewrite (call_versions _ _ _ Hcall), getSupportedRequestVersion_head.
    rewrite getSupportedRequestVersion_head in Hfirst.
    change (foldl RPBuilder.call ?x ?l) with (RPBuilder.calls x l).
    rewrite calls_head. by destruct (head (RPBuilder.versions (versions b))).
  - pose proof (Hstyle _ (or_introl eq_refl)) as Hauth.
    pose proof (Hstyle _ (or_intror eq_refl)) as Hobject.
    clear Hstyle. unfold authorizationRequestPayload, requestObjectPayload in *.
    destruct c;
      try (rewrite (before_D11_supported _ v) in Hcall
             by by destruct b);
      destruct b as [? ? ? ? ? ? ? ? ? ? ? ? [] [] ? ? ?].
    all: methods; cbn in *.
    all: try rewrite Hfirst in Hcall; cbn in *.
    all: repeat (first [ case_match
                       | match goal with
                         | H : context [mbind _ ?m] |- _ => destruct m eqn:?
                         end ];
                 cbn in *; simplify_eq).
    all: simplify_eq; by intros p [->| ->].
Qed.

(** A builder keeps to the request style of its version.  After any chain
    of calls on an instance made for a version before SIOPv2_D11, neither
    payload has a [client_metadata], [presentation_definition] or
    [presentation_definition_uri] property; on an instance made for a later
    version, neither has a [registration] or [claims] property. *)
Theorem payload_style_after_calls v cs b p :
  v ≠ 0%Z →
  calls I (newInstance (Some v)) cs = Ok b →
  p = authorizationRequestPayload b ∨ p = requestObjectPayload b →
  if bool_decide (v < SIOPv2_D11 I)%Z
  then RequestPayload.client_metadata p = None
       ∧ RequestPayload.presentation_definition p = None
       ∧ RequestPayload.presentation_definition_uri p = None
  else RequestPayload.registration p = None
       ∧ RequestPayload.claims p = None.
Proof.
  intros Hv Hcalls.
  eapply (calls_invariant _ _ _ _ (call_payload_style v)); [|exact Hcalls].
  split.
  - cbn. by case_decide.
  - intros p' [->| ->]; by case_bool_decide.
Qed.

Lemma call_resolvers b c b' method :
  call I b c = Ok b' →
  is_Some (resolvers b !! method) → is_Some (resolvers b' !! method).
Proof.
  intros Hcall. one_call b c.
  all: cbn; rewrite ?lookup_insert_is_Some'; naive_solver.
Qed.

(** No method of the class takes a resolver away: a method that has an
    entry in [resolvers] has one after any chain of calls. *)
Theorem resolvers_after_calls b cs b' method :
  calls I b cs = Ok b' →
  is_Some (resolvers b !! method) → is_Some (resolvers b' !! method).
Proof.
  intros Hcalls Hbefore.
  apply (calls_invariant (λ b, is_Some (resolvers b !! method)) b cs b'); [|done..].
  intros b0 c b1. apply call_resolvers.
Qed.

End BuilderClass.

Section BuilderRuns.

Import RP SampleBuilder.

Lemma build_after_calls_witness :
  ∃ b,
    calls imports (newInstance (Some 70%Z)) chain = Ok b
    ∧ build imports b
      = Err (PlainError
               "Please enable the event emitter on the RP when using a replay registry").
Proof.
  eexists. split; [reflexivity|].
  apply (build_after_calls imports (Some 70%Z) chain); [reflexivity|].
  split.
  - exists (session_manager 1). apply elem_of_cons. right. apply elem_of_cons. by left.
  - intros e. not_in_log.
Defined.

Lemma requestObjectBy_after_calls_witness :
  ∃ b o,
    calls imports (newInstance (Some 70%Z)) chain = Ok b
    ∧ requestObjectBy b = Some o
    ∧ targets o = AUTHORIZATION_REQUEST
    ∧ (passBy o = REFERENCE → ∃ uri, reference_uri o = Some uri ∧ uri ≠ EmptyString).
Proof.
  eexists _, _. split; [reflexivity|]. split; [reflexivity|].
  by eapply (requestObjectBy_after_calls imports (Some 70%Z) chain).
Defined.

Lemma calls_version_calls_witness :
  ∃ b,
    calls imports (newInstance (Some 70%Z)) chain = Ok b
    ∧ versions b = RPBuilder.mkBuilder (Some [70; 110]%Z)
    ∧ getSupportedRequestVersion None b = Ok (Some 70%Z).
Proof.
  eexists. split; [reflexivity|].
  by apply (calls_version_calls imports (newInstance (Some 70%Z)) chain _ None).
Defined.

Lemma withClientMetadata_after_calls_witness :
  ∃ b,
    calls imports (newInstance (Some 70%Z)) chain = Ok b
    ∧ ∃ b',
        withClientMetadata imports (client_metadata_opts 2) None b = Ok b'
        ∧ RequestPayload.registration (authorizationRequestPayload b')
          = Some (client_metadata_opts 2)
        ∧ RequestPayload.client_metadata (authorizationRequestPayload b') = None.
Proof.
  eexists. split; [reflexivity|].
  edestruct withClientMetadata_after_calls
    with (I := imports) (v := 70%Z) (cs := chain)
         (metadata := client_metadata_opts 2) (targets := @None PropertyTargets)
    as (b' & Hcall & _ & _ & Hauth & _ & Hkept & _); [done | reflexivity |].
  exists b'. split; [exact Hcall|]. by split.
Defined.

Lemma withPresentationDefinition_fails_iff_witness :
  ∃ b,
    calls imports (newInstance (Some 0%Z))
      [WithScope "openid" None; WithEventEmitter None] = Ok b
    ∧ withPresentationDefinition imports definitionOpts None b
      = Err (PlainError "No supported version supplied/available").
Proof.
  eexists. split; [reflexivity|].
  apply (withPresentationDefinition_fails_iff imports (Some 0%Z)
           [WithScope "openid" None; WithEventEmitter None]);
    [reflexivity|].
  split; [done|]. split; [by right|done].
Defined.

Lemma payload_style_after_calls_witness :
  ∃ b,
    calls imports (newInstance (Some 70%Z)) chain = Ok b
    ∧ RequestPayload.client_metadata (requestObjectPayload b) = None
    ∧ RequestPayload.presentation_definition (requestObjectPayload b) = None
    ∧ RequestPayload.presentation_definition_uri (requestObjectPayload b) = None.
Proof.
  eexists. split; [reflexivity|].
  by eapply payload_style_after_calls
    with (I := imports) (v := 70%Z) (cs := chain); [|reflexivity|right].
Defined.

Lemma resolvers_after_calls_witness :
  ∃ b,
    calls imports resolving chain = Ok b
    ∧ is_Some (resolvers b !! "web").
Proof.
  eexists. split; [reflexivity|].
  by apply (resolvers_after_calls imports resolving chain).
Defined.

End BuilderRuns.
